(** * EPF annual account slip generator: the calculation engine

    A shallow embedding of [src/epf_calculator.py]: the schema validator
    ([validate_sheet_dimensions]), the record extractor ([fetch_sheet_data]),
    the contribution engine ([calculate_contributions]), the balance and
    interest engine ([calculate_monthly_balances]), the statement
    assembler ([generate_output_rows]) and the run controller ([main] with
    [start_up_check], [open_input_excel_file] and [get_sheet]).

    Python integers are [Z]; Python floats are IEEE 754 binary64 numbers,
    taken from the Standard Library's executable specification
    ([SpecFloat], precision 53, [emax] 1024); exceptions are the [Raise]
    branch of an error monad. *)

From Stdlib Require Import ZArith Lia Floats.SpecFloat.
From Stdlib Require Import DecimalString DecimalZ DecimalPos.
From stdpp Require Import base tactics option list strings.

Local Open Scope Z_scope.

(** ** Exceptions and the error monad *)

Inductive exn : Type :=
  | TypeError
  | ValueError
  | OverflowError
  | IndexError
  | DataValidationError (msg : string).

Inductive result (A : Type) : Type :=
  | Ok (a : A)
  | Raise (e : exn).

Arguments Ok {A} a.
Arguments Raise {A} e.

#[global] Instance result_ret : MRet result := @Ok.
#[global] Instance result_bind : MBind result := fun A B f m =>
  match m with
  | Ok a => f a
  | Raise e => Raise e
  end.

(** ** Python numbers *)

Module Py.

(** Python's [float]: binary64. *)
Definition prec : Z := 53.
Definition emax : Z := 1024.
Definition float : Type := spec_float.

Definition fmul : float -> float -> float := SFmul prec emax.
Definition fdiv : float -> float -> float := SFdiv prec emax.

(** [float(z)] for an [int]: correctly rounded (ties to even);
    [OverflowError] when the integer is beyond the largest double. *)
Definition float_of_int (z : Z) : result float :=
  match binary_normalize prec emax z 0 false with
  | S754_infinity _ => Raise OverflowError
  | f => Ok f
  end.

(** A decimal literal [num / den] whose numerator and denominator are both
    exact doubles: the double nearest to the quotient, as the Python
    parser produces it. *)
Definition literal (num den : Z) : float :=
  fdiv (binary_normalize prec emax num 0 false)
       (binary_normalize prec emax den 0 false).

(** Nearest integer to [m / 2^k], ties to the even one. *)
Definition rne_shift (m k : Z) : Z :=
  let q := m / 2 ^ k in
  match 2 * (m mod 2 ^ k) ?= 2 ^ k with
  | Lt => q
  | Eq => if Z.even q then q else q + 1
  | Gt => q + 1
  end.

(** [round(x)] with one argument, for a float [x]: the nearest integer,
    ties to even, as an [int]; infinities and NaN raise. *)
Definition round (x : float) : result Z :=
  match x with
  | S754_zero _ => Ok 0
  | S754_infinity _ => Raise OverflowError
  | S754_nan => Raise ValueError
  | S754_finite s m e =>
      let a := match e with
               | Zneg p => rne_shift (Zpos m) (Zpos p)
               | _ => Zpos m * 2 ^ e
               end in
      Ok (if s then - a else a)
  end.

(** [int(x)] for a float [x]: truncation towards zero. *)
Definition trunc (x : float) : result Z :=
  match x with
  | S754_zero _ => Ok 0
  | S754_infinity _ => Raise OverflowError
  | S754_nan => Raise ValueError
  | S754_finite s m e =>
      let a := match e with
               | Zneg p => Zpos m / 2 ^ Zpos p
               | _ => Zpos m * 2 ^ e
               end in
      Ok (if s then - a else a)
  end.

(** [below k x]: [x] is a finite double of magnitude below [2^k] (a zero,
    or a mantissa of at most 53 bits whose leading bit is under [2^k]). *)
Definition below (k : Z) (x : float) : bool :=
  match x with
  | S754_zero _ => true
  | S754_finite _ m e =>
      (Zpos (digits2_pos m) <=? 53) && (Zpos (digits2_pos m) + e <=? k)
  | _ => false
  end.

(** [str(z)] for an [int]. *)
Definition str (z : Z) : string := NilZero.string_of_int (Z.to_int z).

(** [sum(l)] for a list of [int]. *)
Definition sum (l : list Z) : Z := foldl Z.add 0 l.

(** [len(l)]. *)
Definition len {A} (l : list A) : Z := Z.of_nat (length l).

(** [range(a, b)]. *)
Definition range (a b : Z) : list Z :=
  (fun k : nat => a + Z.of_nat k) <$> seq 0 (Z.to_nat (b - a)).

(** [l[i]]: negative indices count from the end, anything else out of
    range raises [IndexError]. *)
Definition getitem {A} (l : list A) (i : Z) : result A :=
  let j := if i <? 0 then len l + i else i in
  if j <? 0 then Raise IndexError
  else match l !! Z.to_nat j with
       | Some x => Ok x
       | None => Raise IndexError
       end.

(** [for x in xs: body], threading the loop's variables as a state. *)
Fixpoint for_each {A S} (xs : list A) (body : A -> S -> result S) (s : S)
  : result S :=
  match xs with
  | [] => Ok s
  | x :: xs' => s' ← body x s; for_each xs' body s'
  end.

(** [enumerate(l)]. *)
Definition enumerate {A} (l : list A) : list (Z * A) :=
  imap (fun k x => (Z.of_nat k, x)) l.

End Py.

(** ** Python values

    What a worksheet cell or a table holds: nothing, an integer, a float, a
    text or a list. Booleans and dates are left out. [int(text)] is Python's
    own parser and is a parameter of the functions that call it. *)

#[warnings="-register-all"]
Inductive value : Type :=
  | VNone
  | VInt (z : Z)
  | VFloat (f : Py.float)
  | VStr (s : string)
  | VList (l : list value).

Fixpoint chars (s : string) : list value :=
  match s with
  | EmptyString => []
  | String c s' => VStr (String c EmptyString) :: chars s'
  end.

(** The elements of a value that is indexed, sliced or iterated over. *)
Definition as_sequence (v : value) : result (list value) :=
  match v with
  | VList l => Ok l
  | VStr s => Ok (chars s)
  | VNone | VInt _ | VFloat _ => Raise TypeError
  end.

(** [v[i]]. *)
Definition getitem (v : value) (i : Z) : result value :=
  xs ← as_sequence v; Py.getitem xs i.

(** [v[a:b]] for [0 <= a <= b], as the list of its elements. *)
Definition slice (v : value) (a b : Z) : result (list value) :=
  xs ← as_sequence v; Ok (take (Z.to_nat (b - a)) (drop (Z.to_nat a) xs)).

(** [v * c] for a value [v] and a float [c]. *)
Definition mul_float (v : value) (c : Py.float) : result Py.float :=
  match v with
  | VInt z => x ← Py.float_of_int z; Ok (Py.fmul x c)
  | VFloat x => Ok (Py.fmul x c)
  | VNone | VStr _ | VList _ => Raise TypeError
  end.

(** [int(v)]. *)
Definition py_int (int_of_text : string -> option Z) (v : value) : result Z :=
  match v with
  | VInt z => Ok z
  | VFloat x => Py.trunc x
  | VStr s => match int_of_text s with
              | Some z => Ok z
              | None => Raise ValueError
              end
  | VNone | VList _ => Raise TypeError
  end.

(** ** Constants *)

Definition EMPLOYEE_CONTRIBUTION_RATE : Py.float := Py.literal 12 100.
Definition EPS_CONTRIBUTION_RATE : Py.float := Py.literal 833 10000.
Definition EMPLOYER_CONTRIBUTION_RATE : Py.float := Py.literal 367 10000.
Definition INTEREST_DIVISOR : Z := 1200.
Definition EXPECTED_WAGES_COLUMNS : Z := 14.
Definition EXPECTED_WDL_COLUMNS : Z := 12.
Definition EXPECTED_OB_COLUMNS : Z := 1.

(** ** Worksheets

    The part of an openpyxl worksheet the engine reads: its dimensions and
    its cells, addressed by row and column from 1. *)

Record worksheet : Type := {
  max_row : Z;
  max_column : Z;
  cell : Z -> Z -> value
}.

(** ** Schema validator *)

Definition column_message (name : string) (expected : Z) (noun : string)
    (found : Z) : string :=
  "In '" +:+ name +:+ "' Sheet Expected " +:+ Py.str expected +:+ " "
    +:+ noun +:+ ", found " +:+ Py.str found +:+ ".".

Definition row_message (wage_rows : Z) (name : string) (rows : Z) : string :=
  "Row count mismatch: 'Wages' has " +:+ Py.str wage_rows +:+ " rows, '"
    +:+ name +:+ "' has " +:+ Py.str rows +:+ " rows.".

Definition validate_sheet_dimensions
    (wage_sheet ob_ee_sheet ob_er_sheet ob_eps_sheet wdl_ee_sheet
       wdl_er_sheet : worksheet) : result unit :=
  let wage_sheet_row_count := max_row wage_sheet in
  (* Column validation *)
  if negb (max_column wage_sheet =? EXPECTED_WAGES_COLUMNS) then
    Raise (DataValidationError
      (column_message "Wages" EXPECTED_WAGES_COLUMNS "columns"
         (max_column wage_sheet)))
  else if negb (max_column ob_ee_sheet =? EXPECTED_OB_COLUMNS) then
    Raise (DataValidationError
      (column_message "OB_EE" EXPECTED_OB_COLUMNS "column"
         (max_column ob_ee_sheet)))
  else if negb (max_column ob_er_sheet =? EXPECTED_OB_COLUMNS) then
    Raise (DataValidationError
      (column_message "OB_ER" EXPECTED_OB_COLUMNS "column"
         (max_column ob_er_sheet)))
  else if negb (max_column ob_eps_sheet =? EXPECTED_OB_COLUMNS) then
    Raise (DataValidationError
      (column_message "OB_EPS" EXPECTED_OB_COLUMNS "column"
         (max_column ob_eps_sheet)))
  else if negb (max_column wdl_ee_sheet =? EXPECTED_WDL_COLUMNS) then
    Raise (DataValidationError
      (column_message "WDL_EE" EXPECTED_WDL_COLUMNS "columns"
         (max_column wdl_ee_sheet)))
  else if negb (max_column wdl_er_sheet =? EXPECTED_WDL_COLUMNS) then
    Raise (DataValidationError
      (column_message "WDL_ER" EXPECTED_WDL_COLUMNS "columns"
         (max_column wdl_er_sheet)))
  (* Row validation *)
  else if negb (wage_sheet_row_count =? max_row ob_ee_sheet) then
    Raise (DataValidationError
      (row_message wage_sheet_row_count "OB_EE" (max_row ob_ee_sheet)))
  else if negb (wage_sheet_row_count =? max_row ob_er_sheet) then
    Raise (DataValidationError
      (row_message wage_sheet_row_count "OB_ER" (max_row ob_er_sheet)))
  else if negb (wage_sheet_row_count =? max_row ob_eps_sheet) then
    Raise (DataValidationError
      (row_message wage_sheet_row_count "OB_EPS" (max_row ob_eps_sheet)))
  else if negb (wage_sheet_row_count =? max_row wdl_ee_sheet) then
    Raise (DataValidationError
      (row_message wage_sheet_row_count "WDL_EE" (max_row wdl_ee_sheet)))
  else if negb (wage_sheet_row_count =? max_row wdl_er_sheet) then
    Raise (DataValidationError
      (row_message wage_sheet_row_count "WDL_ER" (max_row wdl_er_sheet)))
  else Ok tt.

(** ** Record extractor *)

(** [0 if value is None else value]. *)
Definition zero_if_none (v : value) : value :=
  match v with
  | VNone => VInt 0
  | _ => v
  end.

Definition fetch_sheet_data (sheet : worksheet) (data_type : string)
    : list value :=
  foldl (fun data row =>
      if String.eqb data_type "single" then
        let value := cell sheet row 1 in
        data ++ [zero_if_none value]
      else
        let row_data :=
          foldl (fun row_data column =>
              let value := cell sheet row column in
              row_data ++ [zero_if_none value])
            [] (Py.range 1 (max_column sheet + 1)) in
        data ++ [VList row_data])
    [] (Py.range 2 (max_row sheet + 1)).

(** ** Contribution engine *)

Definition calculate_contributions (wage : value) : result (Z * Z * Z) :=
  employee ← (x ← mul_float wage EMPLOYEE_CONTRIBUTION_RATE; Py.round x);
  eps ← (x ← mul_float wage EPS_CONTRIBUTION_RATE; Py.round x);
  employer ← (x ← mul_float wage EMPLOYER_CONTRIBUTION_RATE; Py.round x);
  Ok (employee, employer, eps).

(** ** Balance and interest engine *)

(** [round(((total - withdrawn) * rate) / INTEREST_DIVISOR)], for an integer
    amount and a float [rate], as [main] passes it ([float(input(...))]):
    the integers are converted to floats, multiplied and divided in
    binary64, and the quotient is rounded. *)
Definition interest (total withdrawn : Z) (rate : Py.float) : result Z :=
  x ← Py.float_of_int (total - withdrawn);
  d ← Py.float_of_int INTEREST_DIVISOR;
  Py.round (Py.fdiv (Py.fmul x rate) d).

(** The variables of the loop of [calculate_monthly_balances]. *)
Record balances_state : Type := {
  ee_balances : list Z;
  er_balances : list Z;
  current_ee_balance : Z;
  current_er_balance : Z
}.

(** The body of the loop of [calculate_monthly_balances], at index [i]. *)
Definition balances_step
    (ee_contributions er_contributions ee_withdrawals er_withdrawals : list Z)
    (i : Z) (st : balances_state) : result balances_state :=
  ee_c ← Py.getitem ee_contributions i;
  ee_w ← Py.getitem ee_withdrawals i;
  let current_ee := current_ee_balance st + ee_c - ee_w in
  er_c ← Py.getitem er_contributions i;
  er_w ← Py.getitem er_withdrawals i;
  let current_er := current_er_balance st + er_c - er_w in
  Ok {| ee_balances := ee_balances st ++ [current_ee];
        er_balances := er_balances st ++ [current_er];
        current_ee_balance := current_ee;
        current_er_balance := current_er |}.

Definition calculate_monthly_balances
    (ob_ee ob_er : Z)
    (ee_contributions er_contributions ee_withdrawals er_withdrawals : list Z)
    (rate : Py.float) : result (list Z * list Z * Z * Z) :=
  let init := {| ee_balances := [ob_ee]; er_balances := [ob_er];
                 current_ee_balance := ob_ee; current_er_balance := ob_er |} in
  st ← Py.for_each (Py.range 0 (Py.len ee_contributions - 1))
         (balances_step ee_contributions er_contributions ee_withdrawals
            er_withdrawals) init;
  let sum_ee_balances := Py.sum (ee_balances st) in
  let sum_er_balances := Py.sum (er_balances st) in
  let total_ee_withdrawals := Py.sum ee_withdrawals in
  let total_er_withdrawals := Py.sum er_withdrawals in
  ee_interest ← interest sum_ee_balances total_ee_withdrawals rate;
  er_interest ← interest sum_er_balances total_er_withdrawals rate;
  Ok (ee_balances st, er_balances st, ee_interest, er_interest).

(** ** Statement assembler *)

(** The loop over the monthly wages of one employee: the three lists of
    contributions, filled month by month. *)
Definition collect_contributions (monthly_wages : list value)
    : result (list Z * list Z * list Z) :=
  Py.for_each monthly_wages
    (fun wage '(ee_contribs, er_contribs, eps_contribs) =>
       '(ee, er, eps) ← calculate_contributions wage;
       Ok (ee_contribs ++ [ee], er_contribs ++ [er], eps_contribs ++ [eps]))
    ([], [], []).

Definition header : list value :=
  VStr <$> ["A/C No."; "NAME"; "OB(EE)"; "OB(ER)"; "INT(EE)"; "INT(ER)";
            "CONT(EE)"; "CONT(ER)"; "WDL(EE)"; "WDL(ER)"; "CB(EE)"; "CB(ER)";
            "OB(EPS)"; "CONT(EPS)"; "CB(EPS)"]%string.

Section Assembler.

(** Python's [int(text)]. *)
Variable int_of_text : string -> option Z.

(** [[int(x) for x in v]]. *)
Definition ints (v : value) : result (list Z) :=
  xs ← as_sequence v; mapM (py_int int_of_text) xs.

(** The body of the loop over the employees: one statement row. *)
Definition statement_row
    (ob_ee_data ob_er_data ob_eps_data wdl_ee_data wdl_er_data : list value)
    (rate : Py.float) (i : Z) (wage_row : value) : result (list value) :=
  account_no ← getitem wage_row 0;
  name ← getitem wage_row 1;
  monthly_wages ← slice wage_row 2 (2 + EXPECTED_WDL_COLUMNS);
  '(ee_contribs, er_contribs, eps_contribs) ←
    collect_contributions monthly_wages;
  ob_ee ← (x ← Py.getitem ob_ee_data i; py_int int_of_text x);
  ob_er ← (x ← Py.getitem ob_er_data i; py_int int_of_text x);
  ob_eps ← (x ← Py.getitem ob_eps_data i; py_int int_of_text x);
  ee_withdrawals ← (x ← Py.getitem wdl_ee_data i; ints x);
  er_withdrawals ← (x ← Py.getitem wdl_er_data i; ints x);
  '(ee_balances, er_balances, ee_interest, er_interest) ←
    calculate_monthly_balances ob_ee ob_er ee_contribs er_contribs
      ee_withdrawals er_withdrawals rate;
  let total_ee_contrib := Py.sum ee_contribs in
  let total_er_contrib := Py.sum er_contribs in
  let total_ee_wdl := Py.sum ee_withdrawals in
  let total_er_wdl := Py.sum er_withdrawals in
  let total_eps := Py.sum eps_contribs in
  let cb_ee := ob_ee + ee_interest + total_ee_contrib - total_ee_wdl in
  let cb_er := ob_er + er_interest + total_er_contrib - total_er_wdl in
  let cb_eps := ob_eps + total_eps in
  Ok [account_no; name;
      VStr (Py.str ob_ee); VStr (Py.str ob_er);
      VStr (Py.str ee_interest); VStr (Py.str er_interest);
      VStr (Py.str total_ee_contrib); VStr (Py.str total_er_contrib);
      VStr (Py.str total_ee_wdl); VStr (Py.str total_er_wdl);
      VStr (Py.str cb_ee); VStr (Py.str cb_er);
      VStr (Py.str ob_eps); VStr (Py.str total_eps); VStr (Py.str cb_eps)].

Definition generate_output_rows
    (wage_sheet_data ob_ee_data ob_er_data ob_eps_data wdl_ee_data
       wdl_er_data : list value)
    (rate : Py.float) : result (list (list value)) :=
  let output_rows := [header] in
  Py.for_each (Py.enumerate wage_sheet_data) (fun '(i, wage_row) output_rows =>
      row ← statement_row ob_ee_data ob_er_data ob_eps_data wdl_ee_data
              wdl_er_data rate i wage_row;
      Ok (output_rows ++ [row]))
    output_rows.

(** The computation of [main] between loading the six sheets and writing
    the output files. *)
Definition main_pipeline
    (wage_sheet ob_ee_sheet ob_er_sheet ob_eps_sheet wdl_ee_sheet
       wdl_er_sheet : worksheet)
    (rate : Py.float) : result (list (list value)) :=
  validate_sheet_dimensions wage_sheet ob_ee_sheet ob_er_sheet ob_eps_sheet
    wdl_ee_sheet wdl_er_sheet;;
  let wage_sheet_data := fetch_sheet_data wage_sheet "multi" in
  let ob_ee_data := fetch_sheet_data ob_ee_sheet "single" in
  let ob_er_data := fetch_sheet_data ob_er_sheet "single" in
  let ob_eps_data := fetch_sheet_data ob_eps_sheet "single" in
  let wdl_ee_data := fetch_sheet_data wdl_ee_sheet "multi" in
  let wdl_er_data := fetch_sheet_data wdl_er_sheet "multi" in
  generate_output_rows wage_sheet_data ob_ee_data ob_er_data ob_eps_data
    wdl_ee_data wdl_er_data rate.

End Assembler.

(** ** Sample data

    The first employee of [src/create_sample_input.py] (wages, opening
    balances, withdrawals), the contributions the engine derives from the
    wages, and the rate 8.5 of the tests. *)

Definition sample_wages : list Z :=
  [15000; 15000; 15500; 15000; 15000; 15000; 16000; 15000; 15000; 15500;
   15000; 15000].
Definition sample_ee_contributions : list Z :=
  [1800; 1800; 1860; 1800; 1800; 1800; 1920; 1800; 1800; 1860; 1800; 1800].
Definition sample_er_contributions : list Z :=
  [550; 550; 569; 550; 550; 550; 587; 550; 550; 569; 550; 550].
Definition sample_ee_withdrawals : list Z :=
  [0; 0; 0; 5000; 0; 0; 0; 0; 0; 0; 0; 0].
Definition sample_er_withdrawals : list Z :=
  [0; 0; 0; 1500; 0; 0; 0; 0; 0; 0; 0; 0].
Definition sample_rate : Py.float := Py.literal 17 2.

(** ** Reference definitions

    The quantities the specification speaks of, written from its wording,
    to compare the code with. *)

(** [num / den] rounded to the nearest integer, halves upwards. *)
Definition half_up (num den : Z) : Z := (2 * num + den) / (2 * den).

(** The three shares of a wage with round-half-up: 12%, 3.67%, 8.33%. *)
Definition contributions_half_up (wage : Z) : Z * Z * Z :=
  (half_up (12 * wage) 100, half_up (367 * wage) 10000,
   half_up (833 * wage) 10000).

(** The balance after the first [i] months: the opening balance plus those
    months' contributions minus their withdrawals. *)
Definition balance_at (opening : Z) (contributions withdrawals : list Z)
    (i : nat) : Z :=
  opening + Py.sum (take i contributions) - Py.sum (take i withdrawals).

(** The balances of months [0 .. m]. *)
Definition balance_series (opening : Z) (contributions withdrawals : list Z)
    (m : nat) : list Z :=
  balance_at opening contributions withdrawals <$> seq 0 (S m).

(** The twelve running balances of one fund share: the opening balance,
    then each month the previous balance plus that month's contribution minus
    that month's withdrawal. *)
Definition running_balances (opening : Z) (contributions withdrawals : list Z)
    (balances : list Z) : Prop :=
  length balances = 12%nat /\
  balances !! 0%nat = Some opening /\
  forall i : nat, (1 <= i <= 11)%nat ->
    exists b c w,
      balances !! (i - 1)%nat = Some b /\
      contributions !! (i - 1)%nat = Some c /\
      withdrawals !! (i - 1)%nat = Some w /\
      balances !! i = Some (b + c - w).

(** What a validation failure reports: the table, and the expected and
    actual column counts, or the row counts of the wage table and of the
    table. *)
Inductive failure : Type :=
  | ColumnMismatch (table noun : string) (expected found : Z)
  | RowMismatch (table : string) (wage_rows rows : Z).

Definition diagnostic (f : failure) : string :=
  match f with
  | ColumnMismatch table noun expected found =>
      column_message table expected noun found
  | RowMismatch table wage_rows rows => row_message wage_rows table rows
  end.

(** The checks in their fixed order, each with whether it passes and what
    it reports when it does not: the six column counts, then the five row
    counts against the wage table. *)
Definition checks
    (wage_sheet ob_ee_sheet ob_er_sheet ob_eps_sheet wdl_ee_sheet
       wdl_er_sheet : worksheet) : list (bool * failure) :=
  [ (max_column wage_sheet =? 14,
     ColumnMismatch "Wages" "columns" 14 (max_column wage_sheet));
    (max_column ob_ee_sheet =? 1,
     ColumnMismatch "OB_EE" "column" 1 (max_column ob_ee_sheet));
    (max_column ob_er_sheet =? 1,
     ColumnMismatch "OB_ER" "column" 1 (max_column ob_er_sheet));
    (max_column ob_eps_sheet =? 1,
     ColumnMismatch "OB_EPS" "column" 1 (max_column ob_eps_sheet));
    (max_column wdl_ee_sheet =? 12,
     ColumnMismatch "WDL_EE" "columns" 12 (max_column wdl_ee_sheet));
    (max_column wdl_er_sheet =? 12,
     ColumnMismatch "WDL_ER" "columns" 12 (max_column wdl_er_sheet));
    (max_row wage_sheet =? max_row ob_ee_sheet,
     RowMismatch "OB_EE" (max_row wage_sheet) (max_row ob_ee_sheet));
    (max_row wage_sheet =? max_row ob_er_sheet,
     RowMismatch "OB_ER" (max_row wage_sheet) (max_row ob_er_sheet));
    (max_row wage_sheet =? max_row ob_eps_sheet,
     RowMismatch "OB_EPS" (max_row wage_sheet) (max_row ob_eps_sheet));
    (max_row wage_sheet =? max_row wdl_ee_sheet,
     RowMismatch "WDL_EE" (max_row wage_sheet) (max_row wdl_ee_sheet));
    (max_row wage_sheet =? max_row wdl_er_sheet,
     RowMismatch "WDL_ER" (max_row wage_sheet) (max_row wdl_er_sheet)) ].

Fixpoint first_failure (cs : list (bool * failure)) : option failure :=
  match cs with
  | [] => None
  | (passes, f) :: cs' => if passes then first_failure cs' else Some f
  end.

(** [sub] occurs in [s]. *)
Definition contains (s sub : string) : Prop :=
  exists pre post, s = pre +:+ sub +:+ post.

(** A diagnostic names its table and both of its counts. *)
Definition informative (f : failure) : Prop :=
  match f with
  | ColumnMismatch table _ expected found =>
      contains (diagnostic f) table /\
      contains (diagnostic f) (Py.str expected) /\
      contains (diagnostic f) (Py.str found)
  | RowMismatch table wage_rows rows =>
      contains (diagnostic f) table /\
      contains (diagnostic f) (Py.str wage_rows) /\
      contains (diagnostic f) (Py.str rows)
  end.

(** A worksheet with the given dimensions and the same value in every
    cell. *)
Definition blank_sheet (rows columns : Z) (v : value) : worksheet :=
  {| max_row := rows; max_column := columns; cell := fun _ _ => v |}.

(** A numeric field of the statement: the decimal text of an integer,
    which reads back as that integer. *)
Definition decimal_text (v : value) : Prop :=
  exists z, v = VStr (Py.str z) /\
            NilZero.int_of_string (Py.str z) = Some (Z.to_int z).

(** A data row of the statement: fifteen entries, the thirteen after the
    account number and the name being numeric fields. *)
Definition statement_shape (row : list value) : Prop :=
  length row = 15%nat /\ Forall decimal_text (drop 2 row).

(** A cell that holds an amount: empty, an integer within [2^64] or a
    finite float below [2^64]. *)
Definition amount_cell (v : value) : Prop :=
  match v with
  | VNone => True
  | VInt z => Z.abs z <= 2 ^ 64
  | VFloat x => Py.below 64 x = true
  | VStr _ | VList _ => False
  end.

(** An extracted amount: an integer within [2^64] or a finite float below
    [2^64]. *)
Definition amount_value (v : value) : Prop :=
  match v with
  | VInt z => Z.abs z <= 2 ^ 64
  | VFloat x => Py.below 64 x = true
  | VNone | VStr _ | VList _ => False
  end.

(** The statement row of the output schema: account number, name, the two
    interest-bearing opening balances, the two interests, the contribution
    and withdrawal totals, the two interest-bearing closing balances
    [opening + interest + contributions - withdrawals], then the pension
    opening balance, contribution total and closing balance
    [opening + contributions]. *)
Definition statement_of (account_no name : value)
    (ob_ee ob_er ob_eps ei ri cont_ee cont_er wdl_ee wdl_er cont_eps : Z)
    : list value :=
  [account_no; name;
   VStr (Py.str ob_ee); VStr (Py.str ob_er);
   VStr (Py.str ei); VStr (Py.str ri);
   VStr (Py.str cont_ee); VStr (Py.str cont_er);
   VStr (Py.str wdl_ee); VStr (Py.str wdl_er);
   VStr (Py.str (ob_ee + ei + cont_ee - wdl_ee));
   VStr (Py.str (ob_er + ri + cont_er - wdl_er));
   VStr (Py.str ob_eps); VStr (Py.str cont_eps);
   VStr (Py.str (ob_eps + cont_eps))].

(** Two worksheets that hold the same table: the same dimensions and the
    same cells within them. *)
Definition same_table (s s' : worksheet) : Prop :=
  max_row s = max_row s' /\ max_column s = max_column s' /\
  forall r c, 1 <= r <= max_row s -> 1 <= c <= max_column s ->
    cell s r c = cell s' r c.

(** A worksheet holding a header row and the given data rows, [columns]
    wide; cells outside the data are empty. *)
Definition sheet_of_rows (columns : Z) (rows : list (list value)) : worksheet :=
  {| max_row := 1 + Py.len rows;
     max_column := columns;
     cell := fun r c =>
       match rows !! Z.to_nat (r - 2) with
       | Some row => default VNone (row !! Z.to_nat (c - 1))
       | None => VNone
       end |}.

Definition sample_wage_sheet : worksheet :=
  sheet_of_rows 14 [VStr "EPF001" :: VStr "John Doe" :: (VInt <$> sample_wages)].
(** The sample wage sheet with a text in the first wage cell. *)
Definition sample_text_wage_sheet : worksheet :=
  sheet_of_rows 14
    [VStr "EPF001" :: VStr "John Doe" :: VStr "absent"
       :: (VInt <$> drop 1 sample_wages)].
Definition sample_ob_ee_sheet : worksheet := sheet_of_rows 1 [[VInt 50000]].
Definition sample_ob_er_sheet : worksheet := sheet_of_rows 1 [[VInt 15000]].
Definition sample_ob_eps_sheet : worksheet := sheet_of_rows 1 [[VInt 35000]].
Definition sample_wdl_ee_sheet : worksheet :=
  sheet_of_rows 12 [VInt <$> sample_ee_withdrawals].
Definition sample_wdl_er_sheet : worksheet :=
  sheet_of_rows 12 [VInt <$> sample_er_withdrawals].

(** A text parser that reads no text as an integer. *)
Definition no_text : string -> option Z := fun _ => None.

(** The statement the engine produces for the sample workbook at the sample
    rate. *)
Definition sample_output : list (list value) :=
  [header;
   VStr <$> ["EPF001"; "John Doe"; "50000"; "15000"; "4782"; "1439"; "21840";
             "6675"; "5000"; "1500"; "71622"; "21614"; "35000"; "15165";
             "50165"]%string].

(** Every amount of a list is at most [M] in magnitude. *)
Definition amounts_within (M : Z) (l : list Z) : Prop :=
  Forall (fun z => Z.abs z <= M) l.

(** A worksheet with the cells of its first row replaced by [titles]. *)
Definition with_header (titles : list value) (s : worksheet) : worksheet :=
  {| max_row := max_row s;
     max_column := max_column s;
     cell := fun r c =>
       if r =? 1 then default VNone (titles !! Z.to_nat (c - 1))
       else cell s r c |}.

(** ** Rounding locations

    The position of an exact value between a mantissa and the next one, as
    two further bits of the mantissa. *)
Definition loc_code (l : location) : Z :=
  match l with
  | loc_Exact => 0
  | loc_Inexact Lt => 1
  | loc_Inexact Eq => 2
  | loc_Inexact Gt => 3
  end.

(** ** Exceptions of the arithmetic

    The exceptions Python's [*], [round], [int] and [float] raise on a value
    they cannot handle: a wrong type, a text that is no number, an infinity
    or a NaN. *)
Definition content_error (e : exn) : Prop :=
  e = TypeError \/ e = ValueError \/ e = OverflowError.

(** * The run controller

    [main] and the functions it calls for the console and the files.  A run
    is a function of the console (the lines [input] will return, and the
    trace of what the run has done so far); what lies outside the program
    ([openpyxl.load_workbook], [float(text)], the two writers) is a
    parameter. *)

(** The exceptions of a run: those of the engine, the two other
    [EPFCalculatorError] classes, [EOFError] of [input], and any other
    exception of a library, with its text. *)
Inductive run_exn : Type :=
  | Engine (e : exn)
  | FileLoadError (msg : string)
  | SheetNotFoundError (msg : string)
  | EOFError
  | LibraryError (text : string).

(** [isinstance(e, EPFCalculatorError)]. *)
Definition is_EPFCalculatorError (e : run_exn) : bool :=
  match e with
  | Engine (DataValidationError _) | FileLoadError _ | SheetNotFoundError _ =>
      true
  | _ => false
  end.

(** What a run does, in order: [subprocess.call(command, shell=True)],
    [print(text)], [print] of a label followed by an exception,
    [input(prompt)], [openpyxl.load_workbook(path)], the calls of the two
    writers, and [input_workbook.close()]. *)
Inductive event : Type :=
  | Shell (command : string)
  | Print (text : string)
  | PrintError (label : string) (e : run_exn)
  | Input (prompt : string)
  | LoadWorkbook (path : string)
  | WriteCsv (filename : string) (rows : list (list value))
  | WriteExcel (filename : string) (rows : list (list value))
  | CloseWorkbook.

(** The events on files. *)
Definition is_file_event (ev : event) : bool :=
  match ev with
  | LoadWorkbook _ | WriteCsv _ _ | WriteExcel _ _ | CloseWorkbook => true
  | _ => false
  end.

Definition file_events (tr : list event) : list event :=
  List.filter is_file_event tr.

(** A workbook: the sheet of a given title, if there is one. *)
Definition workbook : Type := string -> option worksheet.

(** What [openpyxl.load_workbook] does: it returns a workbook, raises
    [FileNotFoundError], or raises another exception with some text. *)
Inductive load_result : Type :=
  | Loaded (wb : workbook)
  | NotFound
  | LoadFailure (text : string).

Record console : Type := {
  pending : list string;
  trace : list event
}.

Inductive outcome (A : Type) : Type :=
  | Returns (a : A)
  | Raises (e : run_exn).

Arguments Returns {A} a.
Arguments Raises {A} e.

Definition io (A : Type) : Type := console -> outcome A * console.

#[global] Instance io_ret : MRet io := fun A a c => (Returns a, c).
#[global] Instance io_bind : MBind io := fun A B f m c =>
  match m c with
  | (Returns a, c') => f a c'
  | (Raises e, c') => (Raises e, c')
  end.

Definition raise {A} (e : run_exn) : io A := fun c => (Raises e, c).

Definition log (ev : event) (c : console) : console :=
  {| pending := pending c; trace := trace c ++ [ev] |}.

Definition emit (ev : event) : io unit := fun c => (Returns tt, log ev c).

(** [try: body except Exception as e: handler(e)]. *)
Definition try_except {A} (body : io A) (handler : run_exn -> io A) : io A :=
  fun c =>
    match body c with
    | (Returns a, c') => (Returns a, c')
    | (Raises e, c') => handler e c'
    end.

Definition of_result {A} (r : result A) : io A :=
  match r with
  | Ok a => mret a
  | Raise e => raise (Engine e)
  end.

(** [input(prompt)]: the next pending line, [EOFError] when there is none. *)
Definition input (prompt : string) : io string := fun c =>
  match pending c with
  | [] => (Raises EOFError, log (Input prompt) c)
  | line :: rest =>
      (Returns line, {| pending := rest; trace := trace c ++ [Input prompt] |})
  end.

(** [x in (a, b, ...)] for texts. *)
Definition py_in (x : string) (xs : list string) : bool :=
  existsb (String.eqb x) xs.

(** The line feed of the Python texts. *)
Definition nl : string := String (Ascii.ascii_of_nat 10) EmptyString.

Definition clear_screen_with_title (title : string) : io unit :=
  emit (Shell "pause >nul");;
  emit (Shell "cls");;
  emit (Shell ("title=" +:+ title));;
  emit (Print (title +:+ nl)).

Definition choice_prompt : string := "Enter 'y' to Continue or 'n' to Quit: ".
Definition invalid_choice : string :=
  "Invalid Choice! Please Enter Either 'y' to Continue or 'n' to Quit." +:+ nl.

(** The [while True] loop of [start_up_check], on the pending lines. *)
Fixpoint ask_choice (lines : list string) (tr : list event)
  : outcome string * console :=
  match lines with
  | [] => (Raises EOFError, {| pending := []; trace := tr ++ [Input choice_prompt] |})
  | response :: rest =>
      if py_in response ["y"; "Y"; "n"; "N"]%string then
        (Returns response,
         {| pending := rest; trace := tr ++ [Input choice_prompt] |})
      else
        ask_choice rest (tr ++ [Input choice_prompt] ++ [Print invalid_choice])
  end.

Definition choice_loop : io string :=
  fun c => ask_choice (pending c) (trace c).

Definition start_up_check : io string :=
  clear_screen_with_title "EPF Annual Account Slip Generator";;
  emit (Shell "color 0A");;
  emit (Print ("Instructions:" +:+ nl));;
  emit (Print ("1. Make sure that you have filled all the sheets present in the 'Input.xlsx' "
               +:+ "file properly before running the program."));;
  emit (Print ("2. Existing 'Output.xlsx' and 'output.csv' files will be overwritten."
               +:+ nl));;
  choice_loop.

Section Controller.

(** Python's [int(text)] and [float(text)]. *)
Variable int_of_text : string -> option Z.
Variable float_of_text : string -> option Py.float.

(** [openpyxl.load_workbook(path)]. *)
Variable load_workbook : string -> load_result.

(** The text of the exception that writing [rows] to [filename] raises, if
    it raises. *)
Variable write_error : string -> list (list value) -> option string.

(** [float(text)]. *)
Definition py_float (text : string) : io Py.float :=
  match float_of_text text with
  | Some x => mret x
  | None => raise (Engine ValueError)
  end.

Definition open_input_excel_file (path : string) : io workbook :=
  emit (LoadWorkbook path);;
  match load_workbook path with
  | Loaded wb => mret wb
  | NotFound => raise (FileLoadError ("File not found: " +:+ path))
  | LoadFailure text =>
      raise (FileLoadError ("Failed to load workbook: " +:+ text))
  end.

Definition get_sheet (wb : workbook) (sheet_name : string) : io worksheet :=
  match wb sheet_name with
  | Some sheet => mret sheet
  | None =>
      raise (SheetNotFoundError
               ("Sheet '" +:+ sheet_name +:+ "' not found in workbook"))
  end.

(** The call of [write_csv_output] in [main]; what [csv] does with the rows
    is outside the model. *)
Definition write_csv_output (output_rows : list (list value))
    (filename : string) : io unit :=
  emit (WriteCsv filename output_rows);;
  match write_error filename output_rows with
  | Some text => raise (LibraryError text)
  | None => mret tt
  end.

(** The call of [write_excel_output] in [main]; what [openpyxl] does with
    the rows is outside the model. *)
Definition write_excel_output (output_rows : list (list value))
    (filename : string) : io unit :=
  emit (WriteExcel filename output_rows);;
  match write_error filename output_rows with
  | Some text => raise (LibraryError text)
  | None => mret tt
  end.

Definition error_label : string := nl +:+ "####" +:+ nl +:+ "ERROR: ".
Definition unexpected_label : string :=
  nl +:+ "####" +:+ nl +:+ "UNEXPECTED ERROR: ".

Definition main : io string :=
  response ← start_up_check;
  if py_in response ["n"; "N"]%string then mret "CLOSE"%string else
  clear_screen_with_title "Loading Data...";;
  let path_of_file := "InputFiles/Input.xlsx"%string in
  try_except
    (input_workbook ← open_input_excel_file path_of_file;
     emit (Print ("Successfully Loaded the 'Input.xlsx' File." +:+ nl));;
     wage_sheet ← get_sheet input_workbook "Wages";
     emit (Print "Successfully Loaded the 'Wages' Sheet.");;
     ob_ee_sheet ← get_sheet input_workbook "OB_EE";
     emit (Print "Successfully Loaded the 'OB_EE' Sheet.");;
     ob_er_sheet ← get_sheet input_workbook "OB_ER";
     emit (Print "Successfully Loaded the 'OB_ER' Sheet.");;
     ob_eps_sheet ← get_sheet input_workbook "OB_EPS";
     emit (Print "Successfully Loaded the 'OB_EPS' Sheet.");;
     wdl_ee_sheet ← get_sheet input_workbook "WDL_EE";
     emit (Print "Successfully Loaded the 'WDL_EE' Sheet.");;
     wdl_er_sheet ← get_sheet input_workbook "WDL_ER";
     emit (Print "Successfully Loaded the 'WDL_ER' Sheet.");;
     emit (Print (nl +:+ "All Sheets Loaded Successfully!"));;
     clear_screen_with_title "Validating Data...";;
     of_result (validate_sheet_dimensions wage_sheet ob_ee_sheet ob_er_sheet
                  ob_eps_sheet wdl_ee_sheet wdl_er_sheet);;
     emit (Print ("Data Validation Successful!" +:+ nl));;
     clear_screen_with_title "Processing Data...";;
     let wage_sheet_data := fetch_sheet_data wage_sheet "multi" in
     let ob_ee_data := fetch_sheet_data ob_ee_sheet "single" in
     let ob_er_data := fetch_sheet_data ob_er_sheet "single" in
     let ob_eps_data := fetch_sheet_data ob_eps_sheet "single" in
     let wdl_ee_data := fetch_sheet_data wdl_ee_sheet "multi" in
     let wdl_er_data := fetch_sheet_data wdl_er_sheet "multi" in
     emit (Print ("Data Fetched Successfully." +:+ nl));;
     text ← input "Enter the Rate of Interest for the Year: ";
     rate ← py_float text;
     emit (Print (nl +:+ "Calculating EPF Contributions and Interest..."));;
     output_rows ← of_result
       (generate_output_rows int_of_text wage_sheet_data ob_ee_data
          ob_er_data ob_eps_data wdl_ee_data wdl_er_data rate);
     emit (Print ("Calculations Complete." +:+ nl));;
     clear_screen_with_title "Generating Output Files...";;
     write_csv_output output_rows "output.csv";;
     emit (Print "Successfully Generated 'output.csv'");;
     write_excel_output output_rows "Output.xlsx";;
     emit (Print "Successfully Generated 'Output.xlsx'");;
     emit CloseWorkbook;;
     mret "SUCCESS"%string)
    (fun e =>
       if is_EPFCalculatorError e then
         emit (Shell "color 0C");;
         emit (PrintError error_label e);;
         mret "ERROR"%string
       else
         emit (Shell "color 0C");;
         emit (PrintError unexpected_label e);;
         mret "ERROR"%string).

End Controller.

(** ** Reference definitions for the run controller *)

(** What the start-up loop shows for the lines it rejects: a prompt and
    the invalid-choice message for each. *)
Definition retries (bad : list string) : list event :=
  flat_map (fun _ => [Input choice_prompt; Print invalid_choice]) bad.

(** A line the start-up loop accepts. *)
Definition valid_choice (line : string) : bool :=
  py_in line ["y"; "Y"; "n"; "N"]%string.

(** The six sheets [main] asks for, in its order. *)
Definition sheet_names : list string :=
  ["Wages"; "OB_EE"; "OB_ER"; "OB_EPS"; "WDL_EE"; "WDL_ER"]%string.

(** The input file is loaded and holds the six sheets. *)
Definition loaded_sheets (load_workbook : string -> load_result)
    (s1 s2 s3 s4 s5 s6 : worksheet) : Prop :=
  exists wb,
    load_workbook "InputFiles/Input.xlsx" = Loaded wb /\
    wb "Wages"%string = Some s1 /\ wb "OB_EE"%string = Some s2 /\
    wb "OB_ER"%string = Some s3 /\ wb "OB_EPS"%string = Some s4 /\
    wb "WDL_EE"%string = Some s5 /\ wb "WDL_ER"%string = Some s6.

(** A workbook with the six sample sheets, the same workbook without one
    sheet, and a console on which the question is answered with a rejected
    line, then [Y], then the rate. *)
Definition sample_workbook : workbook := fun name =>
  if String.eqb name "Wages" then Some sample_wage_sheet
  else if String.eqb name "OB_EE" then Some sample_ob_ee_sheet
  else if String.eqb name "OB_ER" then Some sample_ob_er_sheet
  else if String.eqb name "OB_EPS" then Some sample_ob_eps_sheet
  else if String.eqb name "WDL_EE" then Some sample_wdl_ee_sheet
  else if String.eqb name "WDL_ER" then Some sample_wdl_er_sheet
  else None.

Definition without_sheet (name : string) (wb : workbook) : workbook :=
  fun name' => if String.eqb name' name then None else wb name'.

Definition sample_console : console :=
  {| pending := ["maybe"; "Y"; "8.5"]%string; trace := [] |}.

Definition sample_float_of_text : string -> option Py.float :=
  fun text => if String.eqb text "8.5" then Some sample_rate else None.

Definition no_write_error : string -> list (list value) -> option string :=
  fun _ _ => None.

(** A writer environment in which writing Output.xlsx raises. *)
Definition xlsx_write_error : string -> list (list value) -> option string :=
  fun filename _ =>
    if String.eqb filename "Output.xlsx" then Some "Permission denied"%string
    else None.

Definition sample_load_workbook : string -> load_result :=
  fun _ => Loaded sample_workbook.

Definition incomplete_load_workbook : string -> load_result :=
  fun _ => Loaded (without_sheet "OB_ER" sample_workbook).

(** * Properties *)

(** Closed goals decided by evaluation. *)
Ltac by_compute := vm_compute; first [reflexivity | discriminate | exact I].
Ltac by_compute_bounds := vm_compute; split; discriminate.

(** ** Binary64 arithmetic

    Facts about [SpecFloat]'s rounding at precision 53: what the shift
    record computes, when a result is finite, and how far a rounded product
    is from the exact one. *)

Section Float64.

Lemma digits2_pos_bounds (p : positive) :
  2 ^ (Zpos (digits2_pos p) - 1) <= Zpos p < 2 ^ Zpos (digits2_pos p).
Proof.
  induction p as [p IH|p IH|]; simpl digits2_pos.
  - rewrite Pos2Z.inj_succ.
    replace (Z.succ (Zpos (digits2_pos p)) - 1) with (Z.succ (Zpos (digits2_pos p) - 1)) by lia.
    rewrite !Z.pow_succ_r by lia. lia.
  - rewrite Pos2Z.inj_succ.
    replace (Z.succ (Zpos (digits2_pos p)) - 1) with (Z.succ (Zpos (digits2_pos p) - 1)) by lia.
    rewrite !Z.pow_succ_r by lia. lia.
  - simpl. lia.
Qed.

Lemma Zdigits2_nonneg m : 0 <= Zdigits2 m.
Proof. destruct m; simpl; lia. Qed.

Lemma Zdigits2_lt_pow m : 0 <= m -> m < 2 ^ Zdigits2 m.
Proof.
  destruct m as [|p|p]; simpl; [lia| |lia].
  intros _. apply digits2_pos_bounds.
Qed.

Lemma Zdigits2_le m k : 0 <= k -> 0 <= m < 2 ^ k -> Zdigits2 m <= k.
Proof.
  intros Hk [Hm Hlt]. destruct m as [|p|p]; simpl; [lia| |lia].
  destruct (digits2_pos_bounds p) as [Hlo _].
  destruct (Z_lt_le_dec k (Zpos (digits2_pos p))) as [Hc|Hc]; [|lia].
  assert (2 ^ k <= 2 ^ (Zpos (digits2_pos p) - 1)) by (apply Z.pow_le_mono_r; lia).
  lia.
Qed.

Lemma Zdigits2_ge m k : 2 ^ k <= m -> k < Zdigits2 m.
Proof.
  intros Hm. destruct (Z_lt_le_dec k 0) as [Hk|Hk].
  { pose proof (Zdigits2_nonneg m). lia. }
  assert (0 < 2 ^ k) by (apply Z.pow_pos_nonneg; lia).
  pose proof (Zdigits2_lt_pow m ltac:(lia)) as Hlt.
  destruct (Z_lt_le_dec k (Zdigits2 m)) as [Hc|Hc]; [lia|].
  assert (2 ^ Zdigits2 m <= 2 ^ k) by (apply Z.pow_le_mono_r; lia). lia.
Qed.

Lemma iter_pos_nat {A} (f : A -> A) (p : positive) (x : A) :
  SpecFloat.iter_pos f p x = Nat.iter (Pos.to_nat p) f x.
Proof.
  revert x. induction p as [p IH|p IH|]; intros x; simpl SpecFloat.iter_pos.
  - rewrite !IH. rewrite Pos2Nat.inj_xI.
    replace (S (2 * Pos.to_nat p))%nat with (Pos.to_nat p + S (Pos.to_nat p))%nat by lia.
    rewrite Nat.iter_add. f_equal. by rewrite Nat.iter_succ_r.
  - rewrite !IH. rewrite Pos2Nat.inj_xO.
    replace (2 * Pos.to_nat p)%nat with (Pos.to_nat p + Pos.to_nat p)%nat by lia.
    by rewrite Nat.iter_add.
  - reflexivity.
Qed.

Lemma shr_1_m mrs : 0 <= shr_m mrs -> shr_m (shr_1 mrs) = shr_m mrs / 2.
Proof.
  destruct mrs as [m r s]. simpl. intros Hm.
  destruct m as [|[p|p|]|p]; try lia; try reflexivity; cbn [shr_m].
  - apply Z.div_unique with 1; lia.
  - apply Z.div_unique with 0; lia.
Qed.

Lemma iter_shr_m (k : nat) mrs :
  0 <= shr_m mrs ->
  shr_m (Nat.iter k shr_1 mrs) = shr_m mrs / 2 ^ Z.of_nat k.
Proof.
  intros Hm. induction k as [|k IH].
  - simpl. by rewrite Z.div_1_r.
  - rewrite Nat2Z.inj_succ, Z.pow_succ_r by lia. simpl Nat.iter.
    rewrite shr_1_m.
    + rewrite IH. rewrite Z.div_div by lia. f_equal. lia.
    + rewrite IH. apply Z.div_pos; [lia|]. apply Z.pow_pos_nonneg; lia.
Qed.


Lemma shr_1_r mrs : 0 <= shr_m mrs -> shr_r (shr_1 mrs) = Z.odd (shr_m mrs).
Proof.
  destruct mrs as [m r s]. cbn [shr_m]. intros Hm.
  destruct m as [|[p|p|]|p]; try lia; reflexivity.
Qed.

Lemma shr_1_s mrs : shr_s (shr_1 mrs) = shr_r mrs || shr_s mrs.
Proof. destruct mrs as [m r s]. by destruct m as [|[p|p|]|[p|p|]]. Qed.

(** The rounding and sticky bits after [k] shifts of an exact [N] locate
    the remainder [N mod 2^k] against the half [2^(k-1)]. *)
Lemma iter_shr_bits (k : nat) (N : Z) :
  0 <= N ->
  let R := Nat.iter k shr_1 (Build_shr_record N false false) in
  (shr_r R = true <-> 2 ^ Z.of_nat k <= 2 * (N mod 2 ^ Z.of_nat k)) /\
  (shr_s R = true <-> (2 * (N mod 2 ^ Z.of_nat k)) mod 2 ^ Z.of_nat k <> 0).
Proof.
  intros HN. induction k as [|k IH].
  - simpl. change (2 ^ Z.of_nat 0) with 1. rewrite Z.mod_1_r.
    change ((2 * 0) `mod` 1) with 0. split; split; intros H; (discriminate || lia).
  - cbn zeta in IH |- *. simpl Nat.iter.
    set (R := Nat.iter k shr_1 _) in *.
    assert (Hm : shr_m R = N / 2 ^ Z.of_nat k) by (by apply (iter_shr_m k (Build_shr_record N false false))).
    assert (HP : 0 < 2 ^ Z.of_nat k) by (apply Z.pow_pos_nonneg; lia).
    set (P := 2 ^ Z.of_nat k) in *.
    assert (Hm0 : 0 <= shr_m R) by (rewrite Hm; apply Z.div_pos; lia).
    rewrite shr_1_r, shr_1_s by done.
    rewrite Nat2Z.inj_succ, Z.pow_succ_r by lia. fold P.
    pose proof (Z.mod_pos_bound N P HP) as Hrho.
    set (rho := N mod P) in *.
    assert (Hrho' : N mod (2 * P) = rho + P * (shr_m R mod 2)).
    { replace (2 * P) with (P * 2) by lia.
      rewrite Z.rem_mul_r by lia. fold rho. rewrite Hm. lia. }
    pose proof (Z.mod_pos_bound (shr_m R) 2 ltac:(lia)) as Hb.
    rewrite Hrho'.
    destruct IH as [IHr IHs].
    split.
    + rewrite Z.odd_spec. unfold Z.Odd. split.
      * intros [c Hc]. rewrite Hc in *.
        replace ((2 * c + 1) mod 2) with 1 in *; [lia|].
        apply Z.mod_unique with c; lia.
      * intros Hle. assert (shr_m R mod 2 = 1) as H1 by nia.
        exists (shr_m R / 2). pose proof (Z.div_mod (shr_m R) 2). lia.
    + rewrite Z.mul_mod_distr_l by lia.
      assert ((rho + P * (shr_m R mod 2)) mod P = rho) as ->.
      { symmetry. apply Z.mod_unique with (shr_m R mod 2); lia. }
      rewrite orb_true_iff, IHr, IHs.
      destruct (Z.eq_dec rho 0) as [->|Hne].
      * rewrite Z.mod_0_l by lia. lia.
      * split; [lia|]. intros _.
        destruct (Z_le_gt_dec P (2 * rho)) as [Hc|Hc]; [by left|right].
        rewrite Z.mod_small by lia. lia.
Qed.

Lemma iter_shr_round (k : nat) (N : Z) :
  0 <= N ->
  let R := Nat.iter k shr_1 (Build_shr_record N false false) in
  round_nearest_even (shr_m R) (loc_of_shr_record R)
  = Py.rne_shift N (Z.of_nat k).
Proof.
  intros HN R.
  destruct (iter_shr_bits k N HN) as [Hr Hs]. fold R in Hr, Hs.
  assert (Hm : shr_m R = N / 2 ^ Z.of_nat k) by (by apply (iter_shr_m k (Build_shr_record N false false))).
  assert (HP : 0 < 2 ^ Z.of_nat k) by (apply Z.pow_pos_nonneg; lia).
  unfold Py.rne_shift. rewrite <- Hm.
  pose proof (Z.mod_pos_bound N _ HP) as Hrho.
  set (P := 2 ^ Z.of_nat k) in *. set (rho := N mod P) in *.
  destruct R as [m r s]. cbn [shr_m shr_r shr_s] in *.
  destruct r, s; cbn [loc_of_shr_record round_nearest_even].
  - assert (P <= 2 * rho) by (by apply Hr).
    assert ((2 * rho) mod P <> 0) as Hne by (by apply Hs).
    assert (2 * rho <> P) by (intros Heq; rewrite Heq, Z.mod_same in Hne; lia).
    destruct (Z.compare_spec (2 * rho) P); lia.
  - assert (P <= 2 * rho) by (by apply Hr).
    assert ((2 * rho) mod P = 0) as Hz.
    { destruct (Z.eq_dec ((2 * rho) mod P) 0); [done|]. enough (false = true) by done. by apply Hs. }
    assert (2 * rho = P).
    { pose proof (Z.div_mod (2 * rho) P ltac:(lia)) as Hd. rewrite Hz in Hd.
      assert ((2 * rho) / P = 1) by (symmetry; apply Z.div_unique with (2 * rho - P); lia).
      nia. }
    destruct (Z.compare_spec (2 * rho) P); lia.
  - assert (~ P <= 2 * rho) by (intros Hc; apply Hr in Hc; done).
    destruct (Z.compare_spec (2 * rho) P); lia.
  - assert (~ P <= 2 * rho) by (intros Hc; apply Hr in Hc; done).
    destruct (Z.compare_spec (2 * rho) P); lia.
Qed.

Lemma rne_shift_bounds N k : 0 <= k ->
  N / 2 ^ k <= Py.rne_shift N k <= N / 2 ^ k + 1.
Proof.
  intros Hk. unfold Py.rne_shift.
  destruct (_ ?= _); [destruct (Z.even _)| |]; lia.
Qed.

(** [rne_shift N k] is within half a unit of [N / 2^k]. *)
Lemma rne_shift_near N k : 0 <= k ->
  2 * Z.abs (Py.rne_shift N k * 2 ^ k - N) <= 2 ^ k.
Proof.
  intros Hk. unfold Py.rne_shift.
  assert (HP : 0 < 2 ^ k) by (apply Z.pow_pos_nonneg; lia).
  pose proof (Z.mod_pos_bound N _ HP) as Hrho.
  pose proof (Z.div_mod N (2 ^ k) ltac:(lia)) as Hd.
  set (P := 2 ^ k) in *. set (rho := N mod P) in *. set (q := N / P) in *.
  destruct (Z.compare_spec (2 * rho) P); [destruct (Z.even q)| |]; nia.
Qed.


Lemma rne_shift_0 N : Py.rne_shift N 0 = N.
Proof.
  unfold Py.rne_shift. change (2 ^ 0) with 1.
  rewrite Z.mod_1_r, Z.div_1_r. reflexivity.
Qed.

Lemma fexp_eq e : fexp 53 1024 e = Z.max (e - 53) (-1074).
Proof. reflexivity. Qed.

Lemma shr_record_of_loc_m m l : shr_m (shr_record_of_loc m l) = m.
Proof. by destruct l as [|[]]. Qed.

Lemma round_nearest_even_bounds m l :
  m <= round_nearest_even m l <= m + 1.
Proof. destruct l as [|[]]; simpl; try lia. destruct (Z.even m); lia. Qed.

Lemma div_pow2_lt a d n : 0 <= a < 2 ^ d -> 0 <= n <= d -> a / 2 ^ n < 2 ^ (d - n).
Proof.
  intros Ha Hn. apply Z.div_lt_upper_bound; [apply Z.pow_pos_nonneg; lia|].
  rewrite <- Z.pow_add_r by lia. replace (n + (d - n)) with d by lia. lia.
Qed.

Lemma div_pow2_0 a d n : 0 <= a < 2 ^ d -> 0 <= d <= n -> a / 2 ^ n = 0.
Proof.
  intros Ha Hn. apply Z.div_small.
  assert (2 ^ d <= 2 ^ n) by (apply Z.pow_le_mono_r; lia). lia.
Qed.

(** What [shr_fexp] does to a non-negative mantissa: it drops
    [max (fexp (digits m + e) - e) 0] bits. *)
Lemma shr_fexp_spec m e l R e' :
  0 <= m ->
  shr_fexp 53 1024 m e l = (R, e') ->
  let n := Z.max (fexp 53 1024 (Zdigits2 m + e) - e) 0 in
  e' = e + n /\ shr_m R = m / 2 ^ n /\
  (l = loc_Exact ->
   round_nearest_even (shr_m R) (loc_of_shr_record R) = Py.rne_shift m n).
Proof.
  intros Hm. unfold shr_fexp, shr.
  destruct (fexp 53 1024 (Zdigits2 m + e) - e) as [|p|p] eqn:Hn; intros [= <- <-]; cbn zeta.
  - rewrite Z.max_id, Z.add_0_r, rne_shift_0, Z.div_1_r, shr_record_of_loc_m.
    split; [done|]. split; [done|]. by intros ->.
  - rewrite Z.max_l by lia. rewrite iter_pos_nat.
    split; [done|]. split.
    + rewrite iter_shr_m by (rewrite shr_record_of_loc_m; lia).
      by rewrite shr_record_of_loc_m, positive_nat_Z.
    + intros ->. cbn [shr_record_of_loc].
      pose proof (iter_shr_round (Pos.to_nat p) m Hm) as Hr. cbn zeta in Hr.
      by rewrite positive_nat_Z in Hr.
  - rewrite Z.max_r by lia. rewrite Z.add_0_r, rne_shift_0, Z.div_1_r, shr_record_of_loc_m.
    split; [done|]. split; [done|]. by intros ->.
Qed.


(** Rounding a non-negative mantissa Py.below [2^k] at an exponent that keeps
    the value Py.below [2^1023] gives a finite double; the rounding can carry
    the value up to the next power of two. *)
Lemma binary_round_aux_below s mx ex l k B :
  0 <= mx < 2 ^ k -> 0 <= k -> k + ex <= B -> ex <= 971 -> -1074 <= B <= 1023 ->
  Py.below (B + 1) (binary_round_aux 53 1024 s mx ex l) = true.
Proof.
  intros Hmx Hk HB Hex HBr. unfold binary_round_aux.
  destruct (shr_fexp 53 1024 mx ex l) as [R1 e1] eqn:H1.
  apply shr_fexp_spec in H1 as (He1 & Hm1 & _); [|lia].
  set (m1 := round_nearest_even (shr_m R1) (loc_of_shr_record R1)).
  pose proof (round_nearest_even_bounds (shr_m R1) (loc_of_shr_record R1)) as Hb1.
  fold m1 in Hb1. rewrite Hm1 in Hb1.
  pose proof (Zdigits2_le mx k Hk Hmx) as Hd. pose proof (Zdigits2_nonneg mx) as Hd0.
  rewrite fexp_eq in He1, Hb1.
  set (d := Zdigits2 mx) in *.
  set (n1 := Z.max (Z.max (d + ex - 53) (-1074) - ex) 0) in *.
  assert (Hn1 : 0 <= n1) by lia.
  assert (Hq1 : 0 <= mx / 2 ^ n1) by (apply Z.div_pos; [lia|apply Z.pow_pos_nonneg; lia]).
  assert (Hm1d : 0 <= m1 < 2 ^ (B + 1 - e1) /\ 0 <= B + 1 - e1).
  { destruct (Z_le_gt_dec n1 k) as [Hc|Hc].
    - pose proof (div_pow2_lt mx k n1 Hmx ltac:(lia)) as Hlt.
      assert (2 ^ (k - n1 + 1) <= 2 ^ (B + 1 - e1)) by (apply Z.pow_le_mono_r; lia).
      rewrite Z.pow_add_r in * by lia. change (2 ^ 1) with 2 in *. lia.
    - rewrite (div_pow2_0 mx k n1) in * by lia.
      assert (2 ^ 1 <= 2 ^ (B + 1 - e1)) by (apply Z.pow_le_mono_r; lia).
      change (2 ^ 1) with 2 in *. lia. }
  destruct Hm1d as [Hm1d Hpos].
  destruct (shr_fexp 53 1024 m1 e1 loc_Exact) as [R2 e2] eqn:H2.
  apply shr_fexp_spec in H2 as (He2 & Hm2 & _); [|lia].
  rewrite fexp_eq in He2, Hm2.
  pose proof (Zdigits2_le m1 _ Hpos Hm1d) as Hd1. pose proof (Zdigits2_nonneg m1) as Hd10.
  pose proof (Zdigits2_lt_pow m1 ltac:(lia)) as Hd1lt.
  set (d1 := Zdigits2 m1) in *.
  set (n2 := Z.max (Z.max (d1 + e1 - 53) (-1074) - e1) 0) in *.
  destruct (shr_m R2) as [|m|m] eqn:HR2; [done| |].
  - assert (Hn2 : n2 < d1).
    { destruct (Z_lt_le_dec n2 d1); [done|].
      rewrite (div_pow2_0 m1 d1 n2) in Hm2 by lia. lia. }
    pose proof (div_pow2_lt m1 d1 n2 ltac:(lia) ltac:(lia)) as Hlt.
    rewrite <- Hm2 in Hlt.
    pose proof (Zdigits2_le (Zpos m) (d1 - n2) ltac:(lia) ltac:(lia)) as Hdm.
    cbn [Zdigits2] in Hdm.
    assert (He2' : e2 <= 971) by lia.
    replace (1024 - 53) with 971 by reflexivity.
    destruct (Z.leb_spec e2 971); [|lia].
    cbn [Py.below]. apply andb_true_intro; split; apply Z.leb_le; lia.
  - assert (0 <= m1 / 2 ^ n2) by (apply Z.div_pos; [lia|apply Z.pow_pos_nonneg; lia]). lia.
Qed.


Lemma below_mono k k' x : k <= k' -> Py.below k x = true -> Py.below k' x = true.
Proof.
  intros Hk. destruct x as [| | |s m e]; cbn [Py.below]; try done.
  rewrite !andb_true_iff, !Z.leb_le. lia.
Qed.

Lemma below_finite k s m e :
  Py.below k (S754_finite s m e) = true <->
  Zpos (digits2_pos m) <= 53 /\ Zpos (digits2_pos m) + e <= k.
Proof. cbn [Py.below]. by rewrite andb_true_iff, !Z.leb_le. Qed.

Lemma pos_iter_xO (m d : positive) :
  Zpos (Pos.iter xO m d) = Zpos m * 2 ^ Zpos d.
Proof.
  rewrite Pos2Nat.inj_iter, <- (positive_nat_Z d).
  induction (Pos.to_nat d) as [|n IH].
  - change (2 ^ Z.of_nat 0) with 1. simpl. lia.
  - rewrite Nat2Z.inj_succ, Z.pow_succ_r by lia. cbn [nat_rect].
    rewrite Pos2Z.inj_xO, IH. lia.
Qed.

Lemma shl_align_spec mx ex ex' mz ez :
  shl_align mx ex ex' = (mz, ez) ->
  ez = Z.min ex ex' /\ Zpos mz = Zpos mx * 2 ^ (ex - ez).
Proof.
  unfold shl_align. destruct (ex' - ex) as [|d|d] eqn:Hd; intros [= <- <-].
  - rewrite Z.sub_diag. change (2 ^ 0) with 1. lia.
  - rewrite Z.sub_diag. change (2 ^ 0) with 1. lia.
  - rewrite pos_iter_xO. replace (ex - ex') with (Zpos d) by lia. lia.
Qed.

Lemma binary_round_below s mx k :
  Zpos mx < 2 ^ k -> 0 <= k <= 1023 ->
  Py.below (k + 1) (binary_round 53 1024 s mx 0) = true.
Proof.
  intros Hmx Hk. unfold binary_round.
  destruct (shl_align mx 0 _) as [mz ez] eqn:Hs.
  apply shl_align_spec in Hs as [Hez Hmz].
  apply (binary_round_aux_below s (Zpos mz) ez loc_Exact (k - ez) k); try lia.
  rewrite Hmz. replace (k - ez) with (k + (0 - ez)) by lia.
  rewrite Z.pow_add_r by lia.
  assert (0 < 2 ^ (0 - ez)) by (apply Z.pow_pos_nonneg; lia). nia.
Qed.

(** [float(z)] is defined for every integer Py.below [2^1023] in magnitude. *)
Lemma float_of_int_below z k :
  Z.abs z < 2 ^ k -> 0 <= k <= 1023 ->
  exists x, Py.float_of_int z = Ok x /\ Py.below (k + 1) x = true.
Proof.
  intros Hz Hk. unfold Py.float_of_int, binary_normalize.
  destruct z as [|m|m].
  - by eexists.
  - pose proof (binary_round_below false m k ltac:(lia) Hk) as Hb.
    change Py.prec with 53. change Py.emax with 1024.
    destruct (binary_round 53 1024 false m 0); try done; by eexists.
  - pose proof (binary_round_below true m k ltac:(lia) Hk) as Hb.
    change Py.prec with 53. change Py.emax with 1024.
    destruct (binary_round 53 1024 true m 0); try done; by eexists.
Qed.

Lemma digits2_pos_mul_lt (mx my : positive) :
  Zpos (mx * my) < 2 ^ (Zpos (digits2_pos mx) + Zpos (digits2_pos my)).
Proof.
  rewrite Z.pow_add_r by lia. rewrite Pos2Z.inj_mul.
  pose proof (digits2_pos_bounds mx). pose proof (digits2_pos_bounds my). nia.
Qed.

Lemma fmul_below a b x y :
  Py.below a x = true -> Py.below b y = true -> -1074 <= a + b <= 972 ->
  Py.below (a + b + 1) (Py.fmul x y) = true.
Proof.
  intros Hx Hy Hab. unfold Py.fmul.
  destruct x as [sx| | |sx mx ex], y as [sy| | |sy my ey]; try done.
  apply below_finite in Hx as [Hx1 Hx2]. apply below_finite in Hy as [Hy1 Hy2].
  cbn [SFmul]. change Py.prec with 53. change Py.emax with 1024.
  apply (binary_round_aux_below _ _ _ _
           (Zpos (digits2_pos mx) + Zpos (digits2_pos my))); try lia.
  split; [lia|]. apply digits2_pos_mul_lt.
Qed.


Lemma float_of_int_1200 :
  Py.float_of_int INTEREST_DIVISOR = Ok (S754_finite false 5277655813324800 (-42)).
Proof. reflexivity. Qed.

(** Dividing a finite double by a normal double of at least one stays
    finite. *)
Lemma fdiv_below a x sy my ey :
  Py.below a x = true -> a <= 1023 ->
  Zpos (digits2_pos my) = 53 -> -52 <= ey <= 0 ->
  Py.below 1024 (Py.fdiv x (S754_finite sy my ey)) = true.
Proof.
  intros Hx Ha Hdy Hey. unfold Py.fdiv.
  destruct x as [sx| | |sx mx ex]; try done.
  apply below_finite in Hx as [Hx1 Hx2].
  cbn [SFdiv]. change Py.prec with 53. change Py.emax with 1024.
  unfold SFdiv_core_binary. cbn [Zdigits2]. rewrite fexp_eq, Hdy.
  pose proof (digits2_pos_bounds mx) as Hbx. pose proof (digits2_pos_bounds my) as Hby.
  rewrite Hdy in Hby. change (53 - 1) with 52 in Hby.
  set (dx := Zpos (digits2_pos mx)) in *.
  set (e' := Z.min (Z.max (dx + ex - (53 + ey) - 53) (-1074)) (ex - ey)).
  set (sh := ex - ey - e').
  assert (Hsh : 0 <= sh) by lia.
  set (m' := match sh with Z0 => Zpos mx | Zpos _ => Z.shiftl (Zpos mx) sh | Zneg _ => 0 end).
  assert (Hm' : m' = Zpos mx * 2 ^ sh).
  { unfold m'. destruct sh as [|p|p] eqn:Hp; [change (2 ^ 0) with 1; lia| |lia].
    by rewrite Z.shiftl_mul_pow2. }
  clearbody m'.
  destruct (Z.div_eucl m' (Zpos my)) as [q r] eqn:Hqr.
  assert (Hq : q = m' / Zpos my) by (unfold Z.div; by rewrite Hqr).
  assert (H2sh : 0 < 2 ^ sh) by (apply Z.pow_pos_nonneg; lia).
  assert (Hq0 : 0 <= q) by (rewrite Hq; apply Z.div_pos; nia).
  set (k := Z.max (dx + sh - 52) 0).
  assert (Hqk : q < 2 ^ k).
  { rewrite Hq. apply Z.div_lt_upper_bound; [lia|].
    assert (m' < 2 ^ (dx + sh)) by (rewrite Z.pow_add_r by lia; nia).
    assert (2 ^ (dx + sh) <= 2 ^ 52 * 2 ^ k).
    { rewrite <- Z.pow_add_r by lia. apply Z.pow_le_mono_r; lia. }
    nia. }
  set (B := Z.max (k + e') (-1074)).
  apply (below_mono (B + 1)); [lia|].
  apply (binary_round_aux_below _ q e' _ k B); lia.
Qed.

Lemma round_below k x :
  Py.below k x = true -> 0 <= k ->
  exists z, Py.round x = Ok z /\ Z.abs z <= 2 ^ k.
Proof.
  intros Hx Hk. assert (0 < 2 ^ k) by (apply Z.pow_pos_nonneg; lia).
  destruct x as [s| | |s m e]; try done.
  { exists 0. split; [done|]. lia. }
  apply below_finite in Hx as [Hx1 Hx2]. cbn [Py.round].
  eexists; split; [done|].
  pose proof (digits2_pos_bounds m) as Hb.
  set (d := Zpos (digits2_pos m)) in *.
  assert (Ha : 0 <= match e with
                    | Zneg p => Py.rne_shift (Zpos m) (Zpos p)
                    | _ => Zpos m * 2 ^ e
                    end <= 2 ^ k).
  { destruct e as [|p|p].
    - assert (2 ^ d <= 2 ^ k) by (apply Z.pow_le_mono_r; lia). lia.
    - assert (0 < 2 ^ Zpos p) by (apply Z.pow_pos_nonneg; lia).
      assert (2 ^ d * 2 ^ Zpos p <= 2 ^ k).
      { rewrite <- Z.pow_add_r by lia. apply Z.pow_le_mono_r; lia. }
      nia.
    - pose proof (rne_shift_bounds (Zpos m) (Zpos p) ltac:(lia)) as Hr.
      assert (0 <= Zpos m / 2 ^ Zpos p) by (apply Z.div_pos; [lia|apply Z.pow_pos_nonneg; lia]).
      destruct (Z_le_gt_dec (Zpos p) d) as [Hc|Hc].
      + pose proof (div_pow2_lt (Zpos m) d (Zpos p) ltac:(lia) ltac:(lia)).
        assert (2 ^ (d - Zpos p) <= 2 ^ k) by (apply Z.pow_le_mono_r; lia). lia.
      + rewrite (div_pow2_0 (Zpos m) d (Zpos p)) in * by lia. lia. }
  destruct s; lia.
Qed.

Lemma trunc_below k x :
  Py.below k x = true -> 0 <= k ->
  exists z, Py.trunc x = Ok z /\ Z.abs z <= 2 ^ k.
Proof.
  intros Hx Hk. assert (0 < 2 ^ k) by (apply Z.pow_pos_nonneg; lia).
  destruct x as [s| | |s m e]; try done.
  { exists 0. split; [done|]. lia. }
  apply below_finite in Hx as [Hx1 Hx2]. cbn [Py.trunc].
  eexists; split; [done|].
  pose proof (digits2_pos_bounds m) as Hb.
  set (d := Zpos (digits2_pos m)) in *.
  assert (Ha : 0 <= match e with
                    | Zneg p => Zpos m / 2 ^ Zpos p
                    | _ => Zpos m * 2 ^ e
                    end <= 2 ^ k).
  { destruct e as [|p|p].
    - assert (2 ^ d <= 2 ^ k) by (apply Z.pow_le_mono_r; lia). lia.
    - assert (0 < 2 ^ Zpos p) by (apply Z.pow_pos_nonneg; lia).
      assert (2 ^ d * 2 ^ Zpos p <= 2 ^ k).
      { rewrite <- Z.pow_add_r by lia. apply Z.pow_le_mono_r; lia. }
      nia.
    - assert (0 < 2 ^ Zpos p) by (apply Z.pow_pos_nonneg; lia).
      assert (0 <= Zpos m / 2 ^ Zpos p) by (apply Z.div_pos; lia).
      destruct (Z_le_gt_dec (Zpos p) d) as [Hc|Hc].
      + pose proof (div_pow2_lt (Zpos m) d (Zpos p) ltac:(lia) ltac:(lia)).
        assert (2 ^ (d - Zpos p) <= 2 ^ k) by (apply Z.pow_le_mono_r; lia). lia.
      + rewrite (div_pow2_0 (Zpos m) d (Zpos p)) in * by lia. lia. }
  destruct s; lia.
Qed.

(** The interest is defined for every balance total Py.below [2^900] in
    magnitude and every finite rate Py.below [2^64]. *)
Lemma interest_defined total withdrawn rate :
  Z.abs (total - withdrawn) < 2 ^ 900 -> Py.below 64 rate = true ->
  exists z, interest total withdrawn rate = Ok z.
Proof.
  intros HS Hr. unfold interest.
  destruct (float_of_int_below _ 900 HS ltac:(lia)) as (x & -> & Hx).
  rewrite float_of_int_1200. cbn [mbind result_bind].
  pose proof (fmul_below _ _ _ _ Hx Hr ltac:(lia)) as Hp.
  pose proof (fdiv_below _ _ false 5277655813324800 (-42) Hp ltac:(lia) eq_refl ltac:(lia)) as Hq.
  destruct (round_below _ _ Hq ltac:(lia)) as (z & Hz & _). by exists z.
Qed.


Lemma Zdigits2_eq m k : 0 < k -> 2 ^ (k - 1) <= m < 2 ^ k -> Zdigits2 m = k.
Proof.
  intros Hk Hm. assert (0 < 2 ^ (k - 1)) by (apply Z.pow_pos_nonneg; lia).
  pose proof (Zdigits2_le m k ltac:(lia) ltac:(lia)).
  pose proof (Zdigits2_ge m (k - 1) ltac:(lia)). lia.
Qed.

(** In the normal range, rounding an exact positive mantissa keeps its 53
    leading bits, rounded to nearest even; a carry out of the 53 bits
    moves to the next exponent. *)
Lemma binary_round_aux_exact s mx ex :
  let d := Zdigits2 mx in
  let m1 := Py.rne_shift mx (d - 53) in
  0 < mx -> 53 <= d -> -1074 <= ex + d - 53 -> d + ex <= 1023 ->
  exists m e,
    binary_round_aux 53 1024 s mx ex loc_Exact = S754_finite s m e /\
    ((m1 < 2 ^ 53 /\ Zpos m = m1 /\ e = ex + d - 53) \/
     (m1 = 2 ^ 53 /\ Zpos m = 2 ^ 52 /\ e = ex + d - 52)).
Proof.
  intros d m1 Hmx Hd Hlo Hhi. unfold binary_round_aux.
  destruct (shr_fexp 53 1024 mx ex loc_Exact) as [R1 e1] eqn:H1.
  apply shr_fexp_spec in H1 as (He1 & Hm1 & Hr1); [|lia].
  specialize (Hr1 eq_refl). rewrite fexp_eq in He1, Hm1, Hr1. fold d in He1, Hm1, Hr1.
  replace (Z.max (Z.max (d + ex - 53) (-1074) - ex) 0) with (d - 53) in * by lia.
  rewrite Hr1. fold m1.
  assert (Hdm : 2 ^ (d - 1) <= mx < 2 ^ d).
  { destruct mx as [|p|p]; try lia. apply digits2_pos_bounds. }
  assert (Hq : 2 ^ 52 <= mx / 2 ^ (d - 53) < 2 ^ 53).
  { assert (0 < 2 ^ (d - 53)) by (apply Z.pow_pos_nonneg; lia). split.
    - apply Z.div_le_lower_bound; [lia|].
      rewrite <- Z.pow_add_r by lia. replace (d - 53 + 52) with (d - 1) by lia. lia.
    - pose proof (div_pow2_lt mx d (d - 53) ltac:(lia) ltac:(lia)) as Hlt.
      by replace (d - (d - 53)) with 53 in Hlt by lia. }
  pose proof (rne_shift_bounds mx (d - 53) ltac:(lia)) as Hb. fold m1 in Hb.
  destruct (Z_lt_le_dec m1 (2 ^ 53)) as [Hc|Hc].
  - assert (Hd1 : Zdigits2 m1 = 53) by (apply Zdigits2_eq; [lia|]; change (53 - 1) with 52; lia).
    unfold shr_fexp. rewrite Hd1, fexp_eq.
    replace (Z.max (53 + e1 - 53) (-1074) - e1) with 0 by lia.
    cbn [shr shr_record_of_loc shr_m].
    destruct m1 as [|p|p] eqn:Hm1p; [lia| |lia].
    replace (1024 - 53) with 971 by reflexivity.
    destruct (Z.leb_spec e1 971); [|lia].
    exists p, e1. split; [done|]. left. lia.
  - assert (Hm1e : m1 = 2 ^ 53) by lia.
    unfold shr_fexp. rewrite Hm1e. change (Zdigits2 (2 ^ 53)) with 54. rewrite fexp_eq.
    replace (Z.max (54 + e1 - 53) (-1074) - e1) with 1 by lia.
    cbn [shr shr_record_of_loc]. change (shr_m _) with (2 ^ 52).
    change (2 ^ 52) with (Zpos 4503599627370496).
    replace (1024 - 53) with 971 by reflexivity.
    destruct (Z.leb_spec (e1 + 1) 971); [|lia].
    exists 4503599627370496%positive, (e1 + 1). split; [done|]. right. lia.
Qed.

(** [float(w)] is exact for a positive integer Py.below [2^53]. *)
Lemma float_of_int_exact w :
  0 < w < 2 ^ 53 ->
  exists m e,
    Py.float_of_int w = Ok (S754_finite false m e) /\
    -52 <= e <= 0 /\ Zpos m = w * 2 ^ (- e) /\ 2 ^ 52 <= Zpos m < 2 ^ 53.
Proof.
  intros Hw. destruct w as [|p|p]; try lia.
  unfold Py.float_of_int, binary_normalize, binary_round.
  change Py.prec with 53. change Py.emax with 1024.
  destruct (shl_align p 0 _) as [mz ez] eqn:Hs.
  apply shl_align_spec in Hs as [Hez Hmz].
  rewrite fexp_eq in Hez.
  pose proof (digits2_pos_bounds p) as Hp.
  set (dp := Zpos (digits2_pos p)) in *.
  assert (Hdp : 1 <= dp <= 53).
  { split; [lia|]. apply (Zdigits2_le (Zpos p) 53); lia. }
  assert (ez = dp - 53) as -> by lia.
  replace (0 - (dp - 53)) with (53 - dp) in Hmz by lia.
  assert (Hmzb : 2 ^ 52 <= Zpos mz < 2 ^ 53).
  { rewrite Hmz. assert (0 < 2 ^ (53 - dp)) by (apply Z.pow_pos_nonneg; lia).
    replace 52 with ((dp - 1) + (53 - dp)) at 1 by lia.
    replace 53 with (dp + (53 - dp)) at 4 by lia.
    rewrite !Z.pow_add_r by lia. nia. }
  assert (Hdz : Zdigits2 (Zpos mz) = 53) by (apply Zdigits2_eq; [lia|]; change (53 - 1) with 52; lia).
  destruct (binary_round_aux_exact false (Zpos mz) (dp - 53)) as (m & e & Heq & Hcase);
    rewrite ?Hdz; try lia.
  rewrite Hdz in Hcase. change (53 - 53) with 0 in Hcase. rewrite rne_shift_0 in Hcase.
  destruct Hcase as [(_ & Hm & He)|(Hm & _)]; [|lia].
  rewrite Heq. exists m, e. split; [done|].
  replace (- e) with (53 - dp) by lia. lia.
Qed.


(** The rounded double product of an integer wage [w] and a rate constant
    [mc * 2^-B], itself within [delta / (D * 2^B)] of the rate [R / D], is
    a nearest integer to [R * w / D]. *)
Lemma round_mul_near (w : Z) (mc : positive) (B R D delta : Z) :
  0 <= w < 2 ^ 42 -> 2 ^ 52 <= Zpos mc < 2 ^ 53 -> 56 <= B <= 60 ->
  0 < D -> Z.even D = true ->
  Z.abs (D * Zpos mc - R * 2 ^ B) <= delta ->
  (D + delta) * 2 ^ 42 <= 2 ^ B ->
  exists k,
    (x ← mul_float (VInt w) (S754_finite false mc (- B)); Py.round x) = Ok k /\
    2 * Z.abs (D * k - R * w) <= D.
Proof.
  intros Hw Hmc HB HD Hev Hdelta Hsmall.
  destruct (Z.eq_dec w 0) as [->|Hw0].
  { exists 0. split; [done|]. lia. }
  destruct (float_of_int_exact w) as (mw & ew & Hf & Hew & Hmw & Hmwb).
  { split; [lia|]. assert (2 ^ 42 < 2 ^ 53) by done. lia. }
  cbn [mul_float]. rewrite Hf. cbn [mbind result_bind].
  unfold Py.fmul. cbn [SFmul xorb]. change Py.prec with 53. change Py.emax with 1024.
  set (N := Zpos (mw * mc)).
  assert (HN : N = Zpos mw * Zpos mc) by (unfold N; lia).
  assert (HNb : 2 ^ 104 <= N < 2 ^ 106).
  { change (2 ^ 104) with (2 ^ 52 * 2 ^ 52). change (2 ^ 106) with (2 ^ 53 * 2 ^ 53). nia. }
  pose proof (Zdigits2_ge N 104 ltac:(lia)) as Hd1.
  pose proof (Zdigits2_le N 106 ltac:(lia) ltac:(lia)) as Hd2.
  destruct (binary_round_aux_exact false N (ew + - B)) as (m & e & Heq & Hcase); try lia.
  rewrite Heq. clear Heq.
  set (d := Zdigits2 N) in *. set (n := d - 53) in *.
  pose proof (rne_shift_near N n ltac:(lia)) as Hnear1.
  set (m1 := Py.rne_shift N n) in *.
  assert (He : e < 0) by lia.
  destruct e as [|p|p]; try lia.
  cbn [Py.round]. eexists; split; [reflexivity|].
  pose proof (rne_shift_near (Zpos m) (Zpos p) ltac:(lia)) as Hnear2.
  set (k := Py.rne_shift (Zpos m) (Zpos p)) in *.
  set (T := 2 ^ (- ew)) in *.
  assert (HT : 0 < T) by (apply Z.pow_pos_nonneg; lia).
  assert (Hpn : 0 < 2 ^ n) by (apply Z.pow_pos_nonneg; lia).
  assert (Hpp : 0 < 2 ^ Zpos p) by (apply Z.pow_pos_nonneg; lia).
  assert (HpB : 0 < 2 ^ B) by (apply Z.pow_pos_nonneg; lia).
  (* both roundings, brought to the scale [2^(B - ew)] *)
  assert (Hboth : 2 * Z.abs (k * (2 ^ B * T) - N) <= 2 ^ B * T + 2 ^ n).
  { destruct Hcase as [(_ & Hm & Hexp)|(Hm1 & Hm & Hexp)].
    - assert (2 ^ B * T = 2 ^ Zpos p * 2 ^ n) as ->.
      { unfold T. rewrite <- !Z.pow_add_r by lia. f_equal. lia. }
      rewrite Hm in Hnear2. nia.
    - assert (2 ^ B * T = 2 ^ Zpos p * (2 * 2 ^ n)) as ->.
      { unfold T. rewrite <- Z.pow_succ_r by lia. rewrite <- !Z.pow_add_r by lia. f_equal. lia. }
      assert (m1 = 2 * Zpos m) by (rewrite Hm, Hm1; done).
      nia. }
  assert (Hn53 : 2 ^ n <= 2 * (w * T)).
  { assert (2 ^ n <= 2 ^ 53) by (apply Z.pow_le_mono_r; lia).
    change (2 ^ 53) with (2 * 2 ^ 52) in *. lia. }
  assert (Hscaled : 2 * Z.abs (k * 2 ^ B - w * Zpos mc) <= 2 ^ B + 2 * w).
  { rewrite HN, Hmw in Hboth. fold T in Hboth.
    assert (k * (2 ^ B * T) - w * T * Zpos mc = T * (k * 2 ^ B - w * Zpos mc)) as Hfac by ring.
    rewrite Hfac, Z.abs_mul, (Z.abs_eq T) in Hboth by lia. nia. }
  assert (Hw42 : w * (D + delta) < 2 ^ B).
  { assert (0 <= delta) by lia.
    assert (w * (D + delta) < 2 ^ 42 * (D + delta))
      by (apply Z.mul_lt_mono_pos_r; lia).
    lia. }
  assert (Hfin : 2 * Z.abs (D * k - R * w) < D + 2).
  { assert (2 * Z.abs (D * k * 2 ^ B - R * w * 2 ^ B) < (D + 2) * 2 ^ B) as Hs.
    { assert (D * k * 2 ^ B - R * w * 2 ^ B
              = D * (k * 2 ^ B - w * Zpos mc) + w * (D * Zpos mc - R * 2 ^ B)) as -> by ring.
      assert (Z.abs (D * (k * 2 ^ B - w * Zpos mc)) = D * Z.abs (k * 2 ^ B - w * Zpos mc)) as Ha1
        by (rewrite Z.abs_mul, (Z.abs_eq D); lia).
      assert (Z.abs (w * (D * Zpos mc - R * 2 ^ B)) <= w * delta) as Ha2.
      { rewrite Z.abs_mul, (Z.abs_eq w) by lia.
        apply Z.mul_le_mono_nonneg_l; lia. }
      pose proof (Z.abs_triangle (D * (k * 2 ^ B - w * Zpos mc)) (w * (D * Zpos mc - R * 2 ^ B))) as Htri.
      assert (D * (2 * Z.abs (k * 2 ^ B - w * Zpos mc)) <= D * (2 ^ B + 2 * w)) as Ha3
        by (apply Z.mul_le_mono_nonneg_l; lia).
      clear - Ha1 Ha2 Htri Ha3 Hw42 HD HpB. lia. }
    assert (D * k * 2 ^ B - R * w * 2 ^ B = (D * k - R * w) * 2 ^ B) as Hfac by ring.
    rewrite Hfac, Z.abs_mul, (Z.abs_eq (2 ^ B)) in Hs by lia.
    apply (Z.mul_lt_mono_pos_r (2 ^ B)); lia. }
  apply Z.even_spec in Hev as [D' ->]. lia.
Qed.

End Float64.

(** ** Lists and loops *)

Section Loops.

Lemma bind_Ok {A B} (m : result A) (f : A -> result B) (b : B) :
  m ≫= f = Ok b <-> exists a, m = Ok a /\ f a = Ok b.
Proof.
  destruct m as [a|e]; cbn [mbind result_bind].
  - split; [by exists a|]. by intros (a' & [= <-] & ?).
  - split; [done|]. by intros (a' & ? & ?).
Qed.

Lemma sum_foldl (a : Z) (l : list Z) : foldl Z.add a l = a + Py.sum l.
Proof.
  unfold Py.sum. revert a. induction l as [|x l IH]; intros a; cbn [foldl]; [lia|].
  rewrite (IH (a + x)), (IH (0 + x)). lia.
Qed.

Lemma sum_nil : Py.sum [] = 0.
Proof. reflexivity. Qed.

Lemma sum_cons x l : Py.sum (x :: l) = x + Py.sum l.
Proof. unfold Py.sum at 1. cbn [foldl]. rewrite sum_foldl. lia. Qed.

Lemma sum_app l1 l2 : Py.sum (l1 ++ l2) = Py.sum l1 + Py.sum l2.
Proof.
  induction l1 as [|x l1 IH]; simpl; [by rewrite sum_nil|].
  rewrite !sum_cons, IH. lia.
Qed.

Lemma sum_take_S (l : list Z) (i : nat) (x : Z) :
  l !! i = Some x -> Py.sum (take (S i) l) = Py.sum (take i l) + x.
Proof.
  intros Hx. rewrite (take_S_r l i x Hx), sum_app, sum_cons, sum_nil. lia.
Qed.

Lemma sum_abs_le (M : Z) (l : list Z) :
  Forall (fun z => Z.abs z <= M) l -> Z.abs (Py.sum l) <= Z.of_nat (length l) * M.
Proof.
  induction 1 as [|x l Hx _ IH]; [simpl; rewrite sum_nil; lia|].
  rewrite sum_cons. cbn [length]. lia.
Qed.

Lemma length_range a b : length (Py.range a b) = Z.to_nat (b - a).
Proof. unfold Py.range. by rewrite length_fmap, length_seq. Qed.

Lemma range_lookup a b (k : nat) :
  (k < Z.to_nat (b - a))%nat -> Py.range a b !! k = Some (a + Z.of_nat k).
Proof.
  intros Hk. unfold Py.range. rewrite list_lookup_fmap, lookup_seq_lt by done.
  reflexivity.
Qed.

Lemma range_elem a b i : i ∈ Py.range a b -> a <= i < b.
Proof.
  unfold Py.range. intros (k & -> & Hk)%list_elem_of_fmap.
  apply elem_of_seq in Hk. lia.
Qed.

Lemma range_0_S (m : nat) :
  Py.range 0 (Z.of_nat (S m)) = Py.range 0 (Z.of_nat m) ++ [Z.of_nat m].
Proof.
  unfold Py.range. rewrite !Z.sub_0_r, !Nat2Z.id, seq_S, fmap_app. reflexivity.
Qed.

Lemma for_each_app {A S} (xs ys : list A) (body : A -> S -> result S) (s : S) :
  Py.for_each (xs ++ ys) body s = s' ← Py.for_each xs body s; Py.for_each ys body s'.
Proof.
  revert s. induction xs as [|x xs IH]; intros s; simpl; [done|].
  destruct (body x s) as [s'|e]; cbn [mbind result_bind]; [apply IH|done].
Qed.

(** A loop that appends one computed element per iteration collects the
    elements in order, or stops at the first exception. *)
Lemma for_each_collect {A B} (g : A -> result B) (xs : list A) (acc rows : list B) :
  Py.for_each xs (fun x acc => r ← g x; Ok (acc ++ [r])) acc = Ok rows <->
  exists rs, rows = acc ++ rs /\ Forall2 (fun x r => g x = Ok r) xs rs.
Proof.
  revert acc. induction xs as [|x xs IH]; intros acc; simpl.
  - split.
    + intros [= <-]. exists []. by rewrite app_nil_r.
    + intros (rs & -> & Hrs). apply Forall2_nil_inv_l in Hrs as ->. by rewrite app_nil_r.
  - rewrite bind_Ok. split.
    + intros (acc' & (r & Hr & [= <-])%bind_Ok & (rs & -> & Hrs)%IH).
      exists (r :: rs). rewrite <- app_assoc. split; [done|]. by constructor.
    + intros (rs & -> & Hrs). apply Forall2_cons_inv_l in Hrs as (r & rs' & Hr & Hrs & ->).
      exists (acc ++ [r]). split; [by rewrite Hr|].
      apply IH. exists rs'. by rewrite <- app_assoc.
Qed.

Lemma mapM_Ok {A B} (f : A -> result B) (xs : list A) (ys : list B) :
  mapM f xs = Ok ys <-> Forall2 (fun x y => f x = Ok y) xs ys.
Proof.
  revert ys. induction xs as [|x xs IH]; intros ys; simpl.
  - split; [intros [= <-]; constructor|]. by intros ->%Forall2_nil_inv_l.
  - rewrite bind_Ok. split.
    + intros (y & Hy & (k & Hk%IH & [= <-])%bind_Ok). by constructor.
    + intros (y & k & Hy & Hk & ->)%Forall2_cons_inv_l.
      exists y. split; [done|]. apply bind_Ok. exists k. split; [by apply IH|done].
Qed.

Lemma getitem_Ok {A} (l : list A) (i : Z) :
  0 <= i < Py.len l ->
  exists x, Py.getitem l i = Ok x /\ l !! Z.to_nat i = Some x.
Proof.
  intros Hi. unfold Py.getitem, Py.len in *.
  destruct (Z.ltb_spec i 0); [lia|]. destruct (Z.ltb_spec i 0); [lia|].
  destruct (lookup_lt_is_Some_2 l (Z.to_nat i)) as [x Hx]; [lia|].
  rewrite Hx. by exists x.
Qed.

Lemma getitem_nonneg_Ok {A} (l : list A) (i : Z) (x : A) :
  0 <= i -> Py.getitem l i = Ok x -> l !! Z.to_nat i = Some x.
Proof.
  intros Hi. unfold Py.getitem.
  destruct (Z.ltb_spec i 0); [lia|]. destruct (Z.ltb_spec i 0); [lia|].
  destruct (l !! Z.to_nat i); [by intros [= ->]|done].
Qed.

Lemma enumerate_lookup {A} (l : list A) (k : nat) :
  Py.enumerate l !! k = (fun x => (Z.of_nat k, x)) <$> l !! k.
Proof. unfold Py.enumerate. by rewrite list_lookup_imap. Qed.

Lemma length_enumerate {A} (l : list A) : length (Py.enumerate l) = length l.
Proof. unfold Py.enumerate. by rewrite length_imap. Qed.

End Loops.

(** ** The balance loop *)

Section Balances.

Lemma balance_at_0 ob cs ws : balance_at ob cs ws 0 = ob.
Proof. unfold balance_at. rewrite !take_0, sum_nil. lia. Qed.

Lemma balance_at_S ob cs ws i c w :
  cs !! i = Some c -> ws !! i = Some w ->
  balance_at ob cs ws (S i) = balance_at ob cs ws i + c - w.
Proof.
  intros Hc Hw. unfold balance_at.
  rewrite (sum_take_S cs i c Hc), (sum_take_S ws i w Hw). lia.
Qed.

Lemma length_balance_series ob cs ws m :
  length (balance_series ob cs ws m) = S m.
Proof. unfold balance_series. by rewrite length_fmap, length_seq. Qed.

Lemma balance_series_lookup ob cs ws m i :
  (i <= m)%nat -> balance_series ob cs ws m !! i = Some (balance_at ob cs ws i).
Proof.
  intros Hi. unfold balance_series.
  rewrite list_lookup_fmap, lookup_seq_lt by lia. reflexivity.
Qed.

Lemma balance_series_S ob cs ws m :
  balance_series ob cs ws (S m)
  = balance_series ob cs ws m ++ [balance_at ob cs ws (S m)].
Proof. unfold balance_series. by rewrite (seq_S (S m)), fmap_app. Qed.

Lemma range_clip b : Py.range 0 b = Py.range 0 (Z.of_nat (Z.to_nat b)).
Proof. unfold Py.range. do 2 f_equal. lia. Qed.

(** After [m] iterations, with every index in range, the loop has built the
    balances of months [0 .. m]. *)
Lemma balances_loop ob_ee ob_er ee_c er_c ee_w er_w (m : nat) :
  (m <= length ee_c)%nat -> (m <= length ee_w)%nat ->
  (m <= length er_c)%nat -> (m <= length er_w)%nat ->
  Py.for_each (Py.range 0 (Z.of_nat m)) (balances_step ee_c er_c ee_w er_w)
    {| ee_balances := [ob_ee]; er_balances := [ob_er];
       current_ee_balance := ob_ee; current_er_balance := ob_er |}
  = Ok {| ee_balances := balance_series ob_ee ee_c ee_w m;
          er_balances := balance_series ob_er er_c er_w m;
          current_ee_balance := balance_at ob_ee ee_c ee_w m;
          current_er_balance := balance_at ob_er er_c er_w m |}.
Proof.
  induction m as [|m IH]; intros H1 H2 H3 H4.
  - cbn. unfold balance_series. cbn. by rewrite !balance_at_0.
  - rewrite range_0_S, for_each_app, IH by lia. cbn [mbind result_bind Py.for_each].
    unfold balances_step.
    destruct (getitem_Ok ee_c (Z.of_nat m)) as (c1 & -> & Hc1); [unfold Py.len; lia|].
    destruct (getitem_Ok ee_w (Z.of_nat m)) as (w1 & -> & Hw1); [unfold Py.len; lia|].
    destruct (getitem_Ok er_c (Z.of_nat m)) as (c2 & -> & Hc2); [unfold Py.len; lia|].
    destruct (getitem_Ok er_w (Z.of_nat m)) as (w2 & -> & Hw2); [unfold Py.len; lia|].
    rewrite Nat2Z.id in Hc1, Hw1, Hc2, Hw2.
    cbn [mbind result_bind current_ee_balance current_er_balance ee_balances er_balances].
    rewrite !balance_series_S.
    rewrite (balance_at_S ob_ee ee_c ee_w m c1 w1), (balance_at_S ob_er er_c er_w m c2 w2) by done.
    reflexivity.
Qed.

(** With four lists of one length [n], the function is the interest of the
    two balance series of months [0 .. n - 1]. *)
Lemma calculate_monthly_balances_eq ob_ee ob_er ee_c er_c ee_w er_w rate (n : nat) :
  length ee_c = n -> length er_c = n -> length ee_w = n -> length er_w = n ->
  let m := Nat.pred n in
  calculate_monthly_balances ob_ee ob_er ee_c er_c ee_w er_w rate
  = (ee_interest ← interest (Py.sum (balance_series ob_ee ee_c ee_w m)) (Py.sum ee_w) rate;
     er_interest ← interest (Py.sum (balance_series ob_er er_c er_w m)) (Py.sum er_w) rate;
     Ok (balance_series ob_ee ee_c ee_w m, balance_series ob_er er_c er_w m,
         ee_interest, er_interest)).
Proof.
  intros H1 H2 H3 H4 m. unfold calculate_monthly_balances.
  rewrite range_clip. unfold Py.len. rewrite H1.
  replace (Z.to_nat (Z.of_nat n - 1)) with m by (unfold m; lia).
  rewrite balances_loop by (unfold m; lia). reflexivity.
Qed.

Lemma amounts_within_take M l i : amounts_within M l -> amounts_within M (take i l).
Proof. apply Forall_take. Qed.

Lemma balance_at_bound M ob cs ws i :
  0 <= M -> Z.abs ob <= M -> amounts_within M cs -> amounts_within M ws ->
  Z.abs (balance_at ob cs ws i) <= (1 + 2 * Z.of_nat i) * M.
Proof.
  intros HM Hob Hcs Hws. unfold balance_at.
  pose proof (sum_abs_le M (take i cs) (amounts_within_take M cs i Hcs)) as H1.
  pose proof (sum_abs_le M (take i ws) (amounts_within_take M ws i Hws)) as H2.
  rewrite !length_take in *.
  assert (Z.of_nat (i `min` length cs) * M <= Z.of_nat i * M)
    by (apply Z.mul_le_mono_nonneg_r; lia).
  assert (Z.of_nat (i `min` length ws) * M <= Z.of_nat i * M)
    by (apply Z.mul_le_mono_nonneg_r; lia).
  lia.
Qed.

Lemma balance_series_within M ob cs ws m :
  0 <= M -> Z.abs ob <= M -> amounts_within M cs -> amounts_within M ws ->
  amounts_within ((1 + 2 * Z.of_nat m) * M) (balance_series ob cs ws m).
Proof.
  intros HM Hob Hcs Hws. unfold amounts_within, balance_series.
  apply Forall_fmap, Forall_forall. intros i Hi%elem_of_seq. cbn.
  pose proof (balance_at_bound M ob cs ws i HM Hob Hcs Hws).
  assert ((1 + 2 * Z.of_nat i) * M <= (1 + 2 * Z.of_nat m) * M)
    by (apply Z.mul_le_mono_nonneg_r; lia).
  lia.
Qed.

(** The amount the interest is taken on stays far below [2^900] for up to
    [2^64] months of amounts within [2^64]. *)
Lemma interest_base_bound ob cs ws (n : nat) :
  Z.abs ob <= 2 ^ 64 -> amounts_within (2 ^ 64) cs -> amounts_within (2 ^ 64) ws ->
  length ws = n -> Z.of_nat n <= 2 ^ 64 ->
  Z.abs (Py.sum (balance_series ob cs ws (Nat.pred n)) - Py.sum ws) < 2 ^ 900.
Proof.
  intros Hob Hcs Hws Hn Hn64.
  pose proof (balance_series_within (2 ^ 64) ob cs ws (Nat.pred n) ltac:(lia) Hob Hcs Hws) as Hb.
  apply sum_abs_le in Hb. rewrite length_balance_series in Hb.
  pose proof (sum_abs_le _ _ Hws) as Hw. rewrite Hn in Hw.
  set (N := Z.of_nat n) in *.
  assert (HS : Z.of_nat (S (Nat.pred n)) <= N + 1) by lia.
  assert (HP : 1 + 2 * Z.of_nat (Nat.pred n) <= 1 + 2 * N) by lia.
  assert (Z.of_nat (S (Nat.pred n)) * ((1 + 2 * Z.of_nat (Nat.pred n)) * 2 ^ 64)
          <= (2 ^ 64 + 1) * ((1 + 2 * 2 ^ 64) * 2 ^ 64)).
  { apply Z.mul_le_mono_nonneg; [lia|lia| |].
    - apply Z.mul_nonneg_nonneg; lia.
    - apply Z.mul_le_mono_nonneg_r; lia. }
  assert (N * 2 ^ 64 <= 2 ^ 64 * 2 ^ 64) by (apply Z.mul_le_mono_nonneg_r; lia).
  assert ((2 ^ 64 + 1) * ((1 + 2 * 2 ^ 64) * 2 ^ 64) + 2 ^ 64 * 2 ^ 64 < 2 ^ 900) by done.
  lia.
Qed.

(** The function returns whenever the four lists have one length, the
    amounts are within [2^64] and the rate is a finite double below
    [2^64]. *)
Lemma calculate_monthly_balances_defined ob_ee ob_er ee_c er_c ee_w er_w rate (n : nat) :
  length ee_c = n -> length er_c = n -> length ee_w = n -> length er_w = n ->
  Z.of_nat n <= 2 ^ 64 ->
  Z.abs ob_ee <= 2 ^ 64 -> Z.abs ob_er <= 2 ^ 64 ->
  amounts_within (2 ^ 64) ee_c -> amounts_within (2 ^ 64) er_c ->
  amounts_within (2 ^ 64) ee_w -> amounts_within (2 ^ 64) er_w ->
  Py.below 64 rate = true ->
  exists ee_interest er_interest,
    calculate_monthly_balances ob_ee ob_er ee_c er_c ee_w er_w rate
    = Ok (balance_series ob_ee ee_c ee_w (Nat.pred n),
          balance_series ob_er er_c er_w (Nat.pred n), ee_interest, er_interest).
Proof.
  intros H1 H2 H3 H4 Hn Hob1 Hob2 Hc1 Hc2 Hw1 Hw2 Hrate.
  rewrite (calculate_monthly_balances_eq _ _ _ _ _ _ _ n) by done. cbn zeta.
  destruct (interest_defined (Py.sum (balance_series ob_ee ee_c ee_w (Nat.pred n)))
              (Py.sum ee_w) rate) as [ei ->]; [by apply interest_base_bound|done|].
  destruct (interest_defined (Py.sum (balance_series ob_er er_c er_w (Nat.pred n)))
              (Py.sum er_w) rate) as [ri ->]; [by apply interest_base_bound|done|].
  by exists ei, ri.
Qed.

End Balances.

(** ** Contribution engine *)

Section Contributions.

Lemma EMPLOYEE_CONTRIBUTION_RATE_eq :
  EMPLOYEE_CONTRIBUTION_RATE = S754_finite false 8646911284551352 (- (56)).
Proof. vm_compute. reflexivity. Qed.

Lemma EMPLOYER_CONTRIBUTION_RATE_eq :
  EMPLOYER_CONTRIBUTION_RATE = S754_finite false 5289027402383911 (- (57)).
Proof. vm_compute. reflexivity. Qed.

Lemma EPS_CONTRIBUTION_RATE_eq :
  EPS_CONTRIBUTION_RATE = S754_finite false 6002397583359397 (- (56)).
Proof. vm_compute. reflexivity. Qed.

(** A nearest integer [k] to [X / D] is the half-up rounding, unless [X / D]
    is an exact half that was rounded down. *)
Lemma half_up_of_near (X D k : Z) :
  0 < D -> 2 * Z.abs (D * k - X) <= D -> 2 * (X - D * k) <> D ->
  k = half_up X D.
Proof.
  intros HD Hnear Htie. unfold half_up.
  apply Z.div_unique with (2 * X + D - 2 * D * k); lia.
Qed.

(** C6: the contributions of the wages 10000, 0 and 10001, in the order
    (employee share, employer share, pension share), are exactly
    (1200, 367, 833), (0, 0, 0) and (1200, 367, 833). *)
Theorem calculate_contributions_examples :
  calculate_contributions (VInt 10000) = Ok (1200, 367, 833) /\
  calculate_contributions (VInt 0) = Ok (0, 0, 0) /\
  calculate_contributions (VInt 10001) = Ok (1200, 367, 833).
Proof. repeat split; vm_compute; reflexivity. Qed.

(** The three shares are rounded independently: for the wage 19 the
    employer and pension shares add up to 3, the employee share is 2. *)
Example calculate_contributions_residue :
  calculate_contributions (VInt 19) = Ok (2, 1, 2).
Proof. vm_compute. reflexivity. Qed.

(** C1, as stated, fails: for the wage 15000 the employer share is
    [round(550.5) = 550] (ties go to the even integer), where rounding
    half up gives 551. *)
Lemma calculate_contributions_not_half_up :
  calculate_contributions (VInt 15000) = Ok (1800, 550, 1250) /\
  contributions_half_up 15000 = (1800, 551, 1250) /\
  calculate_contributions (VInt 15000) <> Ok (contributions_half_up 15000).
Proof. repeat split; vm_compute; congruence. Qed.

(** C1, amended: for every integer wage [0 <= w < 2^42] the function
    returns (employee share, employer share, pension share), each one a
    nearest integer to its own product 12%, 3.67%, 8.33% of the wage,
    computed from the wage alone; each equals the half-up rounding whenever
    its product is not an exact half (the employee share always). *)
Theorem calculate_contributions_nearest (w : Z) :
  0 <= w < 2 ^ 42 ->
  exists employee employer eps,
    calculate_contributions (VInt w) = Ok (employee, employer, eps) /\
    2 * Z.abs (100 * employee - 12 * w) <= 100 /\
    2 * Z.abs (10000 * employer - 367 * w) <= 10000 /\
    2 * Z.abs (10000 * eps - 833 * w) <= 10000 /\
    employee = half_up (12 * w) 100 /\
    ((367 * w) mod 10000 <> 5000 -> employer = half_up (367 * w) 10000) /\
    ((833 * w) mod 10000 <> 5000 -> eps = half_up (833 * w) 10000).
Proof.
  intros Hw. unfold calculate_contributions.
  rewrite EMPLOYEE_CONTRIBUTION_RATE_eq, EMPLOYER_CONTRIBUTION_RATE_eq,
    EPS_CONTRIBUTION_RATE_eq.
  destruct (round_mul_near w 8646911284551352 56 12 100 32) as (e & -> & He);
    [done..|].
  destruct (round_mul_near w 6002397583359397 56 833 10000 688) as (p & -> & Hp);
    [done..|].
  destruct (round_mul_near w 5289027402383911 57 367 10000 4976) as (r & -> & Hr);
    [done..|].
  exists e, r, p. cbn [mbind result_bind].
  split; [done|]. split; [done|]. split; [done|]. split; [done|].
  split; [|split].
  - apply half_up_of_near; lia.
  - intros Hmod. apply half_up_of_near; [lia|done|].
    intros Htie. apply Hmod.
    symmetry. apply Z.mod_unique with r; lia.
  - intros Hmod. apply half_up_of_near; [lia|done|].
    intros Htie. apply Hmod.
    symmetry. apply Z.mod_unique with p; lia.
Qed.

Lemma calculate_contributions_nearest_witness :
  exists employee employer eps,
    calculate_contributions (VInt 15000) = Ok (employee, employer, eps) /\
    2 * Z.abs (100 * employee - 12 * 15000) <= 100 /\
    2 * Z.abs (10000 * employer - 367 * 15000) <= 10000 /\
    2 * Z.abs (10000 * eps - 833 * 15000) <= 10000 /\
    employee = half_up (12 * 15000) 100 /\
    ((367 * 15000) mod 10000 <> 5000 -> employer = half_up (367 * 15000) 10000) /\
    ((833 * 15000) mod 10000 <> 5000 -> eps = half_up (833 * 15000) 10000).
Proof. apply (calculate_contributions_nearest 15000). vm_compute. split; [discriminate|reflexivity]. Defined.

End Contributions.

(** ** Balance and interest engine *)

Section Engine.

Lemma calculate_monthly_balances_interest ob_ee ob_er ee_c er_c ee_w er_w rate
    eb rb ei ri :
  calculate_monthly_balances ob_ee ob_er ee_c er_c ee_w er_w rate
    = Ok (eb, rb, ei, ri) ->
  interest (Py.sum eb) (Py.sum ee_w) rate = Ok ei /\
  interest (Py.sum rb) (Py.sum er_w) rate = Ok ri.
Proof.
  unfold calculate_monthly_balances.
  intros (st & _ & (ei' & Hei & (ri' & Hri & Heq)%bind_Ok)%bind_Ok)%bind_Ok.
  by injection Heq as <- <- <- <-.
Qed.

Lemma calculate_monthly_balances_Ok_inv ob_ee ob_er ee_c er_c ee_w er_w rate
    (n : nat) eb rb ei ri :
  length ee_c = n -> length er_c = n -> length ee_w = n -> length er_w = n ->
  calculate_monthly_balances ob_ee ob_er ee_c er_c ee_w er_w rate
    = Ok (eb, rb, ei, ri) ->
  eb = balance_series ob_ee ee_c ee_w (Nat.pred n) /\
  rb = balance_series ob_er er_c er_w (Nat.pred n).
Proof.
  intros H1 H2 H3 H4. rewrite (calculate_monthly_balances_eq _ _ _ _ _ _ _ n) by done.
  cbn zeta. intros (ei' & _ & (ri' & _ & Heq)%bind_Ok)%bind_Ok.
  by injection Heq as <- <- _ _.
Qed.

Lemma balance_series_running ob cs ws :
  length cs = 12%nat -> length ws = 12%nat ->
  running_balances ob cs ws (balance_series ob cs ws 11).
Proof.
  intros Hcs Hws. split; [apply length_balance_series|]. split.
  - rewrite balance_series_lookup by lia. by rewrite balance_at_0.
  - intros i Hi.
    destruct (lookup_lt_is_Some_2 cs (i - 1)) as [c Hc]; [lia|].
    destruct (lookup_lt_is_Some_2 ws (i - 1)) as [w Hw]; [lia|].
    exists (balance_at ob cs ws (i - 1)), c, w.
    rewrite !balance_series_lookup by lia.
    split; [done|]. split; [done|]. split; [done|].
    replace i with (S (i - 1)) at 1 by lia.
    by rewrite (balance_at_S ob cs ws (i - 1) c w).
Qed.

Lemma balance_series_take ob cs ws (m k : nat) :
  (m <= k)%nat ->
  balance_series ob (take k cs) (take k ws) m = balance_series ob cs ws m.
Proof.
  intros Hmk. unfold balance_series. apply list_fmap_ext.
  intros j i Hi%lookup_seq. unfold balance_at.
  rewrite !take_take. by replace (i `min` k)%nat with i by lia.
Qed.

(** C2: with twelve-element lists, the balance series a call returns has
    twelve entries, starts at the opening balance, and for i = 1..11 has
    balances[i] = balances[i-1] + contributions[i-1] - withdrawals[i-1]; it
    is the series of the first eleven months alone, so the twelfth month's
    contribution and withdrawal never enter it. The call returns whenever
    the amounts are within 2^64 and the rate is a finite double below
    2^64. *)
Theorem calculate_monthly_balances_series ob_ee ob_er ee_c er_c ee_w er_w rate :
  length ee_c = 12%nat -> length er_c = 12%nat ->
  length ee_w = 12%nat -> length er_w = 12%nat ->
  (forall eb rb ei ri,
     calculate_monthly_balances ob_ee ob_er ee_c er_c ee_w er_w rate
       = Ok (eb, rb, ei, ri) ->
     running_balances ob_ee ee_c ee_w eb /\
     running_balances ob_er er_c er_w rb /\
     eb = balance_series ob_ee (take 11 ee_c) (take 11 ee_w) 11 /\
     rb = balance_series ob_er (take 11 er_c) (take 11 er_w) 11) /\
  (Z.abs ob_ee <= 2 ^ 64 -> Z.abs ob_er <= 2 ^ 64 ->
   amounts_within (2 ^ 64) ee_c -> amounts_within (2 ^ 64) er_c ->
   amounts_within (2 ^ 64) ee_w -> amounts_within (2 ^ 64) er_w ->
   Py.below 64 rate = true ->
   exists eb rb ei ri,
     calculate_monthly_balances ob_ee ob_er ee_c er_c ee_w er_w rate
       = Ok (eb, rb, ei, ri)).
Proof.
  intros H1 H2 H3 H4. split.
  - intros eb rb ei ri Hcall.
    destruct (calculate_monthly_balances_Ok_inv _ _ _ _ _ _ _ 12 _ _ _ _
                H1 H2 H3 H4 Hcall) as [-> ->].
    cbn [Nat.pred]. rewrite !balance_series_take by lia.
    split; [by apply balance_series_running|].
    split; [by apply balance_series_running|]. done.
  - intros Hob1 Hob2 Hc1 Hc2 Hw1 Hw2 Hrate.
    destruct (calculate_monthly_balances_defined ob_ee ob_er ee_c er_c ee_w er_w rate 12)
      as (ei & ri & Heq); try done.
    by eexists _, _, ei, ri.
Qed.

Lemma sample_amounts_within :
  amounts_within (2 ^ 64) sample_ee_contributions /\
  amounts_within (2 ^ 64) sample_er_contributions /\
  amounts_within (2 ^ 64) sample_ee_withdrawals /\
  amounts_within (2 ^ 64) sample_er_withdrawals.
Proof. repeat split; repeat constructor; vm_compute; discriminate. Defined.

Lemma calculate_monthly_balances_series_witness :
  exists eb rb ei ri,
    calculate_monthly_balances 50000 15000 sample_ee_contributions
      sample_er_contributions sample_ee_withdrawals sample_er_withdrawals
      sample_rate = Ok (eb, rb, ei, ri) /\
    running_balances 50000 sample_ee_contributions sample_ee_withdrawals eb /\
    running_balances 15000 sample_er_contributions sample_er_withdrawals rb.
Proof.
  destruct (calculate_monthly_balances_series 50000 15000 sample_ee_contributions
              sample_er_contributions sample_ee_withdrawals sample_er_withdrawals
              sample_rate eq_refl eq_refl eq_refl eq_refl) as [Hseries Hdefined].
  destruct sample_amounts_within as (Hc1 & Hc2 & Hw1 & Hw2).
  destruct (Hdefined ltac:(by_compute) ltac:(by_compute) Hc1 Hc2 Hw1 Hw2
              ltac:(by_compute)) as (eb & rb & ei & ri & Hcall).
  exists eb, rb, ei, ri. split; [exact Hcall|].
  destruct (Hseries eb rb ei ri Hcall) as (Hee & Her & _). by split.
Defined.

(** C3: the interest a call returns is
    round((sum(balances) - sum(withdrawals)) * rate / 1200) for each share,
    on the balances it returns and on the whole withdrawal list, the twelfth
    month included (changing only the twelfth withdrawal of the sample from
    0 to 6000 moves the interest from 4782 to 4739 and no balance); the
    single-month series with opening 12000, contributions [1000],
    withdrawals [0] and rate 8.5 gives balances [12000] and interest 85. *)
Theorem calculate_monthly_balances_interest_formula :
  (forall ob_ee ob_er ee_c er_c ee_w er_w rate eb rb ei ri,
     calculate_monthly_balances ob_ee ob_er ee_c er_c ee_w er_w rate
       = Ok (eb, rb, ei, ri) ->
     exists x y d,
       Py.float_of_int (Py.sum eb - Py.sum ee_w) = Ok x /\
       Py.float_of_int (Py.sum rb - Py.sum er_w) = Ok y /\
       Py.float_of_int 1200 = Ok d /\
       Py.round (Py.fdiv (Py.fmul x rate) d) = Ok ei /\
       Py.round (Py.fdiv (Py.fmul y rate) d) = Ok ri) /\
  calculate_monthly_balances 12000 3600 [1000] [300] [0] [0] (Py.literal 17 2)
    = Ok ([12000], [3600], 85, 26) /\
  (exists eb rb ri,
     calculate_monthly_balances 50000 15000 sample_ee_contributions
       sample_er_contributions sample_ee_withdrawals sample_er_withdrawals
       sample_rate = Ok (eb, rb, 4782, ri) /\
     calculate_monthly_balances 50000 15000 sample_ee_contributions
       sample_er_contributions (<[11%nat:=6000]> sample_ee_withdrawals)
       sample_er_withdrawals sample_rate = Ok (eb, rb, 4739, ri)).
Proof.
  split; [|split].
  - intros ob_ee ob_er ee_c er_c ee_w er_w rate eb rb ei ri Hcall.
    apply calculate_monthly_balances_interest in Hcall as [Hee Her].
    unfold interest in Hee, Her.
    apply bind_Ok in Hee as (x & Hx & (d & Hd & Hee)%bind_Ok).
    apply bind_Ok in Her as (y & Hy & (d' & Hd' & Her)%bind_Ok).
    assert (d' = d) as -> by congruence.
    by exists x, y, d.
  - vm_compute. reflexivity.
  - eexists _, _, _. split; vm_compute; reflexivity.
Qed.

Lemma calculate_monthly_balances_interest_formula_witness :
  exists x d,
    Py.float_of_int
      (Py.sum [10000; 10500] - Py.sum [500; 0]) = Ok x /\
    Py.float_of_int 1200 = Ok d /\
    Py.round (Py.fdiv (Py.fmul x sample_rate) d) = Ok 142.
Proof.
  destruct (proj1 calculate_monthly_balances_interest_formula
              10000 3000 [1000; 1000] [300; 300] [500; 0] [150; 0] sample_rate
              [10000; 10500] [3000; 3150] 142 42 eq_refl)
    as (x & y & d & Hx & _ & Hd & Hee & _).
  by exists x, d.
Defined.

Lemma interest_Raise total withdrawn rate e :
  interest total withdrawn rate = Raise e -> e = OverflowError \/ e = ValueError.
Proof.
  unfold interest. rewrite float_of_int_1200.
  unfold Py.float_of_int.
  destruct (binary_normalize _ _ _ _ _); cbn [mbind result_bind].
  2: { intros [= <-]. by left. }
  all: match goal with
       | |- Py.round ?x = _ -> _ => destruct x; cbn [Py.round]; intros [= <-]; auto
       end.
Qed.

(** C10, as stated, fails: four lists of one length do not make the
    function total. With a NaN rate the loop runs and the final [round]
    raises [ValueError]; with an infinite rate it raises
    [OverflowError]. *)
Lemma calculate_monthly_balances_not_total :
  length [1000; 1000] = length [300; 300] /\
  length [1000; 1000] = length [500; 0] /\
  length [1000; 1000] = length [150; 0] /\
  calculate_monthly_balances 10000 3000 [1000; 1000] [300; 300] [500; 0]
    [150; 0] S754_nan = Raise ValueError /\
  calculate_monthly_balances 10000 3000 [1000; 1000] [300; 300] [500; 0]
    [150; 0] (S754_infinity false) = Raise OverflowError /\
  ~ exists r,
      calculate_monthly_balances 10000 3000 [1000; 1000] [300; 300] [500; 0]
        [150; 0] S754_nan = Ok r.
Proof.
  repeat split; try reflexivity. intros [r Hr]. vm_compute in Hr. discriminate.
Qed.

(** C10, amended: with four lists of one length [n], the loop runs over
    exactly max(n - 1, 0) indices, every one of them in range for all four
    lists, and completes without an [IndexError], appending one balance per
    iteration; the function can then only raise from the final interest
    arithmetic ([OverflowError] or [ValueError]), and it returns whenever
    the amounts are within 2^64, [n] is at most 2^64 and the rate is a
    finite double below 2^64. *)
Theorem calculate_monthly_balances_index_safe
    ob_ee ob_er ee_c er_c ee_w er_w rate (n : nat) :
  length ee_c = n -> length er_c = n -> length ee_w = n -> length er_w = n ->
  let indices := Py.range 0 (Py.len ee_c - 1) in
  Z.of_nat (length indices) = Z.max (Z.of_nat n - 1) 0 /\
  Forall (fun i => 0 <= i < Py.len ee_c /\ 0 <= i < Py.len ee_w /\
                   0 <= i < Py.len er_c /\ 0 <= i < Py.len er_w) indices /\
  (exists st,
     Py.for_each indices (balances_step ee_c er_c ee_w er_w)
       {| ee_balances := [ob_ee]; er_balances := [ob_er];
          current_ee_balance := ob_ee; current_er_balance := ob_er |} = Ok st /\
     length (ee_balances st) = S (length indices) /\
     length (er_balances st) = S (length indices)) /\
  (forall e,
     calculate_monthly_balances ob_ee ob_er ee_c er_c ee_w er_w rate = Raise e ->
     e = OverflowError \/ e = ValueError) /\
  (Z.of_nat n <= 2 ^ 64 -> Z.abs ob_ee <= 2 ^ 64 -> Z.abs ob_er <= 2 ^ 64 ->
   amounts_within (2 ^ 64) ee_c -> amounts_within (2 ^ 64) er_c ->
   amounts_within (2 ^ 64) ee_w -> amounts_within (2 ^ 64) er_w ->
   Py.below 64 rate = true ->
   exists eb rb ei ri,
     calculate_monthly_balances ob_ee ob_er ee_c er_c ee_w er_w rate
       = Ok (eb, rb, ei, ri) /\
     length eb = S (length indices) /\ length rb = S (length indices)).
Proof.
  intros H1 H2 H3 H4 indices.
  assert (Hlen : length indices = Nat.pred n).
  { unfold indices. rewrite length_range. unfold Py.len. lia. }
  split; [lia|]. split; [|split; [|split]].
  - apply Forall_forall. intros i Hi%range_elem. unfold Py.len in *. lia.
  - unfold indices. rewrite range_clip. unfold Py.len. rewrite H1.
    replace (Z.to_nat (Z.of_nat n - 1)) with (Nat.pred n) by lia.
    rewrite balances_loop by lia. eexists; split; [reflexivity|].
    cbn [ee_balances er_balances]. rewrite !length_balance_series.
    rewrite length_range. split; f_equal; lia.
  - intros e. rewrite (calculate_monthly_balances_eq _ _ _ _ _ _ _ n) by done.
    cbn zeta.
    destruct (interest _ (Py.sum ee_w) rate) as [ei|e1] eqn:Hee; cbn [mbind result_bind].
    + destruct (interest _ (Py.sum er_w) rate) as [ri|e2] eqn:Her; cbn [mbind result_bind]; [done|].
      intros [= <-]. by eapply interest_Raise.
    + intros [= <-]. by eapply interest_Raise.
  - intros Hn Hob1 Hob2 Hc1 Hc2 Hw1 Hw2 Hrate.
    destruct (calculate_monthly_balances_defined ob_ee ob_er ee_c er_c ee_w er_w rate n)
      as (ei & ri & Heq); try done.
    eexists _, _, ei, ri. split; [exact Heq|].
    rewrite !length_balance_series, Hlen. done.
Qed.

Lemma calculate_monthly_balances_index_safe_witness :
  Z.of_nat (length (Py.range 0 (Py.len sample_ee_contributions - 1))) = 11 /\
  exists eb rb ei ri,
    calculate_monthly_balances 50000 15000 sample_ee_contributions
      sample_er_contributions sample_ee_withdrawals sample_er_withdrawals
      sample_rate = Ok (eb, rb, ei, ri) /\
    length eb = 12%nat /\ length rb = 12%nat.
Proof.
  destruct (calculate_monthly_balances_index_safe 50000 15000
              sample_ee_contributions sample_er_contributions
              sample_ee_withdrawals sample_er_withdrawals sample_rate 12
              eq_refl eq_refl eq_refl eq_refl)
    as (Hcount & _ & _ & _ & Hdefined).
  split; [exact Hcount|].
  destruct sample_amounts_within as (Hc1 & Hc2 & Hw1 & Hw2).
  destruct (Hdefined ltac:(by_compute) ltac:(by_compute) ltac:(by_compute)
              Hc1 Hc2 Hw1 Hw2 ltac:(by_compute))
    as (eb & rb & ei & ri & Hcall & Heb & Hrb).
  exists eb, rb, ei, ri. split; [exact Hcall|]. split; [exact Heb|exact Hrb].
Defined.

End Engine.

(** ** Schema validator *)

Section Validator.

Lemma append_assoc (a b c : string) : (a +:+ b) +:+ c = a +:+ (b +:+ c).
Proof.
  induction a as [|x a IH]; [done|].
  change (String x ((a +:+ b) +:+ c) = String x (a +:+ b +:+ c)). by f_equal.
Qed.

Lemma contains_here (pre sub post : string) : contains (pre +:+ sub +:+ post) sub.
Proof. by exists pre, post. Qed.

Lemma diagnostic_informative (f : failure) : informative f.
Proof.
  destruct f as [table noun expected found|table wage_rows rows];
    cbn [informative diagnostic]; unfold column_message, row_message.
  - split; [apply contains_here|]. split.
    + exists ("In '" +:+ table +:+ "' Sheet Expected "),
        (" " +:+ noun +:+ ", found " +:+ Py.str found +:+ ".").
      by rewrite !append_assoc.
    + exists ("In '" +:+ table +:+ "' Sheet Expected " +:+ Py.str expected
               +:+ " " +:+ noun +:+ ", found "), ".".
      by rewrite !append_assoc.
  - split; [|split].
    + exists ("Row count mismatch: 'Wages' has " +:+ Py.str wage_rows +:+ " rows, '"),
        ("' has " +:+ Py.str rows +:+ " rows.").
      by rewrite !append_assoc.
    + apply contains_here.
    + exists ("Row count mismatch: 'Wages' has " +:+ Py.str wage_rows
               +:+ " rows, '" +:+ table +:+ "' has "), " rows.".
      by rewrite !append_assoc.
Qed.

Lemma validate_sheet_dimensions_Ok
    (wage_sheet ob_ee_sheet ob_er_sheet ob_eps_sheet wdl_ee_sheet
       wdl_er_sheet : worksheet) :
  validate_sheet_dimensions wage_sheet ob_ee_sheet ob_er_sheet ob_eps_sheet
    wdl_ee_sheet wdl_er_sheet = Ok tt <->
  max_column wage_sheet = 14 /\ max_column ob_ee_sheet = 1 /\
  max_column ob_er_sheet = 1 /\ max_column ob_eps_sheet = 1 /\
  max_column wdl_ee_sheet = 12 /\ max_column wdl_er_sheet = 12 /\
  max_row ob_ee_sheet = max_row wage_sheet /\
  max_row ob_er_sheet = max_row wage_sheet /\
  max_row ob_eps_sheet = max_row wage_sheet /\
  max_row wdl_ee_sheet = max_row wage_sheet /\
  max_row wdl_er_sheet = max_row wage_sheet.
Proof.
  unfold validate_sheet_dimensions, EXPECTED_WAGES_COLUMNS,
    EXPECTED_OB_COLUMNS, EXPECTED_WDL_COLUMNS.
  repeat (match goal with
          | |- context [?a =? ?b] =>
              destruct (Z.eqb_spec a b); cbn [negb]; [|split; [discriminate|lia]]
          end).
  split; [lia|done].
Qed.

(** C5: the validator runs the six column-count checks (14, 1, 1, 1, 12,
    12) and then the five row-count checks against the wage table in that
    order; the first check that fails raises a validation failure whose
    message names the table and both counts, and when every check passes
    nothing is raised. A wage table of 13 columns and a withdrawal table one
    row short are reported as such. *)
Theorem validate_sheet_dimensions_first_failure
    (wage_sheet ob_ee_sheet ob_er_sheet ob_eps_sheet wdl_ee_sheet
       wdl_er_sheet : worksheet) :
  validate_sheet_dimensions wage_sheet ob_ee_sheet ob_er_sheet ob_eps_sheet
    wdl_ee_sheet wdl_er_sheet
  = match first_failure (checks wage_sheet ob_ee_sheet ob_er_sheet
                           ob_eps_sheet wdl_ee_sheet wdl_er_sheet) with
    | Some f => Raise (DataValidationError (diagnostic f))
    | None => Ok tt
    end /\
  (forall f,
     first_failure (checks wage_sheet ob_ee_sheet ob_er_sheet ob_eps_sheet
                      wdl_ee_sheet wdl_er_sheet) = Some f ->
     informative f) /\
  (validate_sheet_dimensions wage_sheet ob_ee_sheet ob_er_sheet ob_eps_sheet
     wdl_ee_sheet wdl_er_sheet = Ok tt <->
   max_column wage_sheet = 14 /\ max_column ob_ee_sheet = 1 /\
   max_column ob_er_sheet = 1 /\ max_column ob_eps_sheet = 1 /\
   max_column wdl_ee_sheet = 12 /\ max_column wdl_er_sheet = 12 /\
   max_row ob_ee_sheet = max_row wage_sheet /\
   max_row ob_er_sheet = max_row wage_sheet /\
   max_row ob_eps_sheet = max_row wage_sheet /\
   max_row wdl_ee_sheet = max_row wage_sheet /\
   max_row wdl_er_sheet = max_row wage_sheet) /\
  validate_sheet_dimensions (blank_sheet 6 13 VNone) (blank_sheet 6 1 VNone)
    (blank_sheet 6 1 VNone) (blank_sheet 6 1 VNone) (blank_sheet 6 12 VNone)
    (blank_sheet 6 12 VNone)
  = Raise (DataValidationError
             "In 'Wages' Sheet Expected 14 columns, found 13.") /\
  validate_sheet_dimensions (blank_sheet 6 14 VNone) (blank_sheet 6 1 VNone)
    (blank_sheet 6 1 VNone) (blank_sheet 6 1 VNone) (blank_sheet 5 12 VNone)
    (blank_sheet 6 12 VNone)
  = Raise (DataValidationError
             "Row count mismatch: 'Wages' has 6 rows, 'WDL_EE' has 5 rows.").
Proof.
  split; [|split; [|split; [|split]]].
  - unfold validate_sheet_dimensions, checks, EXPECTED_WAGES_COLUMNS,
      EXPECTED_OB_COLUMNS, EXPECTED_WDL_COLUMNS.
    cbn [first_failure].
    repeat (match goal with
            | |- context [?a =? ?b] => destruct (a =? b); cbn [negb]; [|reflexivity]
            end).
    reflexivity.
  - intros f _. apply diagnostic_informative.
  - apply validate_sheet_dimensions_Ok.
  - reflexivity.
  - reflexivity.
Qed.

Lemma validate_sheet_dimensions_first_failure_witness :
  first_failure (checks sample_wage_sheet sample_ob_ee_sheet sample_ob_er_sheet
                   sample_ob_eps_sheet (blank_sheet 1 12 VNone)
                   sample_wdl_er_sheet)
  = Some (RowMismatch "WDL_EE" 2 1) /\
  informative (RowMismatch "WDL_EE" 2 1).
Proof.
  split; [reflexivity|].
  exact (proj1 (proj2 (validate_sheet_dimensions_first_failure sample_wage_sheet
                         sample_ob_ee_sheet sample_ob_er_sheet sample_ob_eps_sheet
                         (blank_sheet 1 12 VNone) sample_wdl_er_sheet))
           (RowMismatch "WDL_EE" 2 1) eq_refl).
Defined.

End Validator.

(** ** Record extractor *)

Section Extractor.

Lemma foldl_snoc {A B} (f : A -> B) (l : list A) (acc : list B) :
  foldl (fun acc x => acc ++ [f x]) acc l = acc ++ (f <$> l).
Proof.
  revert acc. induction l as [|x l IH]; intros acc; cbn [foldl fmap list_fmap].
  - by rewrite app_nil_r.
  - rewrite IH, <- app_assoc. reflexivity.
Qed.

Lemma fetch_sheet_data_single sheet :
  fetch_sheet_data sheet "single"
  = (fun row => zero_if_none (cell sheet row 1)) <$> Py.range 2 (max_row sheet + 1).
Proof. unfold fetch_sheet_data. cbn [String.eqb Ascii.eqb Bool.eqb]. by rewrite foldl_snoc. Qed.

Lemma fetch_sheet_data_multi sheet data_type :
  data_type <> "single"%string ->
  fetch_sheet_data sheet data_type
  = (fun row => VList ((fun column => zero_if_none (cell sheet row column))
                         <$> Py.range 1 (max_column sheet + 1)))
      <$> Py.range 2 (max_row sheet + 1).
Proof.
  intros Hne. unfold fetch_sheet_data.
  destruct (String.eqb_spec data_type "single") as [?|_]; [done|].
  rewrite foldl_snoc. apply list_fmap_ext. intros _ row _. cbn.
  by rewrite foldl_snoc.
Qed.

(** C8: the extractor reads rows 2 to [max_row]; for a single-column table
    the record of row [r] is the cell (r, 1), and for a multi-column table
    it is the list of the cells (r, 1) to (r, [max_column]); in both, a
    missing cell is replaced by 0 and any other cell is kept unchanged. *)
Theorem fetch_sheet_data_defaults (sheet : worksheet) :
  zero_if_none VNone = VInt 0 /\
  (forall v, v <> VNone -> zero_if_none v = v) /\
  length (fetch_sheet_data sheet "single") = Z.to_nat (max_row sheet - 1) /\
  length (fetch_sheet_data sheet "multi") = Z.to_nat (max_row sheet - 1) /\
  (forall r, 2 <= r <= max_row sheet ->
     fetch_sheet_data sheet "single" !! Z.to_nat (r - 2)
     = Some (zero_if_none (cell sheet r 1))) /\
  (forall r, 2 <= r <= max_row sheet ->
     exists row_data,
       fetch_sheet_data sheet "multi" !! Z.to_nat (r - 2) = Some (VList row_data) /\
       length row_data = Z.to_nat (max_column sheet) /\
       forall c, 1 <= c <= max_column sheet ->
         row_data !! Z.to_nat (c - 1) = Some (zero_if_none (cell sheet r c))).
Proof.
  rewrite fetch_sheet_data_single, (fetch_sheet_data_multi sheet "multi") by done.
  split; [done|]. split; [|split; [|split; [|split]]].
  - intros v Hv. by destruct v.
  - rewrite length_fmap, length_range. f_equal. lia.
  - rewrite length_fmap, length_range. f_equal. lia.
  - intros r Hr. rewrite list_lookup_fmap, range_lookup by lia.
    cbn. do 3 f_equal. lia.
  - intros r Hr. eexists. rewrite list_lookup_fmap, range_lookup by lia.
    cbn. split; [reflexivity|]. split.
    + rewrite length_fmap, length_range. f_equal. lia.
    + intros c Hc. rewrite list_lookup_fmap, range_lookup by lia.
      cbn. replace (2 + Z.of_nat (Z.to_nat (r - 2))) with r by lia.
      by replace (1 + Z.of_nat (Z.to_nat (c - 1))) with c by lia.
Qed.

End Extractor.

(** ** Statement assembler *)

Section Statement.

Variable int_of_text : string -> option Z.

Lemma str_decimal z : NilZero.int_of_string (Py.str z) = Some (Z.to_int z).
Proof.
  unfold Py.str. apply NilZero.isi; destruct z as [|q|q]; cbn; intros [= H];
    by apply Unsigned.to_uint_nonnil in H.
Qed.

Lemma decimal_text_str z : decimal_text (VStr (Py.str z)).
Proof. exists z. split; [done|apply str_decimal]. Qed.

(** The contribution loop collects, in order, the three shares of every
    monthly wage. *)
Lemma collect_contributions_Ok monthly_wages ees ers epss :
  collect_contributions monthly_wages = Ok (ees, ers, epss) <->
  exists shares,
    Forall2 (fun wage share => calculate_contributions wage = Ok share)
      monthly_wages shares /\
    ees = (fun share => share.1.1) <$> shares /\
    ers = (fun share => share.1.2) <$> shares /\
    epss = (fun share => share.2) <$> shares.
Proof.
  unfold collect_contributions.
  enough (forall a b c,
    Py.for_each monthly_wages
      (fun wage '(ee_contribs, er_contribs, eps_contribs) =>
         '(ee, er, eps) ← calculate_contributions wage;
         Ok (ee_contribs ++ [ee], er_contribs ++ [er], eps_contribs ++ [eps]))
      (a, b, c) = Ok (ees, ers, epss) <->
    exists shares,
      Forall2 (fun wage share => calculate_contributions wage = Ok share)
        monthly_wages shares /\
      ees = a ++ ((fun share => share.1.1) <$> shares) /\
      ers = b ++ ((fun share => share.1.2) <$> shares) /\
      epss = c ++ ((fun share => share.2) <$> shares)) as Hgen by apply Hgen.
  induction monthly_wages as [|wage wages IH]; intros a b c; cbn [Py.for_each].
  - split.
    + intros [= <- <- <-]. exists []. by rewrite !app_nil_r.
    + intros (shares & ->%Forall2_nil_inv_l & -> & -> & ->). by rewrite !app_nil_r.
  - rewrite bind_Ok. split.
    + intros ([[a' b'] c'] & Hstep & Hrest).
      apply bind_Ok in Hstep as ([[ee er] eps] & Hshare & [= <- <- <-]).
      apply IH in Hrest as (shares & Hshares & -> & -> & ->).
      exists ((ee, er, eps) :: shares). split; [by constructor|].
      cbn. by rewrite <- !app_assoc.
    + intros (shares & Hshares & -> & -> & ->).
      apply Forall2_cons_inv_l in Hshares as ([[ee er] eps] & shares' & Hshare & Hshares & ->).
      exists (a ++ [ee], b ++ [er], c ++ [eps]). split; [by rewrite Hshare|].
      apply IH. exists shares'. split; [done|]. cbn. by rewrite <- !app_assoc.
Qed.

(** What a statement row is made of. *)
Lemma statement_row_Ok_inv ob_ee_data ob_er_data ob_eps_data wdl_ee_data
    wdl_er_data rate i wage_row row :
  statement_row int_of_text ob_ee_data ob_er_data ob_eps_data wdl_ee_data
    wdl_er_data rate i wage_row = Ok row ->
  exists account_no name monthly_wages ees ers epss ob_ee ob_er ob_eps
         ee_w er_w eb rb ei ri,
    getitem wage_row 0 = Ok account_no /\
    getitem wage_row 1 = Ok name /\
    slice wage_row 2 14 = Ok monthly_wages /\
    collect_contributions monthly_wages = Ok (ees, ers, epss) /\
    (Py.getitem ob_ee_data i ≫= py_int int_of_text) = Ok ob_ee /\
    (Py.getitem ob_er_data i ≫= py_int int_of_text) = Ok ob_er /\
    (Py.getitem ob_eps_data i ≫= py_int int_of_text) = Ok ob_eps /\
    (Py.getitem wdl_ee_data i ≫= ints int_of_text) = Ok ee_w /\
    (Py.getitem wdl_er_data i ≫= ints int_of_text) = Ok er_w /\
    calculate_monthly_balances ob_ee ob_er ees ers ee_w er_w rate
      = Ok (eb, rb, ei, ri) /\
    row = [account_no; name;
           VStr (Py.str ob_ee); VStr (Py.str ob_er);
           VStr (Py.str ei); VStr (Py.str ri);
           VStr (Py.str (Py.sum ees)); VStr (Py.str (Py.sum ers));
           VStr (Py.str (Py.sum ee_w)); VStr (Py.str (Py.sum er_w));
           VStr (Py.str (ob_ee + ei + Py.sum ees - Py.sum ee_w));
           VStr (Py.str (ob_er + ri + Py.sum ers - Py.sum er_w));
           VStr (Py.str ob_eps); VStr (Py.str (Py.sum epss));
           VStr (Py.str (ob_eps + Py.sum epss))].
Proof.
  unfold statement_row.
  intros (account_no & H1 & H)%bind_Ok.
  apply bind_Ok in H as (name & H2 & H).
  apply bind_Ok in H as (monthly_wages & H3 & H).
  apply bind_Ok in H as ([[ees ers] epss] & H4 & H).
  apply bind_Ok in H as (ob_ee & H5 & H).
  apply bind_Ok in H as (ob_er & H6 & H).
  apply bind_Ok in H as (ob_eps & H7 & H).
  apply bind_Ok in H as (ee_w & H8 & H).
  apply bind_Ok in H as (er_w & H9 & H).
  apply bind_Ok in H as ([[[eb rb] ei] ri] & H10 & [= <-]).
  by exists account_no, name, monthly_wages, ees, ers, epss, ob_ee, ob_er, ob_eps,
    ee_w, er_w, eb, rb, ei, ri.
Qed.

(** The output is the header followed by the statement rows of the
    employees, in order. *)
Lemma generate_output_rows_Ok wage_sheet_data ob_ee_data ob_er_data
    ob_eps_data wdl_ee_data wdl_er_data rate rows :
  generate_output_rows int_of_text wage_sheet_data ob_ee_data ob_er_data
    ob_eps_data wdl_ee_data wdl_er_data rate = Ok rows <->
  exists data,
    rows = header :: data /\
    Forall2 (fun '(i, wage_row) row =>
               statement_row int_of_text ob_ee_data ob_er_data ob_eps_data
                 wdl_ee_data wdl_er_data rate i wage_row = Ok row)
      (Py.enumerate wage_sheet_data) data.
Proof.
  unfold generate_output_rows.
  assert (forall (xs : list (Z * value)) acc,
    Py.for_each xs
      (fun '(i, wage_row) output_rows =>
         row ← statement_row int_of_text ob_ee_data ob_er_data ob_eps_data
                 wdl_ee_data wdl_er_data rate i wage_row;
         Ok (output_rows ++ [row])) acc
    = Py.for_each xs
        (fun x acc =>
           r ← (let '(i, wage_row) := x in
                statement_row int_of_text ob_ee_data ob_er_data ob_eps_data
                  wdl_ee_data wdl_er_data rate i wage_row);
           Ok (acc ++ [r])) acc) as Heq.
  { induction xs as [|[i wage_row] xs IH]; intros acc; cbn [Py.for_each]; [done|].
    destruct (statement_row _ _ _ _ _ _ _ _ _); cbn [mbind result_bind]; [apply IH|done]. }
  rewrite Heq, for_each_collect.
  split; intros (data & -> & Hdata); exists data; (split; [done|]);
    (eapply Forall2_impl; [exact Hdata|]); by intros [i wage_row] row.
Qed.

Lemma zero_if_none_amount v : amount_cell v -> amount_value (zero_if_none v).
Proof. destruct v; cbn; try done. Qed.

Lemma getitem_lookup {A} (l : list A) (k : nat) (x : A) :
  l !! k = Some x -> Py.getitem l (Z.of_nat k) = Ok x.
Proof.
  intros Hx. destruct (getitem_Ok l (Z.of_nat k)) as (y & -> & Hy).
  - apply lookup_lt_Some in Hx. unfold Py.len. lia.
  - rewrite Nat2Z.id in Hy. congruence.
Qed.

Lemma py_int_amount v :
  amount_value v -> exists z, py_int int_of_text v = Ok z /\ Z.abs z <= 2 ^ 64.
Proof.
  destruct v as [|z|x|t|l]; cbn [amount_value py_int]; try done.
  - intros Hz. by exists z.
  - intros Hx. by apply trunc_below.
Qed.

Lemma rates_below :
  Py.below (-3) EMPLOYEE_CONTRIBUTION_RATE = true /\
  Py.below (-3) EPS_CONTRIBUTION_RATE = true /\
  Py.below (-3) EMPLOYER_CONTRIBUTION_RATE = true.
Proof. repeat split; by_compute. Qed.

Lemma round_mul_float_amount v c :
  amount_value v -> Py.below (-3) c = true ->
  exists z, (x ← mul_float v c; Py.round x) = Ok z /\ Z.abs z <= 2 ^ 64.
Proof.
  intros Hv Hc. destruct v as [|z|x|t|l]; cbn [amount_value mul_float] in *; try done.
  - destruct (float_of_int_below z 65) as (x & -> & Hx); [|lia|].
    { assert (2 ^ 64 < 2 ^ 65) by done. lia. }
    cbn [mbind result_bind].
    pose proof (fmul_below _ _ _ _ Hx Hc ltac:(lia)) as Hp.
    by apply (round_below 64).
  - cbn [mbind result_bind].
    pose proof (fmul_below _ _ _ _ Hv Hc ltac:(lia)) as Hp.
    apply (round_below 64); [|lia]. by apply (below_mono (64 + -3 + 1)).
Qed.

Lemma calculate_contributions_amount v :
  amount_value v ->
  exists ee er eps,
    calculate_contributions v = Ok (ee, er, eps) /\
    Z.abs ee <= 2 ^ 64 /\ Z.abs er <= 2 ^ 64 /\ Z.abs eps <= 2 ^ 64.
Proof.
  intros Hv. destruct rates_below as (H1 & H2 & H3). unfold calculate_contributions.
  destruct (round_mul_float_amount v _ Hv H1) as (ee & -> & Hee).
  destruct (round_mul_float_amount v _ Hv H2) as (eps & -> & Heps).
  destruct (round_mul_float_amount v _ Hv H3) as (er & -> & Her).
  exists ee, er, eps. cbn [mbind result_bind].
  split; [reflexivity|]. split; [exact Hee|]. split; [exact Her|exact Heps].
Qed.

Lemma collect_contributions_amounts monthly_wages :
  Forall amount_value monthly_wages ->
  exists ees ers epss,
    collect_contributions monthly_wages = Ok (ees, ers, epss) /\
    length ees = length monthly_wages /\ length ers = length monthly_wages /\
    amounts_within (2 ^ 64) ees /\ amounts_within (2 ^ 64) ers.
Proof.
  intros Hall.
  assert (exists shares,
    Forall2 (fun wage share => calculate_contributions wage = Ok share)
      monthly_wages shares /\
    Forall (fun share => Z.abs share.1.1 <= 2 ^ 64 /\ Z.abs share.1.2 <= 2 ^ 64) shares)
    as (shares & Hshares & Hbound).
  { induction Hall as [|wage wages Hwage _ (shares & Hshares & Hbound)].
    - exists []. by split.
    - destruct (calculate_contributions_amount wage Hwage)
        as (ee & er & eps & Heq & Hee & Her & _).
      exists ((ee, er, eps) :: shares). split; by constructor. }
  eexists _, _, _. split.
  { apply collect_contributions_Ok. exists shares. by split. }
  rewrite !length_fmap. pose proof (Forall2_length _ _ _ Hshares).
  split; [done|]. split; [done|].
  unfold amounts_within. split; apply Forall_fmap; (eapply Forall_impl; [exact Hbound|]);
    cbn; tauto.
Qed.

Lemma ints_amounts (xs : list value) :
  Forall amount_value xs ->
  exists zs, ints int_of_text (VList xs) = Ok zs /\
             length zs = length xs /\ amounts_within (2 ^ 64) zs.
Proof.
  intros Hall. unfold ints. cbn [as_sequence mbind result_bind].
  assert (exists zs, Forall2 (fun x z => py_int int_of_text x = Ok z) xs zs /\
                     amounts_within (2 ^ 64) zs) as (zs & Hzs & Hbound).
  { induction Hall as [|x xs' Hx _ (zs & Hzs & Hbound)].
    - exists []. split; constructor.
    - destruct (py_int_amount x Hx) as (z & Hz & Hzb).
      exists (z :: zs). split; by constructor. }
  exists zs. split; [by apply mapM_Ok|]. split; [|done].
  symmetry. by eapply Forall2_length.
Qed.

Lemma statement_row_shape ob_ee_data ob_er_data ob_eps_data wdl_ee_data
    wdl_er_data rate i wage_row row :
  statement_row int_of_text ob_ee_data ob_er_data ob_eps_data wdl_ee_data
    wdl_er_data rate i wage_row = Ok row ->
  statement_shape row.
Proof.
  intros Hrow. apply statement_row_Ok_inv in Hrow
    as (? & ? & ? & ? & ? & ? & ? & ? & ? & ? & ? & ? & ? & ? & ? & Hrow).
  destruct Hrow as (_ & _ & _ & _ & _ & _ & _ & _ & _ & _ & ->).
  split; [done|]. cbn [drop]. repeat constructor; apply decimal_text_str.
Qed.

(** A statement row is produced for every employee whose wage row has 14
    entries, the last 12 of them amounts, whose three opening balances are
    amounts and whose two withdrawal rows are 12 amounts each. *)
Lemma statement_row_defined ob_ee_data ob_er_data ob_eps_data wdl_ee_data
    wdl_er_data rate (k : nat) ws v1 v2 v3 w1 w2 :
  length ws = 14%nat -> Forall amount_value (drop 2 ws) ->
  ob_ee_data !! k = Some v1 -> amount_value v1 ->
  ob_er_data !! k = Some v2 -> amount_value v2 ->
  ob_eps_data !! k = Some v3 -> amount_value v3 ->
  wdl_ee_data !! k = Some (VList w1) -> length w1 = 12%nat -> Forall amount_value w1 ->
  wdl_er_data !! k = Some (VList w2) -> length w2 = 12%nat -> Forall amount_value w2 ->
  Py.below 64 rate = true ->
  exists row,
    statement_row int_of_text ob_ee_data ob_er_data ob_eps_data wdl_ee_data
      wdl_er_data rate (Z.of_nat k) (VList ws) = Ok row.
Proof.
  intros Hlen Hws Hv1 Ha1 Hv2 Ha2 Hv3 Ha3 Hw1 Hl1 Hwa1 Hw2 Hl2 Hwa2 Hrate.
  unfold statement_row, getitem, slice. cbn [as_sequence mbind result_bind].
  destruct (getitem_Ok ws 0) as (account_no & -> & _); [unfold Py.len; lia|].
  destruct (getitem_Ok ws 1) as (name & -> & _); [unfold Py.len; lia|].
  cbn [mbind result_bind].
  replace (Z.to_nat (2 + EXPECTED_WDL_COLUMNS - 2)) with 12%nat by done.
  change (Z.to_nat 2) with 2%nat.
  assert (Hmw : Forall amount_value (take 12 (drop 2 ws))) by (by apply Forall_take).
  assert (Hlmw : length (take 12 (drop 2 ws)) = 12%nat)
    by (rewrite length_take, length_drop; lia).
  destruct (collect_contributions_amounts _ Hmw)
    as (ees & ers & epss & -> & Hle & Hlr & Hbe & Hbr).
  cbn [mbind result_bind].
  rewrite (getitem_lookup _ _ _ Hv1), (getitem_lookup _ _ _ Hv2),
    (getitem_lookup _ _ _ Hv3), (getitem_lookup _ _ _ Hw1),
    (getitem_lookup _ _ _ Hw2).
  cbn [mbind result_bind].
  destruct (py_int_amount v1 Ha1) as (ob_ee & -> & Hob1).
  destruct (py_int_amount v2 Ha2) as (ob_er & -> & Hob2).
  destruct (py_int_amount v3 Ha3) as (ob_eps & -> & _).
  destruct (ints_amounts w1 Hwa1) as (ee_w & -> & Hlw1 & Hbw1).
  destruct (ints_amounts w2 Hwa2) as (er_w & -> & Hlw2 & Hbw2).
  cbn [mbind result_bind].
  destruct (calculate_monthly_balances_defined ob_ee ob_er ees ers ee_w er_w rate 12)
    as (ei & ri & ->); try done; try lia.
  cbn [mbind result_bind]. by eexists.
Qed.

Lemma Forall_exists_Forall2 {A B} (R : A -> B -> Prop) (xs : list A) :
  Forall (fun x => exists y, R x y) xs -> exists ys, Forall2 R xs ys.
Proof.
  induction 1 as [|x xs' [y Hy] _ [ys Hys]].
  - by exists [].
  - exists (y :: ys). by constructor.
Qed.

Lemma fetch_sheet_data_same s s' data_type :
  same_table s s' -> 1 <= max_column s ->
  fetch_sheet_data s data_type = fetch_sheet_data s' data_type.
Proof.
  intros (Hrows & Hcols & Hcells) Hc1.
  destruct (String.eqb_spec data_type "single") as [->|Hne].
  - rewrite !fetch_sheet_data_single, <- Hrows.
    apply list_fmap_ext. intros k r Hr. cbn.
    apply list_elem_of_lookup_2, range_elem in Hr.
    rewrite Hcells by lia. done.
  - rewrite !fetch_sheet_data_multi by done. rewrite <- Hrows, <- Hcols.
    apply list_fmap_ext. intros k r Hr. cbn. f_equal.
    apply list_elem_of_lookup_2, range_elem in Hr.
    apply list_fmap_ext. intros j c Hc. cbn.
    apply list_elem_of_lookup_2, range_elem in Hc.
    rewrite Hcells by lia. done.
Qed.

Lemma validate_sheet_dimensions_same s1 s2 s3 s4 s5 s6 s1' s2' s3' s4' s5' s6' :
  same_table s1 s1' -> same_table s2 s2' -> same_table s3 s3' ->
  same_table s4 s4' -> same_table s5 s5' -> same_table s6 s6' ->
  validate_sheet_dimensions s1 s2 s3 s4 s5 s6
  = validate_sheet_dimensions s1' s2' s3' s4' s5' s6'.
Proof.
  intros (R1 & C1 & _) (R2 & C2 & _) (R3 & C3 & _) (R4 & C4 & _) (R5 & C5 & _)
    (R6 & C6 & _).
  unfold validate_sheet_dimensions.
  by rewrite R1, R2, R3, R4, R5, R6, C1, C2, C3, C4, C5, C6.
Qed.

(** The pipeline produces the header and one statement row per employee for
    every validated workbook whose amount cells hold amounts. *)
Lemma main_pipeline_defined
    (wage_sheet ob_ee_sheet ob_er_sheet ob_eps_sheet wdl_ee_sheet
       wdl_er_sheet : worksheet) (rate : Py.float) :
  validate_sheet_dimensions wage_sheet ob_ee_sheet ob_er_sheet ob_eps_sheet
    wdl_ee_sheet wdl_er_sheet = Ok tt ->
  (forall r c, 2 <= r <= max_row wage_sheet -> 3 <= c <= 14 ->
     amount_cell (cell wage_sheet r c)) ->
  (forall r, 2 <= r <= max_row wage_sheet ->
     amount_cell (cell ob_ee_sheet r 1) /\ amount_cell (cell ob_er_sheet r 1) /\
     amount_cell (cell ob_eps_sheet r 1)) ->
  (forall r c, 2 <= r <= max_row wage_sheet -> 1 <= c <= 12 ->
     amount_cell (cell wdl_ee_sheet r c) /\ amount_cell (cell wdl_er_sheet r c)) ->
  Py.below 64 rate = true ->
  exists data,
    main_pipeline int_of_text wage_sheet ob_ee_sheet ob_er_sheet ob_eps_sheet
      wdl_ee_sheet wdl_er_sheet rate = Ok (header :: data) /\
    length data = Z.to_nat (max_row wage_sheet - 1) /\
    Forall statement_shape data.
Proof.
  intros Hval Hwages Hob Hwdl Hrate. unfold main_pipeline. rewrite Hval.
  cbn [mbind result_bind].
  apply validate_sheet_dimensions_Ok in Hval
    as (C1 & C2 & C3 & C4 & C5 & C6 & R2 & R3 & R4 & R5 & R6).
  rewrite !fetch_sheet_data_single, !(fetch_sheet_data_multi _ "multi") by done.
  rewrite C1, C5, C6, R2, R3, R4, R5, R6.
  set (R := max_row wage_sheet) in *.
  set (wsd := _ <$> Py.range 2 (R + 1)).
  set (d1 := _ <$> Py.range 2 (R + 1)). set (d2 := _ <$> Py.range 2 (R + 1)).
  set (d3 := _ <$> Py.range 2 (R + 1)). set (d4 := _ <$> Py.range 2 (R + 1)).
  set (d5 := _ <$> Py.range 2 (R + 1)).
  assert (Hall : Forall (fun x : Z * value =>
            exists row, (let '(i, wage_row) := x in
                         statement_row int_of_text d1 d2 d3 d4 d5 rate i wage_row)
                        = Ok row) (Py.enumerate wsd)).
  { apply Forall_lookup. intros k [i wage_row] Hk.
    rewrite enumerate_lookup in Hk.
    destruct (wsd !! k) as [w|] eqn:Hw; [|done]. injection Hk as <- <-.
    assert (Hklt : (k < Z.to_nat (R + 1 - 2))%nat).
    { apply lookup_lt_Some in Hw. unfold wsd in Hw.
      by rewrite length_fmap, length_range in Hw. }
    unfold wsd in Hw. rewrite list_lookup_fmap, range_lookup in Hw by done.
    set (columns := Py.range 1 (14 + 1)) in Hw.
    assert (Hcolumns : columns = Py.range 1 (14 + 1)) by done.
    clearbody columns. injection Hw as <-. subst columns.
    assert (Hr : 2 <= 2 + Z.of_nat k <= R) by lia.
    destruct (Hob _ Hr) as (Ho1 & Ho2 & Ho3).
    eapply (statement_row_defined d1 d2 d3 d4 d5 rate k).
    - rewrite length_fmap, length_range. done.
    - rewrite <- fmap_drop. apply Forall_fmap, Forall_lookup. intros j c Hc. cbn.
      rewrite lookup_drop in Hc. apply list_elem_of_lookup_2 in Hc as Hin.
      apply range_elem in Hin.
      rewrite range_lookup in Hc by (apply lookup_lt_Some in Hc; by rewrite length_range in Hc).
      injection Hc as <-. apply zero_if_none_amount, Hwages; lia.
    - unfold d1. rewrite list_lookup_fmap, range_lookup by done. reflexivity.
    - by apply zero_if_none_amount.
    - unfold d2. rewrite list_lookup_fmap, range_lookup by done. reflexivity.
    - by apply zero_if_none_amount.
    - unfold d3. rewrite list_lookup_fmap, range_lookup by done. reflexivity.
    - by apply zero_if_none_amount.
    - unfold d4. rewrite list_lookup_fmap, range_lookup by done. reflexivity.
    - rewrite length_fmap, length_range. done.
    - apply Forall_fmap, Forall_forall. intros c Hc%range_elem. cbn.
      apply zero_if_none_amount, Hwdl; lia.
    - unfold d5. rewrite list_lookup_fmap, range_lookup by done. reflexivity.
    - rewrite length_fmap, length_range. done.
    - apply Forall_fmap, Forall_forall. intros c Hc%range_elem. cbn.
      apply zero_if_none_amount, Hwdl; lia.
    - done. }
  apply Forall_exists_Forall2 in Hall as [data Hdata].
  exists data. split; [|split].
  - apply generate_output_rows_Ok. exists data. split; [done|].
    eapply Forall2_impl; [exact Hdata|]. by intros [i wage_row] row.
  - apply Forall2_length in Hdata. rewrite <- Hdata, length_enumerate.
    unfold wsd. rewrite length_fmap, length_range. f_equal. lia.
  - apply Forall_lookup. intros k row Hrow.
    destruct (Forall2_lookup_r _ _ _ _ _ Hdata Hrow) as ([i wage_row] & _ & Hstep).
    by eapply statement_row_shape.
Qed.

(** C4: in every statement row the assembler produces, each
    interest-bearing closing balance (employee share, employer share) is
    opening balance + interest + sum of the monthly contributions - sum of
    the monthly withdrawals, where the contributions are those of the
    employee's (twelve) monthly wages and the interest is the one
    [calculate_monthly_balances] returns; the pension closing balance is the
    pension opening balance plus the sum of the monthly pension
    contributions, which enter no interest and no balance series. *)
Theorem generate_output_rows_closing_balances
    wage_sheet_data ob_ee_data ob_er_data ob_eps_data wdl_ee_data wdl_er_data
    rate rows (k : nat) wage_row :
  generate_output_rows int_of_text wage_sheet_data ob_ee_data ob_er_data
    ob_eps_data wdl_ee_data wdl_er_data rate = Ok rows ->
  wage_sheet_data !! k = Some wage_row ->
  exists account_no name monthly_wages shares ob_ee ob_er ob_eps ee_w er_w
         eb rb ei ri,
    let ees := (fun share : Z * Z * Z => share.1.1) <$> shares in
    let ers := (fun share : Z * Z * Z => share.1.2) <$> shares in
    let epss := (fun share : Z * Z * Z => share.2) <$> shares in
    slice wage_row 2 14 = Ok monthly_wages /\
    (length monthly_wages <= 12)%nat /\
    Forall2 (fun wage share => calculate_contributions wage = Ok share)
      monthly_wages shares /\
    (Py.getitem ob_ee_data (Z.of_nat k) ≫= py_int int_of_text) = Ok ob_ee /\
    (Py.getitem ob_er_data (Z.of_nat k) ≫= py_int int_of_text) = Ok ob_er /\
    (Py.getitem ob_eps_data (Z.of_nat k) ≫= py_int int_of_text) = Ok ob_eps /\
    (Py.getitem wdl_ee_data (Z.of_nat k) ≫= ints int_of_text) = Ok ee_w /\
    (Py.getitem wdl_er_data (Z.of_nat k) ≫= ints int_of_text) = Ok er_w /\
    calculate_monthly_balances ob_ee ob_er ees ers ee_w er_w rate
      = Ok (eb, rb, ei, ri) /\
    rows !! S k
    = Some (statement_of account_no name ob_ee ob_er ob_eps ei ri
              (Py.sum ees) (Py.sum ers) (Py.sum ee_w) (Py.sum er_w)
              (Py.sum epss)).
Proof.
  intros (data & -> & Hdata)%generate_output_rows_Ok Hk.
  assert (Hen : Py.enumerate wage_sheet_data !! k = Some (Z.of_nat k, wage_row))
    by (by rewrite enumerate_lookup, Hk).
  destruct (Forall2_lookup_l _ _ _ _ _ Hdata Hen) as (row & Hrow & Hstep).
  cbn beta iota in Hstep.
  apply statement_row_Ok_inv in Hstep
    as (account_no & name & monthly_wages & ees & ers & epss & ob_ee & ob_er
        & ob_eps & ee_w & er_w & eb & rb & ei & ri
        & _ & _ & Hslice & Hcontrib & H1 & H2 & H3 & H4 & H5 & Hcall & ->).
  apply collect_contributions_Ok in Hcontrib as (shares & Hshares & -> & -> & ->).
  exists account_no, name, monthly_wages, shares, ob_ee, ob_er, ob_eps, ee_w,
    er_w, eb, rb, ei, ri.
  cbn zeta. repeat (split; [done|]). split; [|split; [done|by repeat (split; [done|])]].
  unfold slice in Hslice. apply bind_Ok in Hslice as (xs & _ & [= <-]).
  rewrite length_take. change (Z.to_nat (14 - 2)) with 12%nat. lia.
Qed.

(** C7: every table the assembler returns is the header row, the fifteen
    labels in their fixed order, followed by exactly one data row per
    employee; the row of employee [k] has fifteen entries in that order: the
    account number and the name are the first two entries of the employee's
    wage record, and the thirteen numeric fields are the decimal texts of
    that employee's opening balances, interests, contribution and
    withdrawal totals and closing balances.  The table is produced for
    every validated workbook whose amount cells hold amounts (empty cells,
    integers within 2^64, finite floats below 2^64), at every finite rate
    below 2^64; validation alone does not make the assembler return. *)
Theorem generate_output_rows_table :
  header = [VStr "A/C No."; VStr "NAME"; VStr "OB(EE)"; VStr "OB(ER)";
            VStr "INT(EE)"; VStr "INT(ER)"; VStr "CONT(EE)"; VStr "CONT(ER)";
            VStr "WDL(EE)"; VStr "WDL(ER)"; VStr "CB(EE)"; VStr "CB(ER)";
            VStr "OB(EPS)"; VStr "CONT(EPS)"; VStr "CB(EPS)"] /\
  (forall wage_sheet_data ob_ee_data ob_er_data ob_eps_data wdl_ee_data
          wdl_er_data rate rows,
     generate_output_rows int_of_text wage_sheet_data ob_ee_data ob_er_data
       ob_eps_data wdl_ee_data wdl_er_data rate = Ok rows ->
     length rows = S (length wage_sheet_data) /\
     rows !! 0%nat = Some header /\
     forall (k : nat) wage_row,
       wage_sheet_data !! k = Some wage_row ->
       exists account_no name monthly_wages shares ob_ee ob_er ob_eps ee_w
              er_w eb rb ei ri row,
         let ees := (fun share : Z * Z * Z => share.1.1) <$> shares in
         let ers := (fun share : Z * Z * Z => share.1.2) <$> shares in
         let epss := (fun share : Z * Z * Z => share.2) <$> shares in
         getitem wage_row 0 = Ok account_no /\
         getitem wage_row 1 = Ok name /\
         slice wage_row 2 14 = Ok monthly_wages /\
         Forall2 (fun wage share => calculate_contributions wage = Ok share)
           monthly_wages shares /\
         (Py.getitem ob_ee_data (Z.of_nat k) ≫= py_int int_of_text)
           = Ok ob_ee /\
         (Py.getitem ob_er_data (Z.of_nat k) ≫= py_int int_of_text)
           = Ok ob_er /\
         (Py.getitem ob_eps_data (Z.of_nat k) ≫= py_int int_of_text)
           = Ok ob_eps /\
         (Py.getitem wdl_ee_data (Z.of_nat k) ≫= ints int_of_text)
           = Ok ee_w /\
         (Py.getitem wdl_er_data (Z.of_nat k) ≫= ints int_of_text)
           = Ok er_w /\
         calculate_monthly_balances ob_ee ob_er ees ers ee_w er_w rate
           = Ok (eb, rb, ei, ri) /\
         rows !! S k = Some row /\
         row = [account_no; name;
                VStr (Py.str ob_ee); VStr (Py.str ob_er);
                VStr (Py.str ei); VStr (Py.str ri);
                VStr (Py.str (Py.sum ees)); VStr (Py.str (Py.sum ers));
                VStr (Py.str (Py.sum ee_w)); VStr (Py.str (Py.sum er_w));
                VStr (Py.str (ob_ee + ei + Py.sum ees - Py.sum ee_w));
                VStr (Py.str (ob_er + ri + Py.sum ers - Py.sum er_w));
                VStr (Py.str ob_eps); VStr (Py.str (Py.sum epss));
                VStr (Py.str (ob_eps + Py.sum epss))] /\
         statement_shape row) /\
  (forall wage_sheet ob_ee_sheet ob_er_sheet ob_eps_sheet wdl_ee_sheet
          wdl_er_sheet rate,
     validate_sheet_dimensions wage_sheet ob_ee_sheet ob_er_sheet
       ob_eps_sheet wdl_ee_sheet wdl_er_sheet = Ok tt ->
     (forall r c, 2 <= r <= max_row wage_sheet -> 3 <= c <= 14 ->
        amount_cell (cell wage_sheet r c)) ->
     (forall r, 2 <= r <= max_row wage_sheet ->
        amount_cell (cell ob_ee_sheet r 1) /\
        amount_cell (cell ob_er_sheet r 1) /\
        amount_cell (cell ob_eps_sheet r 1)) ->
     (forall r c, 2 <= r <= max_row wage_sheet -> 1 <= c <= 12 ->
        amount_cell (cell wdl_ee_sheet r c) /\
        amount_cell (cell wdl_er_sheet r c)) ->
     Py.below 64 rate = true ->
     exists data,
       generate_output_rows int_of_text
         (fetch_sheet_data wage_sheet "multi")
         (fetch_sheet_data ob_ee_sheet "single")
         (fetch_sheet_data ob_er_sheet "single")
         (fetch_sheet_data ob_eps_sheet "single")
         (fetch_sheet_data wdl_ee_sheet "multi")
         (fetch_sheet_data wdl_er_sheet "multi") rate = Ok (header :: data) /\
       main_pipeline int_of_text wage_sheet ob_ee_sheet ob_er_sheet
         ob_eps_sheet wdl_ee_sheet wdl_er_sheet rate = Ok (header :: data) /\
       length data = Z.to_nat (max_row wage_sheet - 1) /\
       Forall statement_shape data).
Proof.
  split; [reflexivity|]. split.
  - intros wage_sheet_data ob_ee_data ob_er_data ob_eps_data wdl_ee_data
      wdl_er_data rate rows (data & -> & Hdata)%generate_output_rows_Ok.
    split.
    { apply Forall2_length in Hdata. cbn [length].
      by rewrite <- Hdata, length_enumerate. }
    split; [reflexivity|].
    intros k wage_row Hk.
    assert (Hen : Py.enumerate wage_sheet_data !! k = Some (Z.of_nat k, wage_row))
      by (by rewrite enumerate_lookup, Hk).
    destruct (Forall2_lookup_l _ _ _ _ _ Hdata Hen) as (row & Hrow & Hstep).
    cbn beta iota in Hstep.
    pose proof (statement_row_shape _ _ _ _ _ _ _ _ _ Hstep) as Hshape.
    apply statement_row_Ok_inv in Hstep
      as (account_no & name & monthly_wages & ees & ers & epss & ob_ee & ob_er
          & ob_eps & ee_w & er_w & eb & rb & ei & ri
          & Hacc & Hname & Hslice & Hcontrib & H1 & H2 & H3 & H4 & H5 & Hcall
          & Heq).
    apply collect_contributions_Ok in Hcontrib as (shares & Hshares & -> & -> & ->).
    exists account_no, name, monthly_wages, shares, ob_ee, ob_er, ob_eps, ee_w,
      er_w, eb, rb, ei, ri, row.
    cbn zeta. do 10 (split; [done|]). split; [exact Hrow|]. by split.
  - intros wage_sheet ob_ee_sheet ob_er_sheet ob_eps_sheet wdl_ee_sheet
      wdl_er_sheet rate Hval Hwages Hob Hwdl Hrate.
    destruct (main_pipeline_defined _ _ _ _ _ _ _ Hval Hwages Hob Hwdl Hrate)
      as (data & Hmain & Hlen & Hshape).
    exists data. split; [|by split].
    unfold main_pipeline in Hmain. by rewrite Hval in Hmain.
Qed.

(** C9: two runs on identical tables and an identical rate produce
    identical output rows, header and data rows alike (or fail alike); this
    holds of [generate_output_rows] on equal extracted tables, and of the
    whole pipeline on worksheets that hold the same tables, whatever lies
    outside their dimensions. *)
Theorem generate_output_rows_deterministic :
  (forall wage_sheet_data ob_ee_data ob_er_data ob_eps_data wdl_ee_data
          wdl_er_data rate wage_sheet_data' ob_ee_data' ob_er_data'
          ob_eps_data' wdl_ee_data' wdl_er_data' rate',
     wage_sheet_data = wage_sheet_data' -> ob_ee_data = ob_ee_data' ->
     ob_er_data = ob_er_data' -> ob_eps_data = ob_eps_data' ->
     wdl_ee_data = wdl_ee_data' -> wdl_er_data = wdl_er_data' ->
     rate = rate' ->
     generate_output_rows int_of_text wage_sheet_data ob_ee_data ob_er_data
       ob_eps_data wdl_ee_data wdl_er_data rate
     = generate_output_rows int_of_text wage_sheet_data' ob_ee_data'
         ob_er_data' ob_eps_data' wdl_ee_data' wdl_er_data' rate') /\
  (forall s1 s2 s3 s4 s5 s6 s1' s2' s3' s4' s5' s6' rate,
     same_table s1 s1' -> same_table s2 s2' -> same_table s3 s3' ->
     same_table s4 s4' -> same_table s5 s5' -> same_table s6 s6' ->
     main_pipeline int_of_text s1 s2 s3 s4 s5 s6 rate
     = main_pipeline int_of_text s1' s2' s3' s4' s5' s6' rate).
Proof.
  split.
  - by intros; subst.
  - intros s1 s2 s3 s4 s5 s6 s1' s2' s3' s4' s5' s6' rate T1 T2 T3 T4 T5 T6.
    unfold main_pipeline.
    rewrite <- (validate_sheet_dimensions_same s1 s2 s3 s4 s5 s6 s1' s2' s3' s4' s5' s6')
      by done.
    destruct (validate_sheet_dimensions s1 s2 s3 s4 s5 s6) as [[]|e] eqn:Hval;
      cbn [mbind result_bind]; [|done].
    apply validate_sheet_dimensions_Ok in Hval
      as (C1 & C2 & C3 & C4 & C5 & C6 & _).
    by rewrite <- !(fetch_sheet_data_same _ _ _ T1), <- !(fetch_sheet_data_same _ _ _ T2),
      <- !(fetch_sheet_data_same _ _ _ T3), <- !(fetch_sheet_data_same _ _ _ T4),
      <- !(fetch_sheet_data_same _ _ _ T5), <- !(fetch_sheet_data_same _ _ _ T6) by lia.
Qed.

End Statement.

(** ** The sample workbook *)

Lemma sample_generate_output_rows :
  generate_output_rows no_text
    (fetch_sheet_data sample_wage_sheet "multi")
    (fetch_sheet_data sample_ob_ee_sheet "single")
    (fetch_sheet_data sample_ob_er_sheet "single")
    (fetch_sheet_data sample_ob_eps_sheet "single")
    (fetch_sheet_data sample_wdl_ee_sheet "multi")
    (fetch_sheet_data sample_wdl_er_sheet "multi") sample_rate
  = Ok sample_output.
Proof. vm_compute. reflexivity. Defined.

Lemma generate_output_rows_closing_balances_witness :
  exists account_no name ob_ee ob_er ob_eps ei ri cont_ee cont_er wdl_ee
         wdl_er cont_eps,
    sample_output !! 1%nat
    = Some (statement_of account_no name ob_ee ob_er ob_eps ei ri cont_ee
              cont_er wdl_ee wdl_er cont_eps).
Proof.
  destruct (generate_output_rows_closing_balances no_text _ _ _ _ _ _ _ _ 0
              (VList (VStr "EPF001" :: VStr "John Doe"
                        :: fmap (M:=list) VInt sample_wages))
              sample_generate_output_rows eq_refl)
    as (account_no & name & monthly_wages & shares & ob_ee & ob_er & ob_eps
        & ee_w & er_w & eb & rb & ei & ri & Hrow).
  cbn zeta in Hrow.
  destruct Hrow as (_ & _ & _ & _ & _ & _ & _ & _ & _ & Hrow).
  by eexists account_no, name, ob_ee, ob_er, ob_eps, ei, ri, _, _, _, _, _.
Defined.

Lemma sample_wage_cells r c :
  2 <= r <= max_row sample_wage_sheet -> 3 <= c <= 14 ->
  amount_cell (cell sample_wage_sheet r c).
Proof.
  intros Hr Hc. change (max_row sample_wage_sheet) with 2 in Hr.
  assert (r = 2) as -> by lia.
  assert (Hcs : c = 3 \/ c = 4 \/ c = 5 \/ c = 6 \/ c = 7 \/ c = 8 \/ c = 9 \/
                c = 10 \/ c = 11 \/ c = 12 \/ c = 13 \/ c = 14) by lia.
  repeat (destruct Hcs as [->|Hcs]; [by_compute|]). subst c. by_compute.
Defined.

Lemma sample_wdl_cells r c :
  2 <= r <= max_row sample_wage_sheet -> 1 <= c <= 12 ->
  amount_cell (cell sample_wdl_ee_sheet r c) /\
  amount_cell (cell sample_wdl_er_sheet r c).
Proof.
  intros Hr Hc. change (max_row sample_wage_sheet) with 2 in Hr.
  assert (r = 2) as -> by lia.
  assert (Hcs : c = 1 \/ c = 2 \/ c = 3 \/ c = 4 \/ c = 5 \/ c = 6 \/ c = 7 \/
                c = 8 \/ c = 9 \/ c = 10 \/ c = 11 \/ c = 12) by lia.
  repeat (destruct Hcs as [->|Hcs]; [split; by_compute|]). subst c. split; by_compute.
Defined.

Lemma sample_ob_cells r :
  2 <= r <= max_row sample_wage_sheet ->
  amount_cell (cell sample_ob_ee_sheet r 1) /\
  amount_cell (cell sample_ob_er_sheet r 1) /\
  amount_cell (cell sample_ob_eps_sheet r 1).
Proof.
  intros Hr. change (max_row sample_wage_sheet) with 2 in Hr.
  assert (r = 2) as -> by lia. repeat split; by_compute.
Defined.

Lemma generate_output_rows_table_witness :
  exists data,
    generate_output_rows no_text
      (fetch_sheet_data sample_wage_sheet "multi")
      (fetch_sheet_data sample_ob_ee_sheet "single")
      (fetch_sheet_data sample_ob_er_sheet "single")
      (fetch_sheet_data sample_ob_eps_sheet "single")
      (fetch_sheet_data sample_wdl_ee_sheet "multi")
      (fetch_sheet_data sample_wdl_er_sheet "multi") sample_rate
    = Ok (header :: data) /\
    main_pipeline no_text sample_wage_sheet sample_ob_ee_sheet
      sample_ob_er_sheet sample_ob_eps_sheet sample_wdl_ee_sheet
      sample_wdl_er_sheet sample_rate = Ok (header :: data) /\
    length data = 1%nat /\ Forall statement_shape data.
Proof.
  exact (proj2 (proj2 (generate_output_rows_table no_text))
           sample_wage_sheet sample_ob_ee_sheet sample_ob_er_sheet
           sample_ob_eps_sheet sample_wdl_ee_sheet sample_wdl_er_sheet
           sample_rate eq_refl sample_wage_cells sample_ob_cells
           sample_wdl_cells eq_refl).
Defined.

(** Validation checks the dimensions only: the sample workbook with a text
    in the first wage cell passes it and the assembler raises [TypeError],
    whatever [int(text)] does; the sample workbook itself raises
    [ValueError] at the rate NaN. *)
Lemma generate_output_rows_not_total :
  validate_sheet_dimensions sample_text_wage_sheet sample_ob_ee_sheet
    sample_ob_er_sheet sample_ob_eps_sheet sample_wdl_ee_sheet
    sample_wdl_er_sheet = Ok tt /\
  (forall int_of_text,
     generate_output_rows int_of_text
       (fetch_sheet_data sample_text_wage_sheet "multi")
       (fetch_sheet_data sample_ob_ee_sheet "single")
       (fetch_sheet_data sample_ob_er_sheet "single")
       (fetch_sheet_data sample_ob_eps_sheet "single")
       (fetch_sheet_data sample_wdl_ee_sheet "multi")
       (fetch_sheet_data sample_wdl_er_sheet "multi") sample_rate
     = Raise TypeError) /\
  validate_sheet_dimensions sample_wage_sheet sample_ob_ee_sheet
    sample_ob_er_sheet sample_ob_eps_sheet sample_wdl_ee_sheet
    sample_wdl_er_sheet = Ok tt /\
  (forall int_of_text,
     generate_output_rows int_of_text
       (fetch_sheet_data sample_wage_sheet "multi")
       (fetch_sheet_data sample_ob_ee_sheet "single")
       (fetch_sheet_data sample_ob_er_sheet "single")
       (fetch_sheet_data sample_ob_eps_sheet "single")
       (fetch_sheet_data sample_wdl_ee_sheet "multi")
       (fetch_sheet_data sample_wdl_er_sheet "multi") S754_nan
     = Raise ValueError).
Proof.
  split; [reflexivity|]. split; [intros int_of_text; vm_compute; reflexivity|].
  split; [reflexivity|]. intros int_of_text. vm_compute. reflexivity.
Qed.

Lemma same_table_refl s : same_table s s.
Proof. split; [reflexivity|]. split; [reflexivity|]. intros; reflexivity. Defined.

Lemma generate_output_rows_deterministic_witness :
  main_pipeline no_text sample_wage_sheet sample_ob_ee_sheet sample_ob_er_sheet
    sample_ob_eps_sheet sample_wdl_ee_sheet sample_wdl_er_sheet sample_rate
  = main_pipeline no_text sample_wage_sheet sample_ob_ee_sheet
      sample_ob_er_sheet sample_ob_eps_sheet sample_wdl_ee_sheet
      sample_wdl_er_sheet sample_rate.
Proof.
  apply (proj2 (generate_output_rows_deterministic no_text));
    apply same_table_refl.
Defined.

Lemma fetch_sheet_data_defaults_witness :
  fetch_sheet_data (blank_sheet 3 2 VNone) "single" !! 0%nat = Some (VInt 0) /\
  fetch_sheet_data sample_ob_ee_sheet "single" !! 0%nat = Some (VInt 50000).
Proof.
  split.
  - exact (proj1 (proj2 (proj2 (proj2 (proj2
             (fetch_sheet_data_defaults (blank_sheet 3 2 VNone)))))) 2
             ltac:(by_compute_bounds)).
  - exact (proj1 (proj2 (proj2 (proj2 (proj2
             (fetch_sheet_data_defaults sample_ob_ee_sheet))))) 2
             ltac:(by_compute_bounds)).
Defined.

(** * Further properties

    Properties of the engine beyond the specification's statements: the
    behaviour on ill-shaped arguments, what each result depends on, and how
    the parts compose. *)

(** ** Contribution engine, continued *)

Section ContributionsMore.

Lemma calculate_contributions_near (w : Z) :
  0 <= w < 2 ^ 42 ->
  exists ee er eps,
    calculate_contributions (VInt w) = Ok (ee, er, eps) /\
    2 * Z.abs (100 * ee - 12 * w) <= 100 /\
    2 * Z.abs (10000 * er - 367 * w) <= 10000 /\
    2 * Z.abs (10000 * eps - 833 * w) <= 10000.
Proof.
  intros Hw. unfold calculate_contributions.
  rewrite EMPLOYEE_CONTRIBUTION_RATE_eq, EMPLOYER_CONTRIBUTION_RATE_eq,
    EPS_CONTRIBUTION_RATE_eq.
  destruct (round_mul_near w 8646911284551352 56 12 100 32) as (e & -> & He);
    [done..|].
  destruct (round_mul_near w 6002397583359397 56 833 10000 688) as (p & -> & Hp);
    [done..|].
  destruct (round_mul_near w 5289027402383911 57 367 10000 4976) as (r & -> & Hr);
    [done..|].
  exists e, r, p. cbn [mbind result_bind]. by repeat split.
Qed.

(** X1: for an integer wage [0 <= w < 2^42] the three shares lie between 0 and
    the wage, and the employer and pension shares together differ from the
    employee share by at most one unit. *)
Theorem contributions_reconcile_within_one (w : Z) :
  0 <= w < 2 ^ 42 ->
  exists ee er eps,
    calculate_contributions (VInt w) = Ok (ee, er, eps) /\
    0 <= ee <= w /\ 0 <= er <= w /\ 0 <= eps <= w /\
    Z.abs (ee - (er + eps)) <= 1.
Proof.
  intros Hw.
  destruct (calculate_contributions_near w Hw) as (ee & er & eps & Heq & He & Hr & Hp).
  exists ee, er, eps. split; [done|]. lia.
Qed.

Lemma contributions_reconcile_within_one_witness :
  exists ee er eps,
    calculate_contributions (VInt 19) = Ok (ee, er, eps) /\
    0 <= ee <= 19 /\ 0 <= er <= 19 /\ 0 <= eps <= 19 /\
    Z.abs (ee - (er + eps)) <= 1.
Proof.
  apply (contributions_reconcile_within_one 19). vm_compute.
  split; [discriminate|reflexivity].
Defined.

(** X2: a higher integer wage never lowers a share: for
    [0 <= w <= w' < 2^42] each of the three shares of [w] is at most the
    corresponding share of [w']. *)
Theorem contributions_monotone (w w' : Z) ee er eps ee' er' eps' :
  0 <= w -> w <= w' -> w' < 2 ^ 42 ->
  calculate_contributions (VInt w) = Ok (ee, er, eps) ->
  calculate_contributions (VInt w') = Ok (ee', er', eps') ->
  ee <= ee' /\ er <= er' /\ eps <= eps'.
Proof.
  intros Hw Hle Hw' Heq Heq'.
  destruct (Z.eq_dec w w') as [<-|Hne].
  { rewrite Heq in Heq'. injection Heq' as <- <- <-. lia. }
  destruct (calculate_contributions_near w ltac:(lia)) as (a & b & c & Ha & H1 & H2 & H3).
  destruct (calculate_contributions_near w' ltac:(lia)) as (a' & b' & c' & Ha' & H1' & H2' & H3').
  rewrite Heq in Ha. injection Ha as <- <- <-.
  rewrite Heq' in Ha'. injection Ha' as <- <- <-.
  lia.
Qed.

Lemma contributions_monotone_witness :
  1800 <= 1860 /\ 550 <= 569 /\ 1250 <= 1291.
Proof.
  apply (contributions_monotone 15000 15500 1800 550 1250 1860 569 1291);
    by_compute.
Defined.

(** X3: a wage that is no number (an empty cell, a text, a list) raises
    [TypeError]; the default of the extractor turns the empty cell into a
    zero wage with zero shares; and every integer within [2^64] and every
    finite float below [2^64] has shares, each within [2^64]. *)
Theorem calculate_contributions_domain :
  calculate_contributions VNone = Raise TypeError /\
  (forall s, calculate_contributions (VStr s) = Raise TypeError) /\
  (forall l, calculate_contributions (VList l) = Raise TypeError) /\
  calculate_contributions (zero_if_none VNone) = Ok (0, 0, 0) /\
  (forall v, amount_value v ->
     exists ee er eps,
       calculate_contributions v = Ok (ee, er, eps) /\
       Z.abs ee <= 2 ^ 64 /\ Z.abs er <= 2 ^ 64 /\ Z.abs eps <= 2 ^ 64).
Proof.
  split; [done|]. split; [done|]. split; [done|]. split; [by_compute|].
  intros v Hv. destruct rates_below as (H1 & H2 & H3).
  unfold calculate_contributions.
  destruct (round_mul_float_amount v _ Hv H1) as (ee & -> & Hee).
  destruct (round_mul_float_amount v _ Hv H2) as (eps & -> & Heps).
  destruct (round_mul_float_amount v _ Hv H3) as (er & -> & Her).
  exists ee, er, eps. cbn [mbind result_bind].
  split; [reflexivity|]. split; [exact Hee|]. split; [exact Her|exact Heps].
Qed.

Lemma calculate_contributions_domain_witness :
  exists ee er eps,
    calculate_contributions (VFloat (Py.literal 75 2)) = Ok (ee, er, eps) /\
    Z.abs ee <= 2 ^ 64 /\ Z.abs er <= 2 ^ 64 /\ Z.abs eps <= 2 ^ 64.
Proof.
  apply (proj2 (proj2 (proj2 (proj2 calculate_contributions_domain)))).
  by_compute.
Defined.

End ContributionsMore.

(** ** Balance and interest engine, continued *)

Section EngineMore.

Lemma getitem_short {A} (l : list A) (k : nat) :
  (length l <= k)%nat -> Py.getitem l (Z.of_nat k) = Raise IndexError.
Proof.
  intros Hk. unfold Py.getitem.
  destruct (Z.ltb_spec (Z.of_nat k) 0); [lia|].
  destruct (Z.ltb_spec (Z.of_nat k) 0); [lia|].
  by rewrite Nat2Z.id, lookup_ge_None_2.
Qed.

(** The loop stops with [IndexError] as soon as an index is reached that
    one of the other three lists does not have. *)
Lemma balances_loop_short ob_ee ob_er ee_c er_c ee_w er_w (m : nat) :
  (m <= length ee_c)%nat ->
  (length ee_w < m \/ length er_c < m \/ length er_w < m)%nat ->
  Py.for_each (Py.range 0 (Z.of_nat m)) (balances_step ee_c er_c ee_w er_w)
    {| ee_balances := [ob_ee]; er_balances := [ob_er];
       current_ee_balance := ob_ee; current_er_balance := ob_er |}
  = Raise IndexError.
Proof.
  induction m as [|m IH]; intros Hm Hshort; [lia|].
  rewrite range_0_S, for_each_app.
  destruct (decide (length ee_w < m \/ length er_c < m \/ length er_w < m)%nat)
    as [Hs|Hs].
  { by rewrite IH by (done || lia). }
  rewrite balances_loop by lia. cbn [mbind result_bind Py.for_each].
  unfold balances_step.
  destruct (getitem_Ok ee_c (Z.of_nat m)) as (c1 & -> & _); [unfold Py.len; lia|].
  cbn [mbind result_bind].
  destruct (decide (length ee_w <= m)%nat) as [H1|H1].
  { by rewrite (getitem_short ee_w m H1). }
  destruct (getitem_Ok ee_w (Z.of_nat m)) as (w1 & -> & _); [unfold Py.len; lia|].
  cbn [mbind result_bind].
  destruct (decide (length er_c <= m)%nat) as [H2|H2].
  { by rewrite (getitem_short er_c m H2). }
  destruct (getitem_Ok er_c (Z.of_nat m)) as (c2 & -> & _); [unfold Py.len; lia|].
  cbn [mbind result_bind].
  rewrite (getitem_short er_w m) by lia. done.
Qed.

(** The function on arbitrary lists: the loop runs [len(ee_contributions) - 1]
    times (not at all for an empty list); it needs that many entries of the
    other three lists, and then the result is the interest of the two
    balance series. *)
Lemma calculate_monthly_balances_cases ob_ee ob_er ee_c er_c ee_w er_w rate :
  let m := Nat.pred (length ee_c) in
  calculate_monthly_balances ob_ee ob_er ee_c er_c ee_w er_w rate
  = if decide (m <= length ee_w /\ m <= length er_c /\ m <= length er_w)%nat
    then
      ee_interest ← interest (Py.sum (balance_series ob_ee ee_c ee_w m)) (Py.sum ee_w) rate;
      er_interest ← interest (Py.sum (balance_series ob_er er_c er_w m)) (Py.sum er_w) rate;
      Ok (balance_series ob_ee ee_c ee_w m, balance_series ob_er er_c er_w m,
          ee_interest, er_interest)
    else Raise IndexError.
Proof.
  intros m. unfold calculate_monthly_balances.
  rewrite range_clip. unfold Py.len.
  replace (Z.to_nat (Z.of_nat (length ee_c) - 1)) with m by (unfold m; lia).
  case_decide as Hlen.
  - rewrite balances_loop by (unfold m in *; lia). reflexivity.
  - rewrite balances_loop_short; [done|unfold m; lia|lia].
Qed.

(** X4: for any four lists, a call that returns gives, for each share,
    [max(len(ee_contributions), 1)] balances, the balance at index [i] being
    the opening balance plus the first [i] contributions minus the first
    [i] withdrawals. *)
Theorem calculate_monthly_balances_closed_form
    ob_ee ob_er ee_c er_c ee_w er_w rate eb rb ei ri :
  calculate_monthly_balances ob_ee ob_er ee_c er_c ee_w er_w rate
    = Ok (eb, rb, ei, ri) ->
  length eb = Nat.max (length ee_c) 1 /\
  length rb = Nat.max (length ee_c) 1 /\
  forall i : nat, (i < Nat.max (length ee_c) 1)%nat ->
    eb !! i = Some (ob_ee + Py.sum (take i ee_c) - Py.sum (take i ee_w)) /\
    rb !! i = Some (ob_er + Py.sum (take i er_c) - Py.sum (take i er_w)).
Proof.
  rewrite calculate_monthly_balances_cases. cbn zeta.
  case_decide as Hlen; [|done].
  intros (ei' & _ & (ri' & _ & [= <- <- _ _])%bind_Ok)%bind_Ok.
  rewrite !length_balance_series. split; [lia|]. split; [lia|].
  intros i Hi. by rewrite !balance_series_lookup by lia.
Qed.

Lemma calculate_monthly_balances_closed_form_witness :
  [10000; 10500] !! 1%nat
  = Some (10000 + Py.sum (take 1 [1000; 1000]) - Py.sum (take 1 [500; 0])).
Proof.
  exact (proj1 (proj2 (proj2
           (calculate_monthly_balances_closed_form 10000 3000 [1000; 1000]
              [300; 300] [500; 0] [150; 0] sample_rate
              [10000; 10500] [3000; 3150] 142 42 eq_refl)) 1%nat
           ltac:(vm_compute; lia))).
Defined.

(** X5: the function raises [IndexError] exactly when the employee-share
    withdrawals, the employer-share contributions or the employer-share
    withdrawals have fewer than [len(ee_contributions) - 1] entries; lists
    of that length or longer raise no [IndexError]. *)
Theorem calculate_monthly_balances_index_error
    ob_ee ob_er ee_c er_c ee_w er_w rate :
  calculate_monthly_balances ob_ee ob_er ee_c er_c ee_w er_w rate
    = Raise IndexError <->
  (length ee_w < Nat.pred (length ee_c) \/
   length er_c < Nat.pred (length ee_c) \/
   length er_w < Nat.pred (length ee_c))%nat.
Proof.
  rewrite calculate_monthly_balances_cases. cbn zeta.
  case_decide as Hlen.
  - split; [|lia]. intros Hraise.
    destruct (interest _ (Py.sum ee_w) rate) as [ei|e1] eqn:Hee;
      cbn [mbind result_bind] in Hraise.
    + destruct (interest _ (Py.sum er_w) rate) as [ri|e2] eqn:Her;
        cbn [mbind result_bind] in Hraise; [done|].
      injection Hraise as ->. by apply interest_Raise in Her as [|].
    + injection Hraise as ->. by apply interest_Raise in Hee as [|].
  - split; [lia|done].
Qed.

Lemma calculate_monthly_balances_index_error_witness :
  calculate_monthly_balances 10000 3000 [1000; 1000; 1000] [300; 300; 300]
    [500; 0; 0] [150] sample_rate = Raise IndexError.
Proof.
  apply (proj2 (calculate_monthly_balances_index_error 10000 3000
                  [1000; 1000; 1000] [300; 300; 300] [500; 0; 0] [150]
                  sample_rate)).
  right. right. vm_compute. lia.
Defined.

(** X6: the two shares are computed independently: when two calls return, the
    employee-share balances and interest agree as soon as the employee-share
    arguments and the rate do, whatever the employer-share arguments; and
    the employer-share results agree as soon as the employer-share arguments
    and the number of employee-share contributions (the loop bound) do. *)
Theorem calculate_monthly_balances_shares_independent
    ob_ee ob_er ee_c er_c ee_w er_w ob_ee' ob_er' ee_c' er_c' ee_w' er_w' rate
    eb rb ei ri eb' rb' ei' ri' :
  calculate_monthly_balances ob_ee ob_er ee_c er_c ee_w er_w rate
    = Ok (eb, rb, ei, ri) ->
  calculate_monthly_balances ob_ee' ob_er' ee_c' er_c' ee_w' er_w' rate
    = Ok (eb', rb', ei', ri') ->
  (ob_ee = ob_ee' -> ee_c = ee_c' -> ee_w = ee_w' -> eb = eb' /\ ei = ei') /\
  (ob_er = ob_er' -> er_c = er_c' -> er_w = er_w' ->
   length ee_c = length ee_c' -> rb = rb' /\ ri = ri').
Proof.
  rewrite !calculate_monthly_balances_cases. cbn zeta.
  case_decide as Hlen; [|done]. case_decide as Hlen'; [|done].
  intros (a & Ha & (b & Hb & [= <- <- <- <-])%bind_Ok)%bind_Ok.
  intros (a' & Ha' & (b' & Hb' & [= <- <- <- <-])%bind_Ok)%bind_Ok.
  split.
  - intros <- <- <-. split; [done|]. congruence.
  - intros <- <- <- Hl. rewrite Hl in *. split; [done|]. congruence.
Qed.

Lemma calculate_monthly_balances_shares_independent_witness :
  [10000; 10500] = [10000; 10500] /\ 142 = 142.
Proof.
  exact (proj1 (calculate_monthly_balances_shares_independent
                  10000 3000 [1000; 1000] [300; 300] [500; 0] [150; 0]
                  10000 0 [1000; 1000] [0; 0] [500; 0] [0; 0] sample_rate
                  [10000; 10500] [3000; 3150] 142 42
                  [10000; 10500] [0; 0] 142 0 eq_refl eq_refl)
           eq_refl eq_refl eq_refl).
Defined.

End EngineMore.

(** X7: the closing balance the assembler forms continues the balance series:
    with four non-empty lists of one length, opening balance + contributions
    - withdrawals is the last running balance plus the last month's
    contribution minus the last month's withdrawal. *)
Theorem closing_balance_continues_series
    ob_ee ob_er ee_c er_c ee_w er_w rate (n : nat) eb rb ei ri :
  length ee_c = S n -> length er_c = S n -> length ee_w = S n ->
  length er_w = S n ->
  calculate_monthly_balances ob_ee ob_er ee_c er_c ee_w er_w rate
    = Ok (eb, rb, ei, ri) ->
  exists b c w b' c' w',
    eb !! n = Some b /\ ee_c !! n = Some c /\ ee_w !! n = Some w /\
    rb !! n = Some b' /\ er_c !! n = Some c' /\ er_w !! n = Some w' /\
    length eb = S n /\ length rb = S n /\
    ob_ee + ei + Py.sum ee_c - Py.sum ee_w = b + c - w + ei /\
    ob_er + ri + Py.sum er_c - Py.sum er_w = b' + c' - w' + ri.
Proof.
  intros H1 H2 H3 H4 Hcall.
  destruct (calculate_monthly_balances_Ok_inv _ _ _ _ _ _ _ (S n) _ _ _ _
              H1 H2 H3 H4 Hcall) as [-> ->].
  cbn [Nat.pred].
  destruct (lookup_lt_is_Some_2 ee_c n) as [c Hc]; [lia|].
  destruct (lookup_lt_is_Some_2 ee_w n) as [w Hw]; [lia|].
  destruct (lookup_lt_is_Some_2 er_c n) as [c' Hc']; [lia|].
  destruct (lookup_lt_is_Some_2 er_w n) as [w' Hw']; [lia|].
  exists (balance_at ob_ee ee_c ee_w n), c, w, (balance_at ob_er er_c er_w n), c', w'.
  rewrite !balance_series_lookup, !length_balance_series by lia.
  repeat (split; [done|]).
  pose proof (balance_at_S ob_ee ee_c ee_w n c w Hc Hw) as He.
  pose proof (balance_at_S ob_er er_c er_w n c' w' Hc' Hw') as Hr.
  unfold balance_at in He, Hr.
  rewrite <- H1 in He at 1. rewrite <- H3 in He at 1.
  rewrite <- H2 in Hr at 1. rewrite <- H4 in Hr at 1.
  rewrite !firstn_all in He, Hr. unfold balance_at. lia.
Qed.

Lemma closing_balance_continues_series_witness :
  exists b c w,
    [10000; 10500] !! 1%nat = Some b /\ [1000; 1000] !! 1%nat = Some c /\
    [500; 0] !! 1%nat = Some w /\
    10000 + 142 + Py.sum [1000; 1000] - Py.sum [500; 0] = b + c - w + 142.
Proof.
  destruct (closing_balance_continues_series 10000 3000 [1000; 1000]
              [300; 300] [500; 0] [150; 0] sample_rate 1
              [10000; 10500] [3000; 3150] 142 42
              eq_refl eq_refl eq_refl eq_refl eq_refl)
    as (b & c & w & b' & c' & w' & Hb & Hc & Hw & _ & _ & _ & _ & _ & He & _).
  by exists b, c, w.
Defined.

(** ** Statement assembler, continued *)

Section StatementMore.

Variable int_of_text : string -> option Z.

Lemma getitem_of_lookup {A} (l : list A) (k : nat) :
  Py.getitem l (Z.of_nat k)
  = match l !! k with Some x => Ok x | None => Raise IndexError end.
Proof.
  destruct (l !! k) as [x|] eqn:Hx.
  - by apply getitem_lookup.
  - apply getitem_short. by apply lookup_ge_None.
Qed.

(** A statement row reads the tables at its own index only. *)
Lemma statement_row_local d1 d2 d3 d4 d5 d1' d2' d3' d4' d5' rate (k : nat) w :
  d1 !! k = d1' !! k -> d2 !! k = d2' !! k -> d3 !! k = d3' !! k ->
  d4 !! k = d4' !! k -> d5 !! k = d5' !! k ->
  statement_row int_of_text d1 d2 d3 d4 d5 rate (Z.of_nat k) w
  = statement_row int_of_text d1' d2' d3' d4' d5' rate (Z.of_nat k) w.
Proof.
  intros H1 H2 H3 H4 H5. unfold statement_row.
  by rewrite !getitem_of_lookup, H1, H2, H3, H4, H5.
Qed.

Lemma generate_output_rows_row wsd d1 d2 d3 d4 d5 rate rows (k : nat) w :
  generate_output_rows int_of_text wsd d1 d2 d3 d4 d5 rate = Ok rows ->
  wsd !! k = Some w ->
  exists row,
    rows !! S k = Some row /\
    statement_row int_of_text d1 d2 d3 d4 d5 rate (Z.of_nat k) w = Ok row.
Proof.
  intros (data & -> & Hdata)%generate_output_rows_Ok Hk.
  assert (Hen : Py.enumerate wsd !! k = Some (Z.of_nat k, w))
    by (by rewrite enumerate_lookup, Hk).
  destruct (Forall2_lookup_l _ _ _ _ _ Hdata Hen) as (row & Hrow & Hstep).
  by exists row.
Qed.

(** X8: the employees are processed independently: when two runs return, the
    statement row of employee [k] is the same in both as soon as the two
    runs agree on the record of employee [k] in each of the six tables,
    whatever the other employees' records. *)
Theorem generate_output_rows_local
    wsd d1 d2 d3 d4 d5 wsd' d1' d2' d3' d4' d5' rate rows rows' (k : nat) w :
  generate_output_rows int_of_text wsd d1 d2 d3 d4 d5 rate = Ok rows ->
  generate_output_rows int_of_text wsd' d1' d2' d3' d4' d5' rate = Ok rows' ->
  wsd !! k = Some w -> wsd' !! k = Some w ->
  d1 !! k = d1' !! k -> d2 !! k = d2' !! k -> d3 !! k = d3' !! k ->
  d4 !! k = d4' !! k -> d5 !! k = d5' !! k ->
  rows !! S k = rows' !! S k.
Proof.
  intros Hrun Hrun' Hw Hw' H1 H2 H3 H4 H5.
  destruct (generate_output_rows_row _ _ _ _ _ _ _ _ _ _ Hrun Hw) as (row & -> & Hrow).
  destruct (generate_output_rows_row _ _ _ _ _ _ _ _ _ _ Hrun' Hw') as (row' & -> & Hrow').
  rewrite (statement_row_local d1 d2 d3 d4 d5 d1' d2' d3' d4' d5') in Hrow by done.
  congruence.
Qed.

(** X9: records beyond the last employee are ignored: a run that returns
    returns the same table when the opening-balance and withdrawal tables
    are extended. *)
Theorem generate_output_rows_extra_records
    wsd d1 d2 d3 d4 d5 x1 x2 x3 x4 x5 rate rows :
  generate_output_rows int_of_text wsd d1 d2 d3 d4 d5 rate = Ok rows ->
  generate_output_rows int_of_text wsd (d1 ++ x1) (d2 ++ x2) (d3 ++ x3)
    (d4 ++ x4) (d5 ++ x5) rate = Ok rows.
Proof.
  intros (data & -> & Hdata)%generate_output_rows_Ok.
  apply generate_output_rows_Ok. exists data. split; [done|].
  apply Forall2_same_length_lookup. split; [by eapply Forall2_length|].
  intros k [i w] row Hk Hrow.
  pose proof (Forall2_lookup_lr _ _ _ _ _ _ Hdata Hk Hrow) as Hstep.
  cbn beta iota in Hstep |- *.
  rewrite enumerate_lookup in Hk.
  destruct (wsd !! k) as [w'|] eqn:Hw; [|done]. injection Hk as <- <-.
  rewrite <- Hstep. symmetry.
  apply statement_row_Ok_inv in Hstep
    as (? & ? & ? & ? & ? & ? & ? & ? & ? & ? & ? & ? & ? & ? & ?
        & _ & _ & _ & _ & G1 & G2 & G3 & G4 & G5 & _).
  assert (Hin : forall (l more : list value) (T : Type)
                        (f : value -> result T) (y : T),
             (Py.getitem l (Z.of_nat k) ≫= f) = Ok y ->
             l !! k = (l ++ more) !! k).
  { intros l more T f y (v & Hv & _)%bind_Ok.
    rewrite getitem_of_lookup in Hv. destruct (l !! k) eqn:Hl; [|done].
    symmetry. by apply lookup_app_l_Some. }
  apply statement_row_local; by eapply Hin.
Qed.

End StatementMore.

Lemma generate_output_rows_local_witness :
  sample_output !! 1%nat
  = (sample_output ++ [VStr <$> ["EPF002"; "Jane Smith"; "60000"; "18000";
       "5100"; "1530"; "0"; "0"; "0"; "0"; "65100"; "19530"; "42000"; "0";
       "42000"]%string]) !! 1%nat.
Proof.
  refine (generate_output_rows_local no_text
            (fetch_sheet_data sample_wage_sheet "multi")
            (fetch_sheet_data sample_ob_ee_sheet "single")
            (fetch_sheet_data sample_ob_er_sheet "single")
            (fetch_sheet_data sample_ob_eps_sheet "single")
            (fetch_sheet_data sample_wdl_ee_sheet "multi")
            (fetch_sheet_data sample_wdl_er_sheet "multi")
            (fetch_sheet_data sample_wage_sheet "multi"
               ++ [VList (VStr "EPF002" :: VStr "Jane Smith"
                            :: replicate 12 (VInt 0))])
            (fetch_sheet_data sample_ob_ee_sheet "single" ++ [VInt 60000])
            (fetch_sheet_data sample_ob_er_sheet "single" ++ [VInt 18000])
            (fetch_sheet_data sample_ob_eps_sheet "single" ++ [VInt 42000])
            (fetch_sheet_data sample_wdl_ee_sheet "multi"
               ++ [VList (replicate 12 (VInt 0))])
            (fetch_sheet_data sample_wdl_er_sheet "multi"
               ++ [VList (replicate 12 (VInt 0))])
            sample_rate _ _ 0
            (VList (VStr "EPF001" :: VStr "John Doe"
                      :: fmap (M:=list) VInt sample_wages))
            sample_generate_output_rows _
            eq_refl eq_refl eq_refl eq_refl eq_refl eq_refl eq_refl).
  vm_compute. reflexivity.
Defined.

Lemma generate_output_rows_extra_records_witness :
  generate_output_rows no_text
    (fetch_sheet_data sample_wage_sheet "multi")
    (fetch_sheet_data sample_ob_ee_sheet "single" ++ [VStr "total"])
    (fetch_sheet_data sample_ob_er_sheet "single" ++ [])
    (fetch_sheet_data sample_ob_eps_sheet "single" ++ [VNone])
    (fetch_sheet_data sample_wdl_ee_sheet "multi" ++ [])
    (fetch_sheet_data sample_wdl_er_sheet "multi" ++ [VInt 7]) sample_rate
  = Ok sample_output.
Proof.
  exact (generate_output_rows_extra_records no_text _ _ _ _ _ _ _ _ _ _ _ _ _
           sample_generate_output_rows).
Defined.

(** ** Failures of a run *)

Section Failures.

Variable int_of_text : string -> option Z.

Lemma bind_Raise {A B} (m : result A) (f : A -> result B) (e : exn) :
  m ≫= f = Raise e <-> m = Raise e \/ exists a, m = Ok a /\ f a = Raise e.
Proof.
  destruct m as [a|e']; cbn [mbind result_bind].
  - split; [intros ?; right; by exists a|]. intros [?|(a' & [= <-] & ?)]; done.
  - split; [intros [= ->]; by left|]. intros [[= ->]|(a' & ? & ?)]; done.
Qed.

Lemma for_each_Raise {A S} (xs : list A) (body : A -> S -> result S) s e :
  Py.for_each xs body s = Raise e -> exists x s', x ∈ xs /\ body x s' = Raise e.
Proof.
  revert s. induction xs as [|x xs IH]; intros s; cbn [Py.for_each]; [done|].
  intros [H|(s' & _ & H)]%bind_Raise.
  - exists x, s. split; [left|done].
  - destruct (IH _ H) as (y & s'' & Hy & Hbody). exists y, s''. split; [by right|done].
Qed.

Lemma mapM_Raise {A B} (f : A -> result B) (xs : list A) e :
  mapM f xs = Raise e -> exists x, x ∈ xs /\ f x = Raise e.
Proof.
  induction xs as [|x xs IH]; cbn [mapM]; [done|].
  intros [H|(y & _ & [H|(ys & _ & H)]%bind_Raise)]%bind_Raise.
  - exists x. split; [left|done].
  - destruct (IH H) as (z & Hz & Hf). exists z. split; [by right|done].
  - done.
Qed.

(** A loop that appends one computed element per iteration raises what its
    first failing element raises. *)
Lemma for_each_collect_Raise {A B} (g : A -> result B) (xs : list A)
    (acc : list B) e :
  Py.for_each xs (fun x acc => r ← g x; Ok (acc ++ [r])) acc = Raise e <->
  exists (k : nat) x,
    xs !! k = Some x /\ g x = Raise e /\
    forall (j : nat) y, (j < k)%nat -> xs !! j = Some y -> exists r, g y = Ok r.
Proof.
  revert acc. induction xs as [|x xs IH]; intros acc; cbn [Py.for_each].
  - split; [done|]. by intros (k & x & Hk & _).
  - destruct (g x) as [r|e'] eqn:Hg; cbn [mbind result_bind].
    + rewrite IH. split.
      * intros (k & y & Hk & Hy & Hpre). exists (S k), y.
        split; [done|]. split; [done|].
        intros [|j] z Hj Hz; [injection Hz as <-; eauto|].
        apply (Hpre j z); [lia|done].
      * intros ([|k] & y & Hk & Hy & Hpre).
        { injection Hk as <-. congruence. }
        exists k, y. split; [done|]. split; [done|].
        intros j z Hj Hz. apply (Hpre (S j) z); [lia|done].
    + split.
      * intros [= <-]. exists 0%nat, x. split; [done|]. split; [done|].
        intros; lia.
      * intros ([|k] & y & Hk & Hy & Hpre).
        { injection Hk as <-. congruence. }
        destruct (Hpre 0%nat x) as [r Hr]; [lia|done|congruence].
Qed.

Lemma generate_output_rows_loop wsd d1 d2 d3 d4 d5 rate :
  generate_output_rows int_of_text wsd d1 d2 d3 d4 d5 rate
  = Py.for_each (Py.enumerate wsd)
      (fun x acc =>
         r ← (let '(i, wage_row) := x in
              statement_row int_of_text d1 d2 d3 d4 d5 rate i wage_row);
         Ok (acc ++ [r])) [header].
Proof.
  unfold generate_output_rows. generalize [header].
  induction (Py.enumerate wsd) as [|[i wage_row] xs IH]; intros acc;
    cbn [Py.for_each]; [done|].
  destruct (statement_row _ _ _ _ _ _ _ _ _); cbn [mbind result_bind]; [apply IH|done].
Qed.

(** X10: the assembler stops at the first employee whose statement row cannot
    be computed: it raises [e] exactly when some employee's row raises [e]
    and the rows of all employees before that one are computed.  The rows
    computed so far are dropped with the exception. *)
Theorem generate_output_rows_first_error wsd d1 d2 d3 d4 d5 rate e :
  generate_output_rows int_of_text wsd d1 d2 d3 d4 d5 rate = Raise e <->
  exists (k : nat) w,
    wsd !! k = Some w /\
    statement_row int_of_text d1 d2 d3 d4 d5 rate (Z.of_nat k) w = Raise e /\
    forall (j : nat) w', (j < k)%nat -> wsd !! j = Some w' ->
      exists row,
        statement_row int_of_text d1 d2 d3 d4 d5 rate (Z.of_nat j) w' = Ok row.
Proof.
  rewrite generate_output_rows_loop, for_each_collect_Raise. split.
  - intros (k & [i w] & Hk & Hraise & Hpre).
    rewrite enumerate_lookup in Hk.
    destruct (wsd !! k) as [w0|] eqn:Hw; [|done]. injection Hk as <- <-.
    exists k, w0. split; [done|]. split; [done|].
    intros j w' Hj Hw'.
    apply (Hpre j (Z.of_nat j, w')); [done|]. by rewrite enumerate_lookup, Hw'.
  - intros (k & w & Hk & Hraise & Hpre).
    exists k, (Z.of_nat k, w). split; [by rewrite enumerate_lookup, Hk|].
    split; [done|].
    intros j [i w'] Hj Hw'. rewrite enumerate_lookup in Hw'.
    destruct (wsd !! j) as [w0|] eqn:Hw; [|done]. injection Hw' as <- <-.
    by apply (Hpre j w0).
Qed.

Lemma round_Raise x e : Py.round x = Raise e -> content_error e.
Proof. destruct x; cbn [Py.round]; intros [= <-]; unfold content_error; auto. Qed.

Lemma trunc_Raise x e : Py.trunc x = Raise e -> content_error e.
Proof. destruct x; cbn [Py.trunc]; intros [= <-]; unfold content_error; auto. Qed.

Lemma float_of_int_Raise z e : Py.float_of_int z = Raise e -> content_error e.
Proof.
  unfold Py.float_of_int.
  destruct (binary_normalize _ _ _ _ _); intros [= <-]; unfold content_error; auto.
Qed.

Lemma mul_float_Raise v c e : mul_float v c = Raise e -> content_error e.
Proof.
  destruct v; cbn [mul_float]; try (intros [= <-]; unfold content_error; auto).
  intros [H|(x & _ & [=])]%bind_Raise. by eapply float_of_int_Raise.
Qed.

Lemma calculate_contributions_Raise wage e :
  calculate_contributions wage = Raise e -> content_error e.
Proof.
  unfold calculate_contributions.
  intros [[H|(x & _ & H)]%bind_Raise|(ee & _ & H)]%bind_Raise;
    [by eapply mul_float_Raise|by eapply round_Raise|].
  apply bind_Raise in H as [[H|(x & _ & H)]%bind_Raise|(eps & _ & H)];
    [by eapply mul_float_Raise|by eapply round_Raise|].
  apply bind_Raise in H as [[H|(x & _ & H)]%bind_Raise|(er & _ & [=])];
    [by eapply mul_float_Raise|by eapply round_Raise].
Qed.

Lemma collect_contributions_Raise monthly_wages e :
  collect_contributions monthly_wages = Raise e -> content_error e.
Proof.
  intros (wage & [[a b] c] & _ & H)%for_each_Raise.
  apply bind_Raise in H as [H|([[ee er] eps] & _ & [=])].
  by eapply calculate_contributions_Raise.
Qed.

Lemma py_int_Raise v e : py_int int_of_text v = Raise e -> content_error e.
Proof.
  destruct v as [| |x|s|]; cbn [py_int]; try (intros [= <-]; unfold content_error; auto).
  - apply trunc_Raise.
  - destruct (int_of_text s); intros [= <-]; unfold content_error; auto.
Qed.

End Failures.

(** ** The pipeline on a validated workbook *)

Section PipelineMore.

Variable int_of_text : string -> option Z.

Lemma validate_sheet_dimensions_Raise s1 s2 s3 s4 s5 s6 e :
  validate_sheet_dimensions s1 s2 s3 s4 s5 s6 = Raise e ->
  exists msg, e = DataValidationError msg.
Proof.
  unfold validate_sheet_dimensions.
  repeat (case (negb _); [intros [= <-]; eauto|]). done.
Qed.

Lemma length_fetch_sheet_data sheet data_type :
  length (fetch_sheet_data sheet data_type) = Z.to_nat (max_row sheet - 1).
Proof.
  destruct (String.eqb_spec data_type "single") as [->|Hne].
  - rewrite fetch_sheet_data_single, length_fmap, length_range. f_equal. lia.
  - rewrite fetch_sheet_data_multi, length_fmap, length_range by done. f_equal. lia.
Qed.

Lemma zero_if_none_not_None v : zero_if_none v <> VNone.
Proof. by destruct v. Qed.

Lemma fetch_sheet_data_multi_record sheet (k : nat) w :
  fetch_sheet_data sheet "multi" !! k = Some w ->
  exists row,
    w = VList row /\ length row = Z.to_nat (max_column sheet) /\
    Forall (fun v => v <> VNone) row.
Proof.
  rewrite fetch_sheet_data_multi by done. rewrite list_lookup_fmap.
  destruct (Py.range 2 (max_row sheet + 1) !! k) as [r|]; [|done].
  intros [= <-]. eexists. split; [done|]. split.
  - rewrite length_fmap, length_range. f_equal. lia.
  - apply Forall_fmap, Forall_forall. intros c _. apply zero_if_none_not_None.
Qed.

(** X11: what validation guarantees of the extracted tables: all six hold one
    record per data row of the wage sheet, every wage record has 14
    entries, every withdrawal record has 12, and no entry is [None]. *)
Theorem validated_tables_shape s1 s2 s3 s4 s5 s6 :
  validate_sheet_dimensions s1 s2 s3 s4 s5 s6 = Ok tt ->
  let employees := Z.to_nat (max_row s1 - 1) in
  let record (width : nat) (v : value) :=
    exists row, v = VList row /\ length row = width /\
                Forall (fun c => c <> VNone) row in
  length (fetch_sheet_data s1 "multi") = employees /\
  length (fetch_sheet_data s2 "single") = employees /\
  length (fetch_sheet_data s3 "single") = employees /\
  length (fetch_sheet_data s4 "single") = employees /\
  length (fetch_sheet_data s5 "multi") = employees /\
  length (fetch_sheet_data s6 "multi") = employees /\
  Forall (record 14%nat) (fetch_sheet_data s1 "multi") /\
  Forall (record 12%nat) (fetch_sheet_data s5 "multi") /\
  Forall (record 12%nat) (fetch_sheet_data s6 "multi") /\
  Forall (fun v => v <> VNone)
    (fetch_sheet_data s2 "single" ++ fetch_sheet_data s3 "single"
       ++ fetch_sheet_data s4 "single").
Proof.
  intros (C1 & C2 & C3 & C4 & C5 & C6 & R2 & R3 & R4 & R5 & R6)
    %validate_sheet_dimensions_Ok.
  intros employees record. subst employees.
  rewrite !length_fetch_sheet_data, R2, R3, R4, R5, R6.
  do 6 (split; [done|]).
  assert (Hrec : forall s width, max_column s = Z.of_nat width ->
            Forall (record width) (fetch_sheet_data s "multi")).
  { intros s width Hs. apply Forall_lookup. intros k w Hw.
    destruct (fetch_sheet_data_multi_record _ _ _ Hw) as (row & -> & Hlen & Hrow).
    exists row. split; [done|]. split; [|done]. rewrite Hlen, Hs. apply Nat2Z.id. }
  split; [by apply Hrec|]. split; [by apply Hrec|]. split; [by apply Hrec|].
  rewrite !Forall_app, !fetch_sheet_data_single.
  repeat split; apply Forall_fmap, Forall_forall; intros r _;
    apply zero_if_none_not_None.
Qed.

(** X12: the extractor never reads the first row, and of a single-column table
    it reads the first column only: two sheets with the same number of rows
    give the same single-column table as soon as they agree on column 1 from
    row 2 on, and the same multi-column table as soon as they have the same
    number of columns and agree from row 2 on. *)
Theorem fetch_sheet_data_reads s s' :
  max_row s = max_row s' ->
  ((forall r, 2 <= r <= max_row s -> cell s r 1 = cell s' r 1) ->
   fetch_sheet_data s "single" = fetch_sheet_data s' "single") /\
  (max_column s = max_column s' ->
   (forall r c, 2 <= r <= max_row s -> 1 <= c <= max_column s ->
      cell s r c = cell s' r c) ->
   fetch_sheet_data s "multi" = fetch_sheet_data s' "multi").
Proof.
  intros Hrows. split.
  - intros Hcells. rewrite !fetch_sheet_data_single, <- Hrows.
    apply list_fmap_ext. intros k r Hr. cbn.
    apply list_elem_of_lookup_2, range_elem in Hr. rewrite Hcells by lia. done.
  - intros Hcols Hcells. rewrite !fetch_sheet_data_multi by done.
    rewrite <- Hrows, <- Hcols.
    apply list_fmap_ext. intros k r Hr. cbn. f_equal.
    apply list_elem_of_lookup_2, range_elem in Hr.
    apply list_fmap_ext. intros j c Hc. cbn.
    apply list_elem_of_lookup_2, range_elem in Hc. rewrite Hcells by lia. done.
Qed.

End PipelineMore.

Section PipelineErrors.

Variable int_of_text : string -> option Z.

Lemma ints_list_Raise row e :
  ints int_of_text (VList row) = Raise e -> content_error e.
Proof.
  unfold ints. cbn [as_sequence mbind result_bind].
  intros (v & _ & Hv)%mapM_Raise. by eapply py_int_Raise.
Qed.

Lemma ints_list_length row zs :
  ints int_of_text (VList row) = Ok zs -> length zs = length row.
Proof.
  unfold ints. cbn [as_sequence mbind result_bind].
  intros H%mapM_Ok. symmetry. by eapply Forall2_length.
Qed.

Lemma collect_contributions_length monthly_wages ees ers epss :
  collect_contributions monthly_wages = Ok (ees, ers, epss) ->
  length ees = length monthly_wages /\ length ers = length monthly_wages.
Proof.
  intros (shares & Hshares%Forall2_length & -> & -> & _)%collect_contributions_Ok.
  by rewrite !length_fmap.
Qed.

(** With a 14-entry wage record and 12-entry withdrawal records, and the
    employee's record present in every table, a statement row fails on the
    content of a cell or on the interest only. *)
Lemma statement_row_errors d1 d2 d3 d4 d5 rate (k : nat) row r4 r5 e :
  length row = 14%nat ->
  (k < length d1)%nat -> (k < length d2)%nat -> (k < length d3)%nat ->
  d4 !! k = Some (VList r4) -> length r4 = 12%nat ->
  d5 !! k = Some (VList r5) -> length r5 = 12%nat ->
  statement_row int_of_text d1 d2 d3 d4 d5 rate (Z.of_nat k) (VList row)
    = Raise e ->
  content_error e.
Proof.
  intros Hrow H1 H2 H3 H4 Hr4 H5 Hr5.
  do 14 (destruct row as [|? row]; [done|]). destruct row; [|done]. clear Hrow.
  apply lookup_lt_is_Some_2 in H1 as [x1 H1], H2 as [x2 H2], H3 as [x3 H3].
  unfold statement_row.
  rewrite !getitem_of_lookup, H1, H2, H3, H4, H5.
  match goal with
  | |- (_ ← getitem ?w 0; _) = _ -> _ =>
      change (getitem w 0) with (Ok v : result value);
      change (getitem w 1) with (Ok v0 : result value);
      change (slice w 2 (2 + EXPECTED_WDL_COLUMNS))
        with (Ok [v1; v2; v3; v4; v5; v6; v7; v8; v9; v10; v11; v12]
                : result (list value))
  end.
  cbn [mbind result_bind].
  intros [H|([[ees ers] epss] & Hc & H)]%bind_Raise;
    [by eapply collect_contributions_Raise|].
  apply collect_contributions_length in Hc as [Hees Hers].
  apply bind_Raise in H as [H|(ob_ee & _ & H)]; [by eapply py_int_Raise|].
  apply bind_Raise in H as [H|(ob_er & _ & H)]; [by eapply py_int_Raise|].
  apply bind_Raise in H as [H|(ob_eps & _ & H)]; [by eapply py_int_Raise|].
  apply bind_Raise in H as [H|(ee_w & Hw4 & H)]; [by eapply ints_list_Raise|].
  apply bind_Raise in H as [H|(er_w & Hw5 & H)]; [by eapply ints_list_Raise|].
  apply ints_list_length in Hw4, Hw5.
  apply bind_Raise in H as [H|([[[eb rb] ei] ri] & _ & [=])].
  rewrite calculate_monthly_balances_cases in H. cbn zeta in H.
  case_decide as Hlen.
  - apply bind_Raise in H as [H|(ei & _ & H)].
    { apply interest_Raise in H as [->| ->]; unfold content_error; auto. }
    apply bind_Raise in H as [H|(ri & _ & [=])].
    apply interest_Raise in H as [->| ->]; unfold content_error; auto.
  - exfalso. apply Hlen. cbn [length] in Hees, Hers. lia.
Qed.

(** On a validated workbook the assembler fails on the content of a cell
    or on the interest only. *)
Lemma generate_output_rows_validated_Raise s1 s2 s3 s4 s5 s6 rate e :
  validate_sheet_dimensions s1 s2 s3 s4 s5 s6 = Ok tt ->
  generate_output_rows int_of_text (fetch_sheet_data s1 "multi")
    (fetch_sheet_data s2 "single") (fetch_sheet_data s3 "single")
    (fetch_sheet_data s4 "single") (fetch_sheet_data s5 "multi")
    (fetch_sheet_data s6 "multi") rate = Raise e ->
  content_error e.
Proof.
  intros (C1 & C2 & C3 & C4 & C5 & C6 & R2 & R3 & R4 & R5 & R6)
    %validate_sheet_dimensions_Ok.
  rewrite generate_output_rows_loop, for_each_collect_Raise.
  intros (k & [i w] & Hk & Hrow & _). rewrite enumerate_lookup in Hk.
  destruct (fetch_sheet_data s1 "multi" !! k) as [w0|] eqn:Hw; [|done].
  injection Hk as <- <-.
  assert (Hlt : (k < Z.to_nat (max_row s1 - 1))%nat).
  { rewrite <- (length_fetch_sheet_data s1 "multi"). by eapply lookup_lt_Some. }
  destruct (fetch_sheet_data_multi_record _ _ _ Hw) as (row & -> & Hrow14 & _).
  destruct (lookup_lt_is_Some_2 (fetch_sheet_data s5 "multi") k) as [w5 Hw5];
    [by rewrite length_fetch_sheet_data, R5|].
  destruct (lookup_lt_is_Some_2 (fetch_sheet_data s6 "multi") k) as [w6 Hw6];
    [by rewrite length_fetch_sheet_data, R6|].
  destruct (fetch_sheet_data_multi_record _ _ _ Hw5) as (r5 & -> & Hr5 & _).
  destruct (fetch_sheet_data_multi_record _ _ _ Hw6) as (r6 & -> & Hr6 & _).
  rewrite C1 in Hrow14. rewrite C5 in Hr5. rewrite C6 in Hr6.
  eapply statement_row_errors; [exact Hrow14| | | |exact Hw5|exact Hr5|exact Hw6
                                |exact Hr6|exact Hrow];
    by rewrite length_fetch_sheet_data, ?R2, ?R3, ?R4.
Qed.

(** X13: a run on a workbook fails in two ways only: the validator rejects the
    dimensions, or, after validation, a cell's content or the interest
    arithmetic raises [TypeError], [ValueError] or [OverflowError].  A
    validated workbook never makes the assembler index a table out of
    range, whatever its cells hold. *)
Theorem main_pipeline_errors s1 s2 s3 s4 s5 s6 rate e :
  main_pipeline int_of_text s1 s2 s3 s4 s5 s6 rate = Raise e ->
  e <> IndexError /\
  ((validate_sheet_dimensions s1 s2 s3 s4 s5 s6 = Raise e /\
    exists msg, e = DataValidationError msg) \/
   (validate_sheet_dimensions s1 s2 s3 s4 s5 s6 = Ok tt /\ content_error e)).
Proof.
  unfold main_pipeline.
  destruct (validate_sheet_dimensions s1 s2 s3 s4 s5 s6) as [[]|e0] eqn:Hv;
    cbn [mbind result_bind].
  - intros He%generate_output_rows_validated_Raise; [|done].
    split; [|by right]. by destruct He as [->|[->| ->]].
  - intros [= <-]. destruct (validate_sheet_dimensions_Raise _ _ _ _ _ _ _ Hv) as [msg ->].
    split; [done|]. left. split; [done|]. by exists msg.
Qed.

End PipelineErrors.

Lemma validated_tables_shape_witness :
  length (fetch_sheet_data sample_wage_sheet "multi") = 1%nat /\
  Forall (fun v => v <> VNone)
    (fetch_sheet_data sample_ob_ee_sheet "single"
       ++ fetch_sheet_data sample_ob_er_sheet "single"
       ++ fetch_sheet_data sample_ob_eps_sheet "single").
Proof.
  destruct (validated_tables_shape sample_wage_sheet sample_ob_ee_sheet
              sample_ob_er_sheet sample_ob_eps_sheet sample_wdl_ee_sheet
              sample_wdl_er_sheet eq_refl)
    as (L1 & _ & _ & _ & _ & _ & _ & _ & _ & N).
  split; [exact L1|exact N].
Defined.

Lemma fetch_sheet_data_reads_witness :
  fetch_sheet_data (with_header [VStr "OB_EE"] sample_ob_ee_sheet) "single"
  = fetch_sheet_data sample_ob_ee_sheet "single" /\
  fetch_sheet_data
    (with_header (VStr <$> ["Apr"; "May"]%string) sample_wdl_ee_sheet) "multi"
  = fetch_sheet_data sample_wdl_ee_sheet "multi".
Proof.
  split.
  - apply (fetch_sheet_data_reads (with_header [VStr "OB_EE"] sample_ob_ee_sheet)
             sample_ob_ee_sheet eq_refl).
    intros r Hr. cbn [cell with_header].
    destruct (Z.eqb_spec r 1); [lia|reflexivity].
  - apply (fetch_sheet_data_reads
             (with_header (VStr <$> ["Apr"; "May"]%string) sample_wdl_ee_sheet)
             sample_wdl_ee_sheet eq_refl); [reflexivity|].
    intros r c Hr Hc. cbn [cell with_header].
    destruct (Z.eqb_spec r 1); [lia|reflexivity].
Defined.

Lemma main_pipeline_errors_witness :
  ValueError <> IndexError /\
  ((validate_sheet_dimensions sample_wage_sheet sample_ob_ee_sheet
      sample_ob_er_sheet sample_ob_eps_sheet sample_wdl_ee_sheet
      sample_wdl_er_sheet = Raise ValueError /\
    exists msg, ValueError = DataValidationError msg) \/
   (validate_sheet_dimensions sample_wage_sheet sample_ob_ee_sheet
      sample_ob_er_sheet sample_ob_eps_sheet sample_wdl_ee_sheet
      sample_wdl_er_sheet = Ok tt /\ content_error ValueError)).
Proof.
  apply (main_pipeline_errors no_text sample_wage_sheet sample_ob_ee_sheet
           sample_ob_er_sheet sample_ob_eps_sheet sample_wdl_ee_sheet
           sample_wdl_er_sheet S754_nan ValueError).
  vm_compute. reflexivity.
Defined.

(** ** The run controller *)

Section Run.

Variable int_of_text : string -> option Z.
Variable float_of_text : string -> option Py.float.
Variable load_workbook : string -> load_result.
Variable write_error : string -> list (list value) -> option string.

Lemma ask_choice_first bad r rest tr :
  Forall (fun line => valid_choice line = false) bad ->
  valid_choice r = true ->
  ask_choice (bad ++ r :: rest) tr
  = (Returns r,
     {| pending := rest; trace := tr ++ retries bad ++ [Input choice_prompt] |}).
Proof.
  unfold valid_choice, retries. intros Hbad Hr. revert tr.
  induction Hbad as [|line bad Hline _ IH]; intros tr.
  - cbn [app ask_choice flat_map]. by rewrite Hr.
  - cbn [app ask_choice flat_map]. rewrite Hline, IH.
    by rewrite <- !app_assoc.
Qed.

Lemma ask_choice_eof lines tr :
  Forall (fun line => valid_choice line = false) lines ->
  ask_choice lines tr
  = (Raises EOFError,
     {| pending := []; trace := tr ++ retries lines ++ [Input choice_prompt] |}).
Proof.
  unfold valid_choice, retries. intros Hbad. revert tr.
  induction Hbad as [|line bad Hline _ IH]; intros tr.
  - reflexivity.
  - cbn [app ask_choice flat_map]. rewrite Hline, IH.
    by rewrite <- !app_assoc.
Qed.

Lemma choice_split lines :
  Forall (fun line => valid_choice line = false) lines \/
  exists bad r rest,
    lines = bad ++ r :: rest /\
    Forall (fun line => valid_choice line = false) bad /\
    valid_choice r = true.
Proof.
  induction lines as [|line lines IH]; [by left|].
  destruct (valid_choice line) eqn:Hline.
  - right. by exists [], line, lines.
  - destruct IH as [IH|(bad & r & rest & -> & Hbad & Hr)].
    + left. by constructor.
    + right. exists (line :: bad), r, rest.
      split; [done|]. split; [by constructor|done].
Qed.

Lemma file_events_app tr tr' :
  file_events (tr ++ tr') = file_events tr ++ file_events tr'.
Proof. apply List.filter_app. Qed.

Lemma file_events_retries bad : file_events (retries bad) = [].
Proof. unfold retries. induction bad as [|line bad IH]; [done|exact IH]. Qed.

Lemma start_up_check_eq c :
  exists banner,
    Forall (fun ev => exists s, ev = Shell s \/ ev = Print s) banner /\
    start_up_check c = ask_choice (pending c) (trace c ++ banner).
Proof.
  eexists [_; _; _; _; _; _; _; _]. split; [|unfold start_up_check].
  2: { unfold clear_screen_with_title, choice_loop, emit, mbind, io_bind, log.
       cbn [pending trace]. rewrite <- !app_assoc. reflexivity. }
  repeat constructor; eauto.
Qed.

Lemma file_events_banner banner :
  Forall (fun ev => exists s, ev = Shell s \/ ev = Print s) banner ->
  file_events banner = [].
Proof.
  induction 1 as [|ev banner (s & [-> | ->]) _ IH]; [done|exact IH|exact IH].
Qed.

(** X14: [start_up_check] returns the first pending line that is one of [y],
    [Y], [n], [N]: every line before it is consumed and answered by the
    invalid-choice message and a new prompt, the lines after it stay
    pending, and nothing else than shell commands, messages and prompts
    happens. *)
Theorem start_up_check_first_valid c bad r rest :
  pending c = bad ++ r :: rest ->
  Forall (fun line => valid_choice line = false) bad ->
  valid_choice r = true ->
  exists banner,
    Forall (fun ev => exists s, ev = Shell s \/ ev = Print s) banner /\
    start_up_check c
    = (Returns r,
       {| pending := rest;
          trace := trace c ++ banner ++ retries bad ++ [Input choice_prompt] |}).
Proof.
  intros Hc Hbad Hr.
  destruct (start_up_check_eq c) as (banner & Hbanner & ->).
  exists banner. split; [done|].
  rewrite Hc, ask_choice_first by done. by rewrite <- !app_assoc.
Qed.

(** What the start-up dialogue leaves: either no pending line is a valid
    answer and [EOFError] is raised, or the first valid answer is returned;
    in both cases no file is touched. *)
Lemma start_up_check_cases c :
  exists o c1 shown,
    start_up_check c = (o, c1) /\
    trace c1 = trace c ++ shown /\ file_events shown = [] /\
    ((Forall (fun line => valid_choice line = false) (pending c) /\
      o = Raises EOFError) \/
     (exists bad r,
        pending c = bad ++ r :: pending c1 /\
        Forall (fun line => valid_choice line = false) bad /\
        valid_choice r = true /\ o = Returns r)).
Proof.
  destruct (start_up_check_eq c) as (banner & Hbanner%file_events_banner & ->).
  destruct (choice_split (pending c)) as [Hbad|(bad & r & rest & Hc & Hbad & Hr)].
  - rewrite ask_choice_eof by done. do 3 eexists. split; [reflexivity|].
    cbn [trace]. rewrite <- app_assoc. split; [reflexivity|].
    rewrite !file_events_app, Hbanner, file_events_retries. split; [done|].
    by left.
  - rewrite Hc, ask_choice_first by done. do 3 eexists. split; [reflexivity|].
    cbn [trace pending]. rewrite <- app_assoc. split; [reflexivity|].
    rewrite !file_events_app, Hbanner, file_events_retries. split; [done|].
    right. by exists bad, r.
Qed.

Ltac io_unfold :=
  unfold clear_screen_with_title, open_input_excel_file, get_sheet,
    write_csv_output, write_excel_output, py_float, try_except, of_result,
    input, emit, raise, mbind, io_bind, mret, io_ret.

Ltac io_reduce := cbn beta iota zeta delta [log pending trace].

(** One step of a run: a case analysis on the next thing the run depends
    on. *)
Ltac io_case :=
  match goal with
  | |- context [match load_workbook ?p with _ => _ end] =>
      destruct (load_workbook p) as [wb| |failure] eqn:Hload
  | |- context [match validate_sheet_dimensions ?a ?b ?c ?d ?e ?f with _ => _ end] =>
      destruct (validate_sheet_dimensions a b c d e f) as [[]|invalid] eqn:Hvalid
  | |- context [match pending ?c with _ => _ end] =>
      destruct (pending c) as [|text rest] eqn:Hpending
  | |- context [match float_of_text ?t with _ => _ end] =>
      destruct (float_of_text t) as [rate|] eqn:Hrate
  | |- context [match generate_output_rows ?i ?a ?b ?c ?d ?e ?f ?r with _ => _ end] =>
      destruct (generate_output_rows i a b c d e f r) as [rows|failed] eqn:Hrows
  | |- context [match write_error ?f ?r with _ => _ end] =>
      destruct (write_error f r) as [?failure|] eqn:?
  | |- context [if is_EPFCalculatorError ?e then _ else _] =>
      let H := fresh "Hepf" in
      destruct (is_EPFCalculatorError e) eqn:H; cbn in H; try discriminate H
  | |- context [match ?w ?name with Some _ => _ | None => _ end] =>
      destruct (w name) as [?sheet|] eqn:?
  end; io_reduce.

Ltac io_start Hs :=
  unfold main; unfold mbind at 1; unfold io_bind at 1; rewrite Hs.



(** X16: a run ends in SUCCESS exactly when the answer is [y] or [Y], the input
    file is loaded and holds the six sheets, a line is pending for the rate
    and reads as a float, the pipeline returns a table for the six sheets
    and that rate, and neither writer fails. *)
Theorem main_success c r c1 :
  start_up_check c = (Returns r, c1) ->
  (exists c',
     main int_of_text float_of_text load_workbook write_error c
     = (Returns "SUCCESS"%string, c')) <->
  py_in r ["n"; "N"]%string = false /\
  exists s1 s2 s3 s4 s5 s6 text rest rate rows,
    loaded_sheets load_workbook s1 s2 s3 s4 s5 s6 /\
    pending c1 = text :: rest /\
    float_of_text text = Some rate /\
    main_pipeline int_of_text s1 s2 s3 s4 s5 s6 rate = Ok rows /\
    write_error "output.csv"%string rows = None /\
    write_error "Output.xlsx"%string rows = None.
Proof.
  intros Hs. io_start Hs. split.
  - intros [c' H]. revert H.
    destruct (py_in r ["n"; "N"]%string) eqn:Hn; [discriminate|].
    io_unfold. io_reduce. repeat io_case; try discriminate.
    intros _. split; [done|].
    exists sheet, sheet0, sheet1, sheet2, sheet3, sheet4, text, rest, rate, rows.
    split; [by exists wb|]. do 2 (split; [done|]).
    split; [|done]. unfold main_pipeline. by rewrite Hvalid.
  - intros (Hn & s1 & s2 & s3 & s4 & s5 & s6 & text & rest & rate & rows
            & (wb & Hload & H1 & H2 & H3 & H4 & H5 & H6) & Hpending & Hrate
            & ([] & Hvalid & Hrows)%bind_Ok & Hcsv & Hxlsx).
    cbn zeta in Hrows. rewrite Hn. io_unfold. io_reduce.
    rewrite Hload. io_reduce. rewrite H1, H2, H3, H4, H5, H6. io_reduce.
    rewrite Hvalid. io_reduce. rewrite Hpending. io_reduce.
    rewrite Hrate. io_reduce. rewrite Hrows. io_reduce.
    rewrite Hcsv. io_reduce. rewrite Hxlsx. io_reduce. eauto.
Qed.

Ltac file_events_of Hshown :=
  rewrite file_events_app, Hshown; cbn [app];
  unfold file_events; cbn [List.filter is_file_event].

(** X17: what a run does to files.  It touches none when it stops in the
    start-up dialogue; otherwise it loads the input file, and it calls a
    writer only with the table the pipeline returns for the six sheets of
    that file and the rate read, which is the float of the line that
    follows the first valid answer: output.csv first, Output.xlsx only
    after output.csv was written without error, and it closes the workbook
    only in a run that ends in SUCCESS.  A run that ends in ERROR has
    written output.csv when a writer raised, and both files when the second
    one did. *)
Theorem main_file_events c :
  exists o c' new,
    main int_of_text float_of_text load_workbook write_error c = (o, c') /\
    trace c' = trace c ++ new /\
    ((file_events new = [] /\
      (o = Raises EOFError \/ o = Returns "CLOSE"%string)) \/
     (file_events new = [LoadWorkbook "InputFiles/Input.xlsx"] /\
      o = Returns "ERROR"%string) \/
     (exists s1 s2 s3 s4 s5 s6 bad r text rate rows,
        loaded_sheets load_workbook s1 s2 s3 s4 s5 s6 /\
        pending c = bad ++ r :: text :: pending c' /\
        Forall (fun line => valid_choice line = false) bad /\
        valid_choice r = true /\
        float_of_text text = Some rate /\
        main_pipeline int_of_text s1 s2 s3 s4 s5 s6 rate = Ok rows /\
        ((file_events new
          = [LoadWorkbook "InputFiles/Input.xlsx"; WriteCsv "output.csv" rows] /\
          write_error "output.csv"%string rows <> None /\
          o = Returns "ERROR"%string) \/
         (file_events new
          = [LoadWorkbook "InputFiles/Input.xlsx"; WriteCsv "output.csv" rows;
             WriteExcel "Output.xlsx" rows] /\
          write_error "output.csv"%string rows = None /\
          write_error "Output.xlsx"%string rows <> None /\
          o = Returns "ERROR"%string) \/
         (file_events new
          = [LoadWorkbook "InputFiles/Input.xlsx"; WriteCsv "output.csv" rows;
             WriteExcel "Output.xlsx" rows; CloseWorkbook] /\
          write_error "output.csv"%string rows = None /\
          write_error "Output.xlsx"%string rows = None /\
          o = Returns "SUCCESS"%string)))).
Proof.
  destruct (start_up_check_cases c)
    as (o & c1 & shown & Hs & Htr & Hshown
        & [[Hbad ->]|(bad & r & Hc & Hbad & Hr & ->)]).
  - exists (Raises EOFError), c1, shown. io_start Hs.
    do 2 (split; [done|]). left. split; [done|]. by left.
  - io_start Hs. destruct (py_in r ["n"; "N"]%string) eqn:Hn.
    { exists (Returns "CLOSE"%string), c1, shown.
      do 2 (split; [done|]). left. split; [done|]. by right. }
    io_unfold. io_reduce.
    repeat io_case;
      (eexists _, _, _; split; [reflexivity|]; cbn [trace log pending];
       rewrite Htr, <- !app_assoc; split; [reflexivity|];
       file_events_of Hshown);
      try (right; left; split; reflexivity);
      right; right;
      exists sheet, sheet0, sheet1, sheet2, sheet3, sheet4, bad, r, text,
        rate, rows;
      (split; [by exists wb|]);
      (split; [first [exact Hc|by rewrite Hc, Hpending]|]);
      do 3 (split; [done|]);
      (split; [unfold main_pipeline; by rewrite Hvalid|]);
      [left|right; left|right; right]; repeat split; congruence.
Qed.

(** X18: the six sheets are asked for in the order Wages, OB_EE, OB_ER, OB_EPS,
    WDL_EE, WDL_ER, and the first one the workbook does not hold ends the
    run: it returns ERROR, its last output is the report of
    [SheetNotFoundError] for that sheet, and the rate is not asked for. *)
Theorem main_first_missing_sheet c r c1 wb found missing later :
  start_up_check c = (Returns r, c1) ->
  py_in r ["n"; "N"]%string = false ->
  load_workbook "InputFiles/Input.xlsx" = Loaded wb ->
  sheet_names = found ++ missing :: later ->
  Forall (fun name => is_Some (wb name)) found ->
  wb missing = None ->
  exists c',
    main int_of_text float_of_text load_workbook write_error c
    = (Returns "ERROR"%string, c') /\
    pending c' = pending c1 /\
    last (trace c')
    = Some (PrintError error_label
              (SheetNotFoundError
                 ("Sheet '" +:+ missing +:+ "' not found in workbook"))).
Proof.
  intros Hs Hn Hload Hnames Hfound Hmissing.
  io_start Hs. rewrite Hn. io_unfold. io_reduce. rewrite Hload. io_reduce.
  unfold sheet_names in Hnames.
  do 6 (destruct found as [|? found];
        [injection Hnames as <- <-;
         repeat match goal with
                | H : Forall _ (_ :: _) |- _ => apply Forall_cons in H as [[? ?] H]
                end;
         repeat match goal with
                | H : wb _ = _ |- _ => rewrite H; clear H
                end;
         io_reduce; cbn [is_EPFCalculatorError]; io_reduce;
         eexists; (split; [reflexivity|]); cbn [trace log pending];
         (split; [reflexivity|]); by rewrite last_snoc
        |injection Hnames as <- Hnames]).
  by destruct found.
Qed.

(** X19: how a failed run reports.  A run that ends in ERROR prints one report
    last.  It is labelled ERROR, with an [EPFCalculatorError], exactly when
    the input workbook is unusable: the file cannot be loaded, a sheet is
    missing or the dimensions are rejected; the rate is then not asked for.
    Every failure after validation is labelled UNEXPECTED ERROR: no line
    for the rate, a rate or a cell that is no number or an arithmetic
    failure, or a writer's exception. *)
Theorem main_error_report c r c1 c' :
  start_up_check c = (Returns r, c1) ->
  main int_of_text float_of_text load_workbook write_error c
  = (Returns "ERROR"%string, c') ->
  let usable :=
    exists s1 s2 s3 s4 s5 s6,
      loaded_sheets load_workbook s1 s2 s3 s4 s5 s6 /\
      validate_sheet_dimensions s1 s2 s3 s4 s5 s6 = Ok tt in
  exists e,
    last (trace c')
    = Some (PrintError (if is_EPFCalculatorError e then error_label
                        else unexpected_label) e) /\
    ((is_EPFCalculatorError e = true /\ pending c' = pending c1 /\ ~ usable) \/
     (is_EPFCalculatorError e = false /\ usable /\
      ((e = EOFError /\ pending c1 = []) \/
       (exists e0, e = Engine e0 /\ content_error e0) \/
       (exists text, e = LibraryError text)))).
Proof.
  intros Hs Hmain usable. revert Hmain. io_start Hs.
  destruct (py_in r ["n"; "N"]%string) eqn:Hn; [discriminate|].
  io_unfold. io_reduce. repeat io_case; try discriminate;
    intros Hmain; apply (f_equal snd) in Hmain; cbn [snd] in Hmain; subst c'.
  all: try (destruct (validate_sheet_dimensions_Raise _ _ _ _ _ _ _ Hvalid)
              as [msg Hmsg];
            subst invalid; cbn in Hepf; try discriminate Hepf).
  all: try (pose proof (generate_output_rows_validated_Raise int_of_text
                          _ _ _ _ _ _ _ _ Hvalid Hrows) as Hfailed;
            destruct Hfailed as [->|[->| ->]]; cbn in Hepf;
            try discriminate Hepf).
  all: cbn [trace log pending]; rewrite last_snoc.
  all: match goal with
       | |- context [Some (PrintError _ ?e)] => exists e
       end.
  all: cbn [is_EPFCalculatorError]; (split; [reflexivity|]).
  all: first
    [ left; split; [reflexivity|]; split; [reflexivity|];
      unfold usable, loaded_sheets;
      intros (s1 & s2 & s3 & s4 & s5 & s6
              & (wb' & Hl & H1 & H2 & H3 & H4 & H5 & H6) & Hv); congruence
    | right; split; [reflexivity|];
      split; [exists sheet, sheet0, sheet1, sheet2, sheet3, sheet4;
              split; [by exists wb|done]|];
      first [ left; done
            | right; left; eexists; split; [reflexivity|];
              unfold content_error; auto
            | right; right; eexists; reflexivity ] ].
Qed.

End Run.

Lemma start_up_check_first_valid_witness :
  exists banner,
    Forall (fun ev => exists s, ev = Shell s \/ ev = Print s) banner /\
    start_up_check sample_console
    = (Returns "Y"%string,
       {| pending := ["8.5"%string];
          trace := trace sample_console ++ banner ++ retries ["maybe"%string]
                     ++ [Input choice_prompt] |}).
Proof.
  apply (start_up_check_first_valid sample_console ["maybe"%string] "Y"
           ["8.5"%string]); [reflexivity|repeat constructor|reflexivity].
Defined.

Lemma main_success_witness :
  exists c',
    main no_text sample_float_of_text sample_load_workbook no_write_error
      sample_console
    = (Returns "SUCCESS"%string, c').
Proof.
  apply (main_success no_text sample_float_of_text sample_load_workbook
           no_write_error sample_console "Y"
           (snd (start_up_check sample_console)) eq_refl).
  split; [reflexivity|].
  exists sample_wage_sheet, sample_ob_ee_sheet, sample_ob_er_sheet,
    sample_ob_eps_sheet, sample_wdl_ee_sheet, sample_wdl_er_sheet,
    "8.5"%string, [], sample_rate, sample_output.
  split; [by exists sample_workbook|].
  do 2 (split; [reflexivity|]). split; [vm_compute; reflexivity|].
  split; reflexivity.
Defined.

Lemma main_first_missing_sheet_witness :
  exists c',
    main no_text sample_float_of_text incomplete_load_workbook no_write_error
      sample_console
    = (Returns "ERROR"%string, c') /\
    pending c' = ["8.5"%string] /\
    last (trace c')
    = Some (PrintError error_label
              (SheetNotFoundError
                 ("Sheet '" +:+ "OB_ER" +:+ "' not found in workbook"))).
Proof.
  apply (main_first_missing_sheet no_text sample_float_of_text
           incomplete_load_workbook no_write_error sample_console "Y"
           (snd (start_up_check sample_console))
           (without_sheet "OB_ER" sample_workbook)
           ["Wages"; "OB_EE"]%string "OB_ER"
           ["OB_EPS"; "WDL_EE"; "WDL_ER"]%string);
    [reflexivity|reflexivity|reflexivity|reflexivity| |reflexivity].
  constructor; [by eexists|]. constructor; [by eexists|]. constructor.
Defined.

Lemma main_error_report_witness :
  exists e,
    last (trace (snd (main no_text sample_float_of_text
                        incomplete_load_workbook no_write_error
                        sample_console)))
    = Some (PrintError (if is_EPFCalculatorError e then error_label
                        else unexpected_label) e) /\
    is_EPFCalculatorError e = true.
Proof.
  destruct (main_error_report no_text sample_float_of_text
              incomplete_load_workbook no_write_error sample_console "Y"
              (snd (start_up_check sample_console))
              (snd (main no_text sample_float_of_text
                      incomplete_load_workbook no_write_error sample_console))
              eq_refl eq_refl)
    as (e & Hlast & [(Hepf & _ & _)|(_ & (s1 & s2 & s3 & s4 & s5 & s6
                                         & (wb & [= <-] & _ & _ & [=] & _) & _) & _)]).
  by exists e.
Defined.

(** ** Accuracy of the interest *)

Section Division.

Lemma loc_code_bounds l : 0 <= loc_code l <= 3.
Proof. destruct l as [|[]]; cbn; lia. Qed.

Lemma shr_record_of_loc_iter m l :
  0 <= m ->
  shr_record_of_loc m l
  = Nat.iter 2 shr_1 (Build_shr_record (4 * m + loc_code l) false false).
Proof. intros Hm. destruct m as [|p|p]; [| |lia]; by destruct l as [|[]]. Qed.

Lemma div_4_pow2 m c n :
  0 <= c <= 3 -> 0 <= n -> (4 * m + c) / 2 ^ (n + 2) = m / 2 ^ n.
Proof.
  intros Hc Hn. rewrite Z.pow_add_r by lia. change (2 ^ 2) with 4.
  rewrite (Z.mul_comm (2 ^ n) 4), <- Z.div_div by (try apply Z.pow_pos_nonneg; lia).
  f_equal. symmetry. apply Z.div_unique with c; lia.
Qed.

Lemma shr_fexp_loc m e l R e' :
  0 <= m ->
  shr_fexp 53 1024 m e l = (R, e') ->
  let n := Z.max (fexp 53 1024 (Zdigits2 m + e) - e) 0 in
  round_nearest_even (shr_m R) (loc_of_shr_record R)
  = Py.rne_shift (4 * m + loc_code l) (n + 2).
Proof.
  intros Hm. pose proof (loc_code_bounds l) as Hc.
  unfold shr_fexp, shr.
  destruct (fexp 53 1024 (Zdigits2 m + e) - e) as [|p|p] eqn:Hn; intros [= <- <-]; cbn zeta.
  - rewrite shr_record_of_loc_iter by done.
    exact (iter_shr_round 2 (4 * m + loc_code l) ltac:(lia)).
  - rewrite Z.max_l by lia. rewrite iter_pos_nat, shr_record_of_loc_iter by done.
    rewrite <- Nat.iter_add.
    pose proof (iter_shr_round (Pos.to_nat p + 2) (4 * m + loc_code l) ltac:(lia)) as Hr.
    cbn zeta in Hr. rewrite Hr. f_equal. lia.
  - rewrite Z.max_r by lia. rewrite shr_record_of_loc_iter by done.
    exact (iter_shr_round 2 (4 * m + loc_code l) ltac:(lia)).
Qed.

Lemma binary_round_aux_near s mx ex l :
  let d := Zdigits2 mx in
  let m1 := Py.rne_shift (4 * mx + loc_code l) (d - 53 + 2) in
  0 < mx -> 53 <= d -> -1074 <= ex + d - 53 -> d + ex <= 1023 ->
  exists m e,
    binary_round_aux 53 1024 s mx ex l = S754_finite s m e /\
    ((m1 < 2 ^ 53 /\ Zpos m = m1 /\ e = ex + d - 53) \/
     (m1 = 2 ^ 53 /\ Zpos m = 2 ^ 52 /\ e = ex + d - 52)).
Proof.
  intros d m1 Hmx Hd Hlo Hhi. unfold binary_round_aux.
  pose proof (loc_code_bounds l) as Hc.
  destruct (shr_fexp 53 1024 mx ex l) as [R1 e1] eqn:H1.
  pose proof (shr_fexp_loc mx ex l R1 e1 ltac:(lia) H1) as Hr1.
  apply shr_fexp_spec in H1 as (He1 & Hm1 & _); [|lia].
  cbn zeta in Hr1. rewrite fexp_eq in He1, Hm1, Hr1. fold d in He1, Hm1, Hr1.
  replace (Z.max (Z.max (d + ex - 53) (-1074) - ex) 0) with (d - 53) in * by lia.
  rewrite Hr1. fold m1.
  assert (Hdm : 2 ^ (d - 1) <= mx < 2 ^ d).
  { destruct mx as [|p|p]; try lia. apply digits2_pos_bounds. }
  assert (Hq : 2 ^ 52 <= mx / 2 ^ (d - 53) < 2 ^ 53).
  { assert (0 < 2 ^ (d - 53)) by (apply Z.pow_pos_nonneg; lia). split.
    - apply Z.div_le_lower_bound; [lia|].
      rewrite <- Z.pow_add_r by lia. replace (d - 53 + 52) with (d - 1) by lia. lia.
    - pose proof (div_pow2_lt mx d (d - 53) ltac:(lia) ltac:(lia)) as Hlt.
      by replace (d - (d - 53)) with 53 in Hlt by lia. }
  pose proof (rne_shift_bounds (4 * mx + loc_code l) (d - 53 + 2) ltac:(lia)) as Hb.
  fold m1 in Hb. rewrite div_4_pow2 in Hb by lia.
  destruct (Z_lt_le_dec m1 (2 ^ 53)) as [Hlt|Hge].
  - assert (Hd1 : Zdigits2 m1 = 53) by (apply Zdigits2_eq; [lia|]; change (53 - 1) with 52; lia).
    unfold shr_fexp. rewrite Hd1, fexp_eq.
    replace (Z.max (53 + e1 - 53) (-1074) - e1) with 0 by lia.
    cbn [shr shr_record_of_loc shr_m].
    destruct m1 as [|p|p] eqn:Hm1p; [lia| |lia].
    replace (1024 - 53) with 971 by reflexivity.
    destruct (Z.leb_spec e1 971); [|lia].
    exists p, e1. split; [done|]. left. lia.
  - assert (Hm1e : m1 = 2 ^ 53) by lia.
    unfold shr_fexp. rewrite Hm1e. change (Zdigits2 (2 ^ 53)) with 54. rewrite fexp_eq.
    replace (Z.max (54 + e1 - 53) (-1074) - e1) with 1 by lia.
    cbn [shr shr_record_of_loc]. change (shr_m _) with (2 ^ 52).
    change (2 ^ 52) with (Zpos 4503599627370496).
    replace (1024 - 53) with 971 by reflexivity.
    destruct (Z.leb_spec (e1 + 1) 971); [|lia].
    exists 4503599627370496%positive, (e1 + 1). split; [done|]. right. lia.
Qed.

(** The product of two normal doubles in the normal range: a normal double
    within half a unit in the last place of the exact product. *)
Lemma fmul_near mx ex my ey :
  2 ^ 52 <= Zpos mx < 2 ^ 53 -> 2 ^ 52 <= Zpos my < 2 ^ 53 ->
  -1074 <= ex + ey + 52 -> ex + ey + 106 <= 1023 ->
  exists m e,
    Py.fmul (S754_finite false mx ex) (S754_finite false my ey)
    = S754_finite false m e /\
    2 ^ 52 <= Zpos m < 2 ^ 53 /\
    52 <= e - (ex + ey) <= 54 /\
    2 * Z.abs (Zpos m * 2 ^ (e - (ex + ey)) - Zpos mx * Zpos my)
    <= 2 ^ (e - (ex + ey)).
Proof.
  intros Hmx Hmy Hlo Hhi.
  unfold Py.fmul. cbn [SFmul xorb]. change Py.prec with 53. change Py.emax with 1024.
  set (N := Zpos (mx * my)).
  assert (HN : N = Zpos mx * Zpos my) by (unfold N; lia).
  assert (HNb : 2 ^ 104 <= N < 2 ^ 106).
  { change (2 ^ 104) with (2 ^ 52 * 2 ^ 52). change (2 ^ 106) with (2 ^ 53 * 2 ^ 53). nia. }
  pose proof (Zdigits2_ge N 104 ltac:(lia)) as Hd1.
  pose proof (Zdigits2_le N 106 ltac:(lia) ltac:(lia)) as Hd2.
  destruct (binary_round_aux_exact false N (ex + ey)) as (m & e & Heq & Hcase); try lia.
  rewrite Heq. clear Heq. exists m, e. split; [done|].
  rewrite <- HN.
  assert (Hdm : 2 ^ (Zdigits2 N - 1) <= N < 2 ^ Zdigits2 N).
  { unfold N. apply digits2_pos_bounds. }
  set (d := Zdigits2 N) in *. set (n := d - 53) in *.
  pose proof (rne_shift_near N n ltac:(lia)) as Hnear.
  pose proof (rne_shift_bounds N n ltac:(lia)) as Hb.
  set (m1 := Py.rne_shift N n) in *.
  assert (Hpn : 0 < 2 ^ n) by (apply Z.pow_pos_nonneg; lia).
  assert (Hq : 2 ^ 52 <= N / 2 ^ n).
  { apply Z.div_le_lower_bound; [lia|].
    rewrite <- Z.pow_add_r by lia. replace (n + 52) with (d - 1) by lia. lia. }
  destruct Hcase as [(Hlt & Hm & He)|(Hm1 & Hm & He)].
  - replace (e - (ex + ey)) with n by lia. rewrite Hm. lia.
  - replace (e - (ex + ey)) with (n + 1) by lia. rewrite Hm.
    rewrite Z.pow_add_r by lia. change (2 ^ 1) with 2.
    split; [done|]. split; [lia|].
    replace (2 ^ 52 * (2 ^ n * 2)) with (2 ^ 53 * 2 ^ n) by (change (2 ^ 53) with (2 ^ 52 * 2); ring).
    rewrite <- Hm1. lia.
Qed.

Lemma new_location_even_code M r :
  0 < M -> Z.even M = true -> 0 <= r < M ->
  Z.abs (4 * r - M * loc_code (new_location M r)) < M.
Proof.
  intros HM Hev Hr. unfold new_location, new_location_even. rewrite Hev.
  destruct (Z.eqb_spec r 0) as [->|Hne]; [cbn [loc_code]; lia|].
  cbn [loc_code]. destruct (Z.compare_spec (2 * r) M); lia.
Qed.

(** Dividing a normal double by 1200.0: a normal double within three
    quarters of a unit in the last place of the exact quotient. *)
Lemma fdiv_1200_near mx ex :
  2 ^ 52 <= Zpos mx < 2 ^ 53 -> -1000 <= ex <= 900 ->
  exists m e,
    Py.fdiv (S754_finite false mx ex) (S754_finite false 5277655813324800 (-42))
    = S754_finite false m e /\
    2 ^ 52 <= Zpos m < 2 ^ 53 /\
    0 <= e - (ex - 11) <= 2 /\
    4 * Z.abs (Zpos m * 2 ^ (e - (ex - 11)) * 1200 - Zpos mx * 2 ^ 11)
    <= (2 ^ (e - (ex - 11) + 1) + 1) * 1200.
Proof.
  intros Hmx Hex. unfold Py.fdiv.
  cbn [SFdiv xorb]. change Py.prec with 53. change Py.emax with 1024.
  unfold SFdiv_core_binary.
  assert (Hdx : Zdigits2 (Zpos mx) = 53)
    by (apply Zdigits2_eq; [lia|]; change (53 - 1) with 52; lia).
  rewrite Hdx. change (Zdigits2 (Zpos 5277655813324800)) with 53. rewrite fexp_eq.
  replace (Z.min (Z.max (53 + ex - (53 + -42) - 53) (-1074)) (ex - -42))
    with (ex - 11) by lia.
  replace (ex - -42 - (ex - 11)) with 53 by lia.
  rewrite Z.shiftl_mul_pow2 by lia.
  set (M := Zpos 5277655813324800).
  assert (HM : M = 1200 * 2 ^ 42) by reflexivity.
  set (m' := Zpos mx * 2 ^ 53).
  destruct (Z.div_eucl m' M) as [q r] eqn:Hqr.
  assert (Hq : q = m' / M) by (unfold Z.div; by rewrite Hqr).
  assert (Hr : r = m' mod M) by (unfold Z.modulo; by rewrite Hqr).
  pose proof (Z.div_mod m' M ltac:(lia)) as Hdiv. rewrite <- Hq, <- Hr in Hdiv.
  pose proof (Z.mod_pos_bound m' M ltac:(lia)) as Hrb. rewrite <- Hr in Hrb.
  assert (Hqb : 2 ^ 52 <= q < 2 ^ 54).
  { assert (2 ^ 52 * M <= m') by (unfold m'; change (2 ^ 53) with (2 * 2 ^ 52);
      change M with 5277655813324800; change (2 ^ 52) with 4503599627370496 in *; lia).
    assert (m' < 2 ^ 54 * M) by (unfold m'; change M with 5277655813324800;
      change (2 ^ 54) with 18014398509481984; change (2 ^ 53) with 9007199254740992 in *; lia).
    rewrite Hq. split.
    - apply Z.div_le_lower_bound; lia.
    - apply Z.div_lt_upper_bound; lia. }
  pose proof (Zdigits2_ge q 52 ltac:(lia)) as Hd1.
  pose proof (Zdigits2_le q 54 ltac:(lia) ltac:(lia)) as Hd2.
  pose proof (new_location_even_code M r ltac:(lia) eq_refl Hrb) as Hloc.
  set (l := new_location M r) in *.
  pose proof (loc_code_bounds l) as Hc.
  destruct (binary_round_aux_near false q (ex - 11) l) as (m & e & Heq & Hcase); try lia.
  rewrite Heq. clear Heq. exists m, e. split; [done|].
  assert (Hdm : 2 ^ (Zdigits2 q - 1) <= q < 2 ^ Zdigits2 q).
  { destruct q as [|p|p]; try lia. apply digits2_pos_bounds. }
  set (d := Zdigits2 q) in *. set (n := d - 53) in *.
  pose proof (rne_shift_near (4 * q + loc_code l) (n + 2) ltac:(lia)) as Hnear.
  pose proof (rne_shift_bounds (4 * q + loc_code l) (n + 2) ltac:(lia)) as Hb.
  rewrite div_4_pow2 in Hb by lia.
  replace (d - 53 + 2) with (n + 2) in Hcase by lia.
  set (m1 := Py.rne_shift (4 * q + loc_code l) (n + 2)) in *.
  assert (Hpn : 0 < 2 ^ n) by (apply Z.pow_pos_nonneg; lia).
  rewrite Z.pow_add_r in Hnear by lia. change (2 ^ 2) with 4 in Hnear.
  assert (Hql : 2 ^ 52 <= q / 2 ^ n).
  { apply Z.div_le_lower_bound; [lia|].
    rewrite <- Z.pow_add_r by lia. replace (n + 52) with (d - 1) by lia. lia. }
  (* the quotient in units of the result: [m1 * 2^n] against [m' / M] *)
  assert (Hmain : 4 * Z.abs (m1 * 2 ^ n * M - m') <= (2 ^ (n + 1) + 1) * M).
  { rewrite Z.pow_add_r by lia. change (2 ^ 1) with 2.
    assert (4 * (m1 * 2 ^ n * M - m')
            = M * (m1 * (2 ^ n * 4) - (4 * q + loc_code l))
              - (4 * r - M * loc_code l)) as Hfac by (rewrite Hdiv; ring).
    assert (Z.abs (M * (m1 * (2 ^ n * 4) - (4 * q + loc_code l)))
            = M * Z.abs (m1 * (2 ^ n * 4) - (4 * q + loc_code l))) as Ha
      by (rewrite Z.abs_mul, (Z.abs_eq M); lia).
    assert (M * (2 * Z.abs (m1 * (2 ^ n * 4) - (4 * q + loc_code l)))
            <= M * (2 ^ n * 4)) as Hb' by (apply Z.mul_le_mono_nonneg_l; lia).
    pose proof (Z.abs_triangle (M * (m1 * (2 ^ n * 4) - (4 * q + loc_code l)))
                  (- (4 * r - M * loc_code l))) as Htri.
    rewrite Z.abs_opp in Htri.
    replace (4 * Z.abs (m1 * 2 ^ n * M - m'))
      with (Z.abs (4 * (m1 * 2 ^ n * M - m')))
      by (rewrite Z.abs_mul; reflexivity).
    rewrite Hfac. unfold Z.sub at 1.
    clear - Htri Ha Hb' Hloc Hpn. lia. }
  (* from [M = 1200 * 2^42] and [m' = mx * 2^53] to the statement *)
  assert (Hscale : forall t, 0 <= t ->
            4 * Z.abs (m1 * 2 ^ n * M - m') <= (2 ^ t * 2 + 1) * M ->
            4 * Z.abs (m1 * 2 ^ n * 1200 - Zpos mx * 2 ^ 11) <= (2 ^ t * 2 + 1) * 1200).
  { intros t Ht Hle. unfold m' in Hle. rewrite HM in Hle.
    assert (m1 * 2 ^ n * (1200 * 2 ^ 42) - Zpos mx * 2 ^ 53
            = 2 ^ 42 * (m1 * 2 ^ n * 1200 - Zpos mx * 2 ^ 11)) as Hfac
      by (change (2 ^ 53) with (2 ^ 42 * 2 ^ 11); ring).
    rewrite Hfac, Z.abs_mul, (Z.abs_eq (2 ^ 42)) in Hle by lia.
    assert (0 < 2 ^ t) by (apply Z.pow_pos_nonneg; lia).
    apply (Z.mul_le_mono_pos_l _ _ (2 ^ 42)); lia. }
  destruct Hcase as [(Hlt & Hm & He)|(Hm1 & Hm & He)].
  - replace (e - (ex - 11)) with n by lia. rewrite Hm.
    split; [lia|]. split; [lia|].
    rewrite Z.pow_add_r by lia. change (2 ^ 1) with 2.
    apply Hscale; [lia|]. rewrite Z.pow_add_r in Hmain by lia. exact Hmain.
  - replace (e - (ex - 11)) with (n + 1) by lia. rewrite Hm.
    split; [done|]. split; [lia|].
    assert (2 ^ 52 * 2 ^ (n + 1) = m1 * 2 ^ n) as ->
      by (rewrite Hm1, Z.pow_add_r by lia; change (2 ^ 53) with (2 ^ 52 * 2); ring).
    rewrite (Z.pow_add_r 2 (n + 1) 1) by lia. change (2 ^ 1) with 2.
    assert (0 < 2 ^ (n + 1)) by (apply Z.pow_pos_nonneg; lia).
    specialize (Hscale n ltac:(lia)).
    rewrite Z.pow_add_r in Hmain by lia. change (2 ^ 1) with 2 in Hmain.
    specialize (Hscale Hmain).
    rewrite (Z.pow_add_r 2 n 1) by lia. change (2 ^ 1) with 2. lia.
Qed.

(** The accuracy of the interest.  For an interest base from 0 up to
    [2^40] and a positive rate [mr * 2^er] below 128 given as a normal
    double, the interest is the exact value [base * rate / 1200] rounded to
    a nearest integer, up to one part in 1200:
    [|1200 * interest - base * rate| <= 601]. *)
Lemma interest_accuracy total withdrawn (mr : positive) (er : Z) :
  0 <= total - withdrawn < 2 ^ 40 ->
  2 ^ 52 <= Zpos mr < 2 ^ 53 -> -200 <= er <= -46 ->
  exists k,
    interest total withdrawn (S754_finite false mr er) = Ok k /\
    Z.abs (1200 * k * 2 ^ (- er) - (total - withdrawn) * Zpos mr)
    <= 601 * 2 ^ (- er).
Proof.
  intros Hbase Hmr Her. unfold interest. rewrite float_of_int_1200.
  set (base := total - withdrawn) in *.
  assert (HR : 0 < 2 ^ (- er)) by (apply Z.pow_pos_nonneg; lia).
  destruct (Z.eq_dec base 0) as [->|Hne].
  { exists 0. split; [reflexivity|]. lia. }
  destruct (float_of_int_exact base) as (mx & ex & -> & Hex & Hmx & Hmxb).
  { split; [lia|]. assert (2 ^ 40 < 2 ^ 53) by done. lia. }
  cbn [mbind result_bind].
  assert (HX : 0 < 2 ^ (- ex)) by (apply Z.pow_pos_nonneg; lia).
  assert (Hex13 : 13 <= - ex).
  { destruct (Z_le_gt_dec 13 (- ex)); [done|].
    assert (2 ^ (- ex) <= 2 ^ 12) by (apply Z.pow_le_mono_r; lia).
    assert (base * 2 ^ (- ex) < 2 ^ 40 * 2 ^ 12) by nia.
    change (2 ^ 40 * 2 ^ 12) with (2 ^ 52) in *. lia. }
  destruct (fmul_near mx ex mr er) as (mp & ep & -> & Hmpb & Ha & Hnearp); try lia.
  destruct (fdiv_1200_near mp ep) as (mq & eq & -> & Hmqb & Ht & Hnearq); try lia.
  set (a := ep - (ex + er)) in *. set (t := eq - (ep - 11)) in *.
  assert (Heq : eq < 0) by lia.
  destruct eq as [|g|g]; try lia.
  cbn [Py.round]. eexists; split; [reflexivity|].
  pose proof (rne_shift_near (Zpos mq) (Zpos g) ltac:(lia)) as Hneark.
  set (k := Py.rne_shift (Zpos mq) (Zpos g)) in *.
  set (G := 2 ^ Zpos g) in *. set (X := 2 ^ (- ex)) in *. set (R := 2 ^ (- er)) in *.
  assert (Hrel : G * (2 ^ t * 2 ^ a) = 2048 * (X * R)).
  { unfold G, X, R. change 2048 with (2 ^ 11). rewrite <- !Z.pow_add_r by lia.
    f_equal. lia. }
  assert (HXR : 2 ^ 59 <= X * R).
  { unfold X, R. rewrite <- Z.pow_add_r by lia. apply Z.pow_le_mono_r; lia. }
  set (XR := X * R) in *.
  set (u := k * G) in *. set (w := Zpos mx * Zpos mr) in *.
  assert (Hv : 2048 * (k * XR) = u * (2 ^ t * 2 ^ a)).
  { unfold u. rewrite <- Z.mul_assoc, Hrel. ring. }
  set (v := k * XR) in *.
  assert (Hscaled : Z.abs (1200 * v - w) <= 601 * XR).
  { assert (Hat : (a = 52 \/ a = 53 \/ a = 54) /\ (t = 0 \/ t = 1 \/ t = 2)) by lia.
    clearbody a t u v w XR G. clear - Hat Hrel HXR Hv Hneark Hnearq Hnearp.
    destruct Hat as [[->|[->| ->]] [->|[->| ->]]];
      change (2 ^ 0) with 1 in *; change (2 ^ 1) with 2 in *;
      change (2 ^ 2) with 4 in *; change (2 ^ (0 + 1)) with 2 in *;
      change (2 ^ (1 + 1)) with 4 in *; change (2 ^ (2 + 1)) with 8 in *;
      change (2 ^ 11) with 2048 in *;
      change (2 ^ 52) with 4503599627370496 in *;
      change (2 ^ 53) with 9007199254740992 in *;
      change (2 ^ 54) with 18014398509481984 in *;
      change (2 ^ 59) with 576460752303423488 in *; lia. }
  assert (Hfac : 1200 * v - w = X * (1200 * k * R - base * Zpos mr)).
  { unfold v, w, XR. rewrite Hmx. fold X. ring. }
  rewrite Hfac, Z.abs_mul, (Z.abs_eq X) in Hscaled by lia.
  apply (Z.mul_le_mono_pos_l _ _ X); [lia|]. unfold XR in Hscaled. lia.
Qed.

(** X20: the accuracy of the interest of [calculate_monthly_balances].  For a
    positive rate [mr * 2^er] below 128 given as a normal double, the
    interest of a share whose base (the sum of its balances minus the sum
    of its withdrawals) lies from 0 up to [2^40] is the exact value
    [base * rate / 1200] rounded to a nearest integer, up to one part in
    1200: [|1200 * interest - base * rate| <= 601]. *)
Theorem calculate_monthly_balances_interest_accuracy
    ob_ee ob_er ee_c er_c ee_w er_w (mr : positive) (er : Z) eb rb ei ri :
  calculate_monthly_balances ob_ee ob_er ee_c er_c ee_w er_w
    (S754_finite false mr er) = Ok (eb, rb, ei, ri) ->
  2 ^ 52 <= Zpos mr < 2 ^ 53 -> -200 <= er <= -46 ->
  (0 <= Py.sum eb - Py.sum ee_w < 2 ^ 40 ->
   Z.abs (1200 * ei * 2 ^ (- er) - (Py.sum eb - Py.sum ee_w) * Zpos mr)
   <= 601 * 2 ^ (- er)) /\
  (0 <= Py.sum rb - Py.sum er_w < 2 ^ 40 ->
   Z.abs (1200 * ri * 2 ^ (- er) - (Py.sum rb - Py.sum er_w) * Zpos mr)
   <= 601 * 2 ^ (- er)).
Proof.
  rewrite calculate_monthly_balances_cases. cbn zeta.
  case_decide as Hlen; [|done].
  intros (ei' & Hei & (ri' & Hri & [= <- <- <- <-])%bind_Ok)%bind_Ok Hmr Her.
  split; intros Hbase.
  - destruct (interest_accuracy _ _ mr er Hbase Hmr Her) as (k & Hk & Hnear).
    rewrite Hei in Hk. by injection Hk as <-.
  - destruct (interest_accuracy _ _ mr er Hbase Hmr Her) as (k & Hk & Hnear).
    rewrite Hri in Hk. by injection Hk as <-.
Qed.

End Division.

Lemma calculate_monthly_balances_interest_accuracy_witness :
  Z.abs (1200 * 142 * 2 ^ (- -49)
         - (Py.sum [10000; 10500] - Py.sum [500; 0]) * 4785074604081152)
  <= 601 * 2 ^ (- -49).
Proof.
  apply (proj1 (calculate_monthly_balances_interest_accuracy 10000 3000
                  [1000; 1000] [300; 300] [500; 0] [150; 0]
                  4785074604081152 (-49) [10000; 10500] [3000; 3150] 142 42
                  eq_refl ltac:(vm_compute; split; [discriminate|reflexivity])
                  ltac:(vm_compute; split; discriminate)));
    vm_compute; split; [discriminate|reflexivity].
Defined.

Lemma main_file_events_witness :
  exists c' new,
    main no_text sample_float_of_text sample_load_workbook xlsx_write_error
      sample_console
    = (Returns "ERROR"%string, c') /\
    trace c' = trace sample_console ++ new /\
    file_events new
    = [LoadWorkbook "InputFiles/Input.xlsx"; WriteCsv "output.csv" sample_output;
       WriteExcel "Output.xlsx" sample_output] /\
    sample_float_of_text "8.5" = Some sample_rate /\
    pending sample_console = ["maybe"; "Y"; "8.5"]%string ++ pending c'.
Proof.
  destruct (main_file_events no_text sample_float_of_text sample_load_workbook
              xlsx_write_error sample_console)
    as (o & c' & new & Hmain & Htr & _).
  assert (Hrun :
    main no_text sample_float_of_text sample_load_workbook xlsx_write_error
      sample_console
    = (Returns "ERROR"%string,
       snd (main no_text sample_float_of_text sample_load_workbook
              xlsx_write_error sample_console)))
    by (vm_compute; reflexivity).
  rewrite Hrun in Hmain. apply (f_equal snd) in Hmain as Hc'.
  cbn [snd] in Hc'. subst c'.
  exists (snd (main no_text sample_float_of_text sample_load_workbook
                 xlsx_write_error sample_console)), new.
  split; [exact Hrun|]. split; [exact Htr|].
  cbn [trace sample_console app] in Htr. rewrite <- Htr.
  split; [vm_compute; reflexivity|]. split; vm_compute; reflexivity.
Defined.
